(** * Laboratory-record harmonisation: a shallow embedding of
      [lab_preprocessing.py] and the properties of its pipeline.

    Tables (pandas DataFrames) are lists of rows in index order; a row
    of the canonical long table is a record.  Numeric cells are IEEE
    binary64 numbers, as numpy's [float64] is; text cells are byte
    strings (UTF-8).  Raised exceptions are values of [exn]. *)

From Stdlib Require Import String Ascii List Bool Arith ZArith Lia.
From Stdlib Require Import Floats Uint63 Permutation.
Import ListNotations.

Set Warnings "-inexact-float".
Open Scope string_scope.
Open Scope list_scope.

(** [Series.unique()]: the distinct values in order of first appearance,
    for the equality test [eqb] of the column's values. *)
Fixpoint unique_by {A : Type} (eqb : A -> A -> bool) (l : list A) : list A :=
  match l with
  | [] => []
  | x :: t => x :: filter (fun y => negb (eqb x y)) (unique_by eqb t)
  end.

(** Sorting, as [groupby] sorts its group keys. *)
Fixpoint insert_sorted {A : Type} (leb : A -> A -> bool) (x : A) (l : list A) : list A :=
  match l with
  | [] => [x]
  | y :: t => if leb x y then x :: l else y :: insert_sorted leb x t
  end.

Definition sort_by {A : Type} (leb : A -> A -> bool) (l : list A) : list A :=
  fold_right (insert_sorted leb) [] l.

(** ** Python string operations used by the pipeline *)

Module PyStr.

(** [pat in s]: substring test; what [Series.str.contains(pat)] computes
    for a pattern without regular-expression metacharacters. *)
Fixpoint contains (pat s : string) : bool :=
  String.prefix pat s ||
  match s with
  | EmptyString => false
  | String _ t => contains pat t
  end.

Definition startswith (p s : string) : bool := String.prefix p s.

(** [s.split(sep)] for a non-empty separator.  [skip] counts the
    characters of a separator occurrence still to be passed over, [cur]
    is the piece being collected. *)
Fixpoint split_aux (sep : string) (skip : nat) (cur s : string) : list string :=
  match s with
  | EmptyString => [cur]
  | String c t =>
      match skip with
      | S k => split_aux sep k cur t
      | O =>
          if String.prefix sep s
          then cur :: split_aux sep (String.length sep - 1) EmptyString t
          else split_aux sep 0 (cur ++ String c EmptyString) t
      end
  end.

Definition split (sep s : string) : list string := split_aux sep 0 EmptyString s.

(** [sep.join(l)] *)
Definition join (sep : string) (l : list string) : string := String.concat sep l.

(** [s.replace(c, '')] for a one-character [c]. *)
Fixpoint remove_char (c : ascii) (s : string) : string :=
  match s with
  | EmptyString => EmptyString
  | String d t => if Ascii.eqb c d then remove_char c t else String d (remove_char c t)
  end.

(** [s.encode('ascii', errors='ignore').decode('utf-8')]: every byte of a
    UTF-8 encoded non-ASCII code point is at least 128, so dropping those
    bytes drops exactly the non-ASCII code points. *)
Fixpoint ascii_only (s : string) : string :=
  match s with
  | EmptyString => EmptyString
  | String d t =>
      if Nat.ltb (nat_of_ascii d) 128 then String d (ascii_only t) else ascii_only t
  end.

Fixpoint repeat_char (c : ascii) (n : nat) : string :=
  match n with
  | O => EmptyString
  | S k => String c (repeat_char c k)
  end.

(** [Series.str.zfill(width)], as [str.zfill]: zeros on the left, put
    after a leading sign.  The width is counted in bytes, which are the
    characters of an ASCII text such as the digits of an identifier. *)
Definition zfill (width : nat) (s : string) : string :=
  let zeros := repeat_char "0"%char (width - String.length s) in
  match s with
  | String c t =>
      if Ascii.eqb c "+" || Ascii.eqb c "-" then String c (zeros ++ t) else zeros ++ s
  | EmptyString => zeros ++ s
  end.

Definition upper_ascii (c : ascii) : ascii :=
  let n := nat_of_ascii c in
  if Nat.leb 97 n && Nat.leb n 122 then ascii_of_nat (n - 32) else c.

Fixpoint upper (s : string) : string :=
  match s with
  | EmptyString => EmptyString
  | String c t => String (upper_ascii c) (upper t)
  end.

(** [Series.str.contains(pat, case=False)] for an ASCII pattern. *)
Definition contains_nocase (pat s : string) : bool := contains (upper pat) (upper s).

(** [x in l], [Series.isin(l)] on text. *)
Definition isin (x : string) (l : list string) : bool := existsb (String.eqb x) l.

(** [Series.unique()] on text. *)
Definition unique (l : list string) : list string := unique_by String.eqb l.

End PyStr.

(** ** Plain decimal literals

    [pd.to_numeric] and Python's [float] are library functions; the
    pipeline below takes them as parameters.  [parse_decimal] stands in
    for them in the runs on concrete tables: it reads the literals
    [[+-]digits[.digits]] of at most 15 digits and gives the binary64
    number nearest to the literal, as [float] does (mantissa and power
    of ten are exact binary64 numbers, their quotient is rounded once);
    any other text, such as 'abc', is no number for it. *)

Module Literal.

Definition digit (c : ascii) : option Z :=
  let n := nat_of_ascii c in
  if Nat.leb 48 n && Nat.leb n 57 then Some (Z.of_nat (n - 48)) else None.

(** [digits acc n s]: the digits of [s] appended to [acc]; [n] counts them. *)
Fixpoint digits (acc : Z) (n : nat) (s : string) : option (Z * nat * string) :=
  match s with
  | EmptyString => Some (acc, n, EmptyString)
  | String c t =>
      match digit c with
      | Some d => digits (10 * acc + d) (S n) t
      | None => Some (acc, n, s)
      end
  end.

Definition of_Z (z : Z) : float := PrimFloat.of_uint63 (Uint63.of_Z z).

Definition unsigned (s : string) : option float :=
  match digits 0 0 s with
  | Some (m, n, EmptyString) =>
      if Nat.ltb 0 n && Nat.leb n 15 then Some (of_Z m) else None
  | Some (m, n, String "."%char frac) =>
      match digits m n frac with
      | Some (m', n', EmptyString) =>
          if Nat.ltb 0 n' && Nat.leb n' 15
          then Some (of_Z m' / of_Z (10 ^ Z.of_nat (n' - n)))%float
          else None
      | _ => None
      end
  | _ => None
  end.

Definition parse_decimal (s : string) : option float :=
  match s with
  | String "-"%char t => option_map PrimFloat.opp (unsigned t)
  | String "+"%char t => unsigned t
  | _ => unsigned s
  end.

(** As [pd.to_numeric(., errors='coerce')] sees a text: NaN when it is
    no number. *)
Definition to_numeric (s : string) : float :=
  match parse_decimal s with
  | Some x => x
  | None => nan
  end.

End Literal.

(** ** Cells, rows and raised errors *)

(** A cell of an [object] column: a text or a float; a missing value is
    the float NaN. *)
Inductive cell : Type :=
| Str (s : string)
| Num (x : float).

Definition NaN : cell := Num nan.

(** [pd.isna] *)
Definition isna (c : cell) : bool :=
  match c with
  | Str _ => false
  | Num x => PrimFloat.is_nan x
  end.

(** Equality of cells as [Series.unique] and [Series.isin] decide it
    (hash-table lookup: all NaN are one value). *)
Definition cell_eqb (a b : cell) : bool :=
  match a, b with
  | Str s, Str t => String.eqb s t
  | Num x, Num y => PrimFloat.eqb x y || (PrimFloat.is_nan x && PrimFloat.is_nan y)
  | _, _ => false
  end.

(** [value == literal] for a text literal. *)
Definition cell_is (c : cell) (lit : string) : bool :=
  match c with
  | Str s => String.eqb s lit
  | Num _ => false
  end.

Definition unique_cells (l : list cell) : list cell := unique_by cell_eqb l.

(** [value.isin(tokens)] for a list of texts. *)
Definition cell_isin (c : cell) (tokens : list string) : bool :=
  match c with
  | Str s => PyStr.isin s tokens
  | Num _ => false
  end.

(** A row of the long table ([target_structure_columns]).  The label,
    material and unit columns hold text. *)
Record lab_row : Type := mk_row {
  case_admission_id : string;
  sample_date : string;
  analyse_label : string;
  dosage_label : string;
  material_label : string;
  unit_of_measure : string;
  value : cell;
  lower_limit : cell;
  upper_limit : cell
}.

Definition table : Type := list lab_row.

Definition set_value (v : cell) (r : lab_row) : lab_row :=
  mk_row (case_admission_id r) (sample_date r) (analyse_label r) (dosage_label r)
         (material_label r) (unit_of_measure r) v (lower_limit r) (upper_limit r).

Definition set_dosage_label (l : string) (r : lab_row) : lab_row :=
  mk_row (case_admission_id r) (sample_date r) (analyse_label r) l
         (material_label r) (unit_of_measure r) (value r) (lower_limit r) (upper_limit r).

Definition set_material_label (m : string) (r : lab_row) : lab_row :=
  mk_row (case_admission_id r) (sample_date r) (analyse_label r) (dosage_label r)
         m (unit_of_measure r) (value r) (lower_limit r) (upper_limit r).

Definition set_unit_of_measure (u : string) (r : lab_row) : lab_row :=
  mk_row (case_admission_id r) (sample_date r) (analyse_label r) (dosage_label r)
         (material_label r) u (value r) (lower_limit r) (upper_limit r).

(** Exceptions the modelled code raises. *)
Inductive exn : Type :=
| IndexError
| KeyError (column : string)
| ValueError_length_mismatch
| ValueError_no_objects_to_concatenate
| ValueError_materials (dosage_label : string) (materials : list string)
| ValueError_units (dosage_label : string) (units : list string)
| ValueError_non_numerical (values : list cell)
| ValueError_float (text : string)
| AttributeError_str_accessor.

Inductive result (A : Type) : Type :=
| Ok (a : A)
| Raise (e : exn).

Arguments Ok {A} a.
Arguments Raise {A} e.

Definition bind {A B : Type} (m : result A) (k : A -> result B) : result B :=
  match m with
  | Ok a => k a
  | Raise e => Raise e
  end.

Notation "x <- m ;; k" := (bind m (fun x => k))
  (at level 61, m at next level, right associativity).
Notation "' pat <- m ;; k" := (bind m (fun x => match x with pat => k end))
  (at level 61, pat pattern, m at next level, right associativity).

(** ** [correct_non_numerical_values] *)

(** One assignment of the function: the labels tested ([==] or [isin]),
    the literal compared with the value, and the number assigned, written
    as in the source. *)
Definition rule : Type := (list string * string * float)%type.

Definition correction_rules : list rule :=
  [ (["glucose"], ">83.2", 83.2 + 0.05 * 83.2);
    (["proBNP"], ">70000", 70000 + 0.05 * 70000);
    (["Activité anti-Xa (DOAC)"; "Activite anti-Xa (DOAC)"], ">474", 474 + 0.05 * 474);
    (["Activité anti-Xa (DOAC)"; "Activite anti-Xa (DOAC)"], ">445", 445 + 0.05 * 445);
    (["PTT"], ">160.0", 160.0 + 0.05 * 160.0);
    (["INR"], ">11.00", 11.00 + 0.05 * 11.00);
    (["fibrinogène"; "fibrinogene"], ">11.00", 11.00 + 0.05 * 11.00);
    (["fibrinogène"; "fibrinogene"], ">11.0", 11.0 + 0.05 * 11.0);
    (["activité anti-Xa (HBPM), thérapeutique, 2x /jour";
      "activite anti-Xa (HBPM), therapeutique, 2x /jour"], ">1.60", 1.60 + 0.05 * 1.60);
    (["activité anti-Xa (HNF)"; "activite anti-Xa (HNF)"], ">1.31", 1.31 + 0.05 * 1.31);
    (["activité anti-Xa (HNF)"; "activite anti-Xa (HNF)"], ">1.20", 1.20 + 0.05 * 1.20);
    (["sodium"], ">180", 180 + 0.05 * 180);
    (["protéine C-réactive"; "proteine C-reactive"], ">200.00", 200.00 + 0.05 * 200.00);
    (["ALAT"], "<5", 5 - 0.05 * 5);
    (["bilirubine totale"], "<3", 3 - 0.05 * 3);
    (["Activité anti-Xa (DOAC)"; "Activite anti-Xa (DOAC)"], "<10", 10 - 0.05 * 10);
    (["INR"], "<1.00", 1.00 - 0.05 * 1.00);
    (["fibrinogène"; "fibrinogene"], "<0.7", 0.7 - 0.05 * 0.7);
    (["fibrinogène"; "fibrinogene"], "<0.5", 0.5 - 0.05 * 0.5);
    (["fibrinogène"; "fibrinogene"], "<0.4", 0.4 - 0.05 * 0.4);
    (["protéine C-réactive"; "proteine C-reactive"], "<0.30", 0.30 - 0.05 * 0.30);
    (["cholestérol HDL"; "cholesterol HDL"], "<0.08", 0.08 - 0.05 * 0.08);
    (["créatinine"; "creatinine"], "<18", 18 - 0.05 * 18)
  ]%float.

(** [value.str.replace("'", "")]: the [.str] accessor gives NaN on a cell
    that is no text. *)
Definition strip_apostrophes (r : lab_row) : lab_row :=
  match value r with
  | Str s => set_value (Str (PyStr.remove_char "'"%char s)) r
  | Num _ => set_value NaN r
  end.

Definition rule_applies (ru : rule) (r : lab_row) : bool :=
  let '(labels, literal, _) := ru in
  PyStr.isin (dosage_label r) labels && cell_is (value r) literal.

(** [df.loc[label-test & (df['value'] == literal), 'value'] = number] *)
Definition apply_rule (ru : rule) (r : lab_row) : lab_row :=
  if rule_applies ru r then set_value (Num (snd ru)) r else r.

Definition correct_non_numerical_values (df : table) : table :=
  fold_left (fun t ru => map (apply_rule ru) t) correction_rules
            (map strip_apostrophes df).


(** ** The stages of [preprocess_labs] *)

(** A row of the input table: the columns the pipeline reads; the other
    columns are dropped on entry ([columns_to_drop]).  The table is read
    with [dtype=str]: a value is a text or missing. *)
Record input_row : Type := mk_input {
  patient_id : string;
  eds_end_4digit : string;
  columns : lab_row
}.

Definition set_case_admission_id (c : string) (r : lab_row) : lab_row :=
  mk_row c (sample_date r) (analyse_label r) (dosage_label r)
         (material_label r) (unit_of_measure r) (value r) (lower_limit r) (upper_limit r).

(** utils.py: [patient_id + '_' + eds_end_4digit.str.zfill(4)] *)
Definition create_ehr_case_identification_column (df : list input_row) : list string :=
  map (fun x => (patient_id x ++ "_" ++ PyStr.zfill 4 (eds_end_4digit x))%string) df.

(** [lab_df['case_admission_id'] = ...; lab_df.drop(columns_to_drop)] *)
Definition identified (df : list input_row) : table :=
  map (fun xc => set_case_admission_id (snd xc) (columns (fst xc)))
      (combine df (create_ehr_case_identification_column df)).

Definition blood_material_equivalents : list string :=
  ["sga"; "sgv"; "sgvm"; "sgc"; "sgv ponction"; "sgv cathéter"; "sga cathéter";
   "cathéter artériel"; "cathéter veineux"; "plasma"; "Sang"; "sg cordon";
   "sgv catheter"; "sga catheter"; "catheter arteriel"; "catheter veineux"].

Definition unit_of_measure_equivalents : list (list string) := [["UI/ml"; "U/ml"]].

Definition non_numerical_values_to_remove : list string :=
  ["ERROR"; "nan"; "SANS RES."; "Hémolysé"; "Hemolyse"; "sans resultat"; "voir POCT";
   "NON REALISE"; "NON INTERPRÉT."; "NON INTERPRET."; "COA"; "TAM"; "****.**";
   "-100000.0"; "----"].

Definition blood_gas_labels : list string := ["pO2"; "pCO2"; "pH"].

(** What the function reports besides the table (printed, and written
    under [log_dir]). *)
Record audit : Type := mk_audit {
  included_dosage_labels : list string;
  dropped_dosage_labels : list string;
  excluded_material : list string;
  negative_values_warning : bool;
  n_observations_out_ouf_range : nat;
  median_observations_per_case_admission_id : list (string * float)
}.

(** [df.loc[df[column].isin(equivalence_list[1:]), column] = equivalence_list[0]];
    indexing an empty list raises. *)
Definition replace_equivalents (get : lab_row -> string) (set : string -> lab_row -> lab_row)
    (equivalence_list : list string) (df : table) : result table :=
  match equivalence_list with
  | [] => Raise IndexError
  | canonical :: others =>
      Ok (map (fun r => if PyStr.isin (get r) others then set canonical r else r) df)
  end.

Fixpoint replace_all_equivalents (get : lab_row -> string) (set : string -> lab_row -> lab_row)
    (groups : list (list string)) (df : table) : result table :=
  match groups with
  | [] => Ok df
  | g :: gs =>
      df' <- replace_equivalents get set g df ;;
      replace_all_equivalents get set gs df'
  end.

(** [Series.between(lo, hi)]: both bounds inclusive. *)
Definition between (x lo hi : float) : bool := PrimFloat.leb lo x && PrimFloat.leb x hi.

(** The number in a cell of a [float64] column. *)
Definition as_float (c : cell) : float :=
  match c with
  | Num x => x
  | Str _ => nan
  end.

Definition dropna (df : table) : table := filter (fun r => negb (isna (value r))) df.

Definition is_blood_gas (gas : string) (r : lab_row) : bool :=
  PyStr.contains gas (dosage_label r).

(** One round of the loop over ['pO2', 'pCO2', 'pH']: drop the rows of
    the label whose material is not 'sga', then raise when 'sga' and
    another material are left for the label. *)
Definition blood_gas_step (gas : string) (df : table) : result table :=
  let df' := filter (fun r => negb (is_blood_gas gas r
                                    && negb (String.eqb (material_label r) "sga"))) df in
  let dosage_label_materials :=
    PyStr.unique (map material_label (filter (is_blood_gas gas) df')) in
  if PyStr.isin "sga" dosage_label_materials && Nat.ltb 1 (List.length dosage_label_materials)
  then Raise (ValueError_materials gas dosage_label_materials)
  else Ok df'.

Fixpoint blood_gas_loop (gases : list string) (df : table) : result table :=
  match gases with
  | [] => Ok df
  | gas :: rest => df' <- blood_gas_step gas df ;; blood_gas_loop rest df'
  end.

Definition units_for (label : string) (df : table) : list string :=
  PyStr.unique (map unit_of_measure
                    (filter (fun r => String.eqb (dosage_label r) label) df)).

(** "check that units correspond": the first label, in order of
    appearance, with more than one unit raises. *)
Fixpoint check_units (labels : list string) (df : table) : result unit :=
  match labels with
  | [] => Ok tt
  | label :: rest =>
      if Nat.ltb 1 (List.length (units_for label df))
      then Raise (ValueError_units label (units_for label df))
      else check_units rest df
  end.

(** [groupby(['case_admission_id', 'dosage_label'])['value'].count()]:
    one entry per key present, keys sorted, counting the values that are
    not missing. *)
Definition key_eqb (a b : string * string) : bool :=
  String.eqb (fst a) (fst b) && String.eqb (snd a) (snd b).

Definition key_leb (a b : string * string) : bool :=
  if String.eqb (fst a) (fst b) then String.leb (snd a) (snd b)
  else String.leb (fst a) (fst b).

Definition group_count (df : table) (k : string * string) : nat :=
  List.length (filter (fun r => key_eqb (case_admission_id r, dosage_label r) k
                                && negb (isna (value r))) df).

Definition observations_per_case_admission_id (df : table) : list (string * string * nat) :=
  map (fun k => (fst k, snd k, group_count df k))
      (sort_by key_leb (unique_by key_eqb
                          (map (fun r => (case_admission_id r, dosage_label r)) df))).

Definition float_of_nat (n : nat) : float := PrimFloat.of_uint63 (Uint63.of_Z (Z.of_nat n)).

(** The median of a column of counts: the middle of the sorted counts,
    the mean of the two middle ones when their number is even. *)
Definition median (counts : list nat) : float :=
  let s := sort_by Nat.leb counts in
  let n := List.length s in
  if Nat.eqb n 0 then nan
  else if Nat.odd n then float_of_nat (nth (n / 2) s 0)
  else ((float_of_nat (nth (n / 2 - 1)%nat s 0%nat)
         + float_of_nat (nth (n / 2)%nat s 0%nat)) / 2)%float.

(** [.groupby('dosage_label').median()] of the counts. *)
Definition median_per_dosage_label (counts : list (string * string * nat))
  : list (string * float) :=
  map (fun l => (l, median (map snd (filter (fun c => String.eqb (snd (fst c)) l) counts))))
      (sort_by String.leb (PyStr.unique (map (fun c => snd (fst c)) counts))).

(** ** [preprocess_labs]

    The function on a table in the long shape (the branch
    [reorganised_lab_df = lab_df]); the reshape of a wide table is
    [Reshape.reorganised_lab_df] below.  The index of the table is taken
    to be unique, so that dropping the labels of a selection drops its
    rows.  The descriptive statistics, only printed and logged, are left
    out.  Library functions and the reference tables read from disk are
    parameters: [nfkd] is [unicodedata.normalize('NFKD', .)], [to_numeric]
    is what [pd.to_numeric(., errors='coerce')] makes of one text;
    [equivalent_labels] holds the columns of equivalent_labels.csv after
    [dropna()], [dosage_units] the columns of dosage_units.csv under their
    headers, [possible_value_ranges] the rows (variable_label, Min, Max)
    of possible_ranges_for_variables.xlsx that have a label. *)

Section Pipeline.

Variable nfkd : string -> string.
Variable to_numeric : string -> float.
Variable equivalent_labels : list (list string).
Variable dosage_units : list (string * list string).
Variable possible_value_ranges : list (string * float * float).
Variable selected_variables : list string.
Variable material_to_include : list string.

(** [x.str.normalize('NFKD').str.encode('ascii', errors='ignore').str.decode('utf-8')] *)
Definition remove_accents (s : string) : string := PyStr.ascii_only (nfkd s).

Definition remove_accents_cell (c : cell) : cell :=
  match c with
  | Str s => Str (remove_accents s)
  | Num _ => NaN
  end.

(** utils.py, applied to every text column. *)
Definition remove_french_accents_and_cedillas_from_dataframe (df : table) : table :=
  map (fun r => mk_row (remove_accents (case_admission_id r))
                       (remove_accents (sample_date r))
                       (remove_accents (analyse_label r))
                       (remove_accents (dosage_label r))
                       (remove_accents (material_label r))
                       (remove_accents (unit_of_measure r))
                       (remove_accents_cell (value r))
                       (remove_accents_cell (lower_limit r))
                       (remove_accents_cell (upper_limit r))) df.

Definition is_selected (r : lab_row) : bool := PyStr.isin (dosage_label r) selected_variables.

(** PROCESSING LABELS: the table, the labels kept and the labels dropped. *)
Definition process_labels (lab_df : list input_row)
  : result (table * list string * list string) :=
  df <- replace_all_equivalents dosage_label set_dosage_label equivalent_labels
          (identified lab_df) ;;
  let df := remove_french_accents_and_cedillas_from_dataframe df in
  let dropped := PyStr.unique (map dosage_label (filter (fun r => negb (is_selected r)) df)) in
  let df := filter is_selected df in
  Ok (df, PyStr.unique (map dosage_label df), dropped).

Definition merge_blood_materials (df : table) : table :=
  map (fun r => if PyStr.isin (material_label r) blood_material_equivalents
                then set_material_label "any_blood" r else r) df.

Definition is_included_material (r : lab_row) : bool :=
  PyStr.isin (material_label r) material_to_include.

(** PROCESSING MATERIALS: the table and the materials excluded. *)
Definition process_materials (df : table) : result (table * list string) :=
  let df := merge_blood_materials df in
  let excluded := filter (fun m => negb (PyStr.isin m material_to_include))
                         (PyStr.unique (map material_label df)) in
  let df := filter is_included_material df in
  df <- blood_gas_loop blood_gas_labels df ;;
  Ok (df, excluded).

(** "Only retain certain units": for a column of dosage_units.csv, drop
    the rows of its label whose unit is not listed in it. *)
Definition retain_units (df : table) (column : string * list string) : table :=
  filter (fun r => negb (String.eqb (dosage_label r) (fst column)
                         && negb (PyStr.isin (unit_of_measure r) (snd column)))) df.

(** The table as the unit check sees it. *)
Definition reconcile_units (df : table) : result table :=
  df <- replace_all_equivalents unit_of_measure set_unit_of_measure
          unit_of_measure_equivalents df ;;
  Ok (fold_left retain_units dosage_units df).

(** PROCESSING UNITS OF MEASURE *)
Definition process_units (df : table) : result table :=
  df <- reconcile_units df ;;
  _ <- check_units (PyStr.unique (map dosage_label df)) df ;;
  Ok df.

(** [pd.to_numeric] on a cell: a float is kept. *)
Definition to_numeric_cell (c : cell) : float :=
  match c with
  | Str s => to_numeric s
  | Num x => x
  end.

(** The rows the non-numerical check looks at: values corrected, tokens
    of the exclusion list and missing values removed. *)
Definition remove_non_numerical (df : table) : table :=
  dropna (filter (fun r => negb (cell_isin (value r) non_numerical_values_to_remove))
                 (correct_non_numerical_values df)).

Definition remaining_non_numerical_values (df : table) : list cell :=
  unique_cells (map value (filter (fun r => PrimFloat.is_nan (to_numeric_cell (value r))) df)).

(** PROCESSING VALUES, up to the conversion of the column to numbers. *)
Definition process_values (df : table) : result table :=
  let df := remove_non_numerical df in
  if Nat.ltb 0 (List.length (remaining_non_numerical_values df))
  then Raise (ValueError_non_numerical (remaining_non_numerical_values df))
  else Ok (map (fun r => set_value (Num (to_numeric_cell (value r))) r) df).

Definition is_negative (r : lab_row) : bool := PrimFloat.ltb (as_float (value r)) 0.

(** "correct negative values": the table and whether the warning is given. *)
Definition correct_negative_values (df : table) : table * bool :=
  let df := map (fun r => if PyStr.isin (dosage_label r) ["hémoglobine"; "hemoglobine"]
                             && is_negative r then set_value NaN r else r) df in
  let df := map (fun r => if String.eqb (dosage_label r) "glucose"
                             && is_negative r then set_value NaN r else r) df in
  let df := dropna df in
  (df, Nat.ltb 0 (List.length
                    (filter (fun r => is_negative r
                                      && negb (PyStr.contains "cBase" (dosage_label r))) df))).

(** The first row of the range table for a variable
    ([possible_value_ranges_for_variable[.].values[0]]). *)
Definition range_of (variable : string) : option (float * float) :=
  match find (fun row => String.eqb (fst (fst row)) variable) possible_value_ranges with
  | Some (_, lo, hi) => Some (lo, hi)
  | None => None
  end.

Definition out_of_range (variable : string) (r : lab_row) : bool :=
  match range_of variable with
  | Some (lo, hi) =>
      String.eqb (dosage_label r) variable && negb (between (as_float (value r)) lo hi)
  | None => false
  end.

(** One round of the loop over the variables of the range table. *)
Definition null_out_of_range (df : table) (variable : string) : table :=
  map (fun r => if out_of_range variable r then set_value NaN r else r) df.

Definition range_variables : list string :=
  PyStr.unique (map (fun row => fst (fst row)) possible_value_ranges).

(** "restrict to possible value ranges": the table and the count reported. *)
Definition restrict_to_possible_value_ranges (df : table) : table * nat :=
  let df := fold_left null_out_of_range range_variables df in
  (dropna df, List.length (filter (fun r => isna (value r)) df)).

Definition preprocess_labs (lab_df : list input_row) : result (table * audit) :=
  '(df, included, dropped) <- process_labels lab_df ;;
  '(df, excluded) <- process_materials df ;;
  df <- process_units df ;;
  df <- process_values df ;;
  let '(df, warning) := correct_negative_values df in
  let '(df, n_out) := restrict_to_possible_value_ranges df in
  Ok (df, mk_audit included dropped excluded warning n_out
            (median_per_dosage_label (observations_per_case_admission_id df))).

End Pipeline.

(** ** The wide-to-long reshape of [preprocess_labs]

    A table with named columns: the column names and, for each row, its
    cells in the order of the columns.  Column names are taken to be
    distinct, as they are in a table read from a file. *)

Module Reshape.

Record frame : Type := mk_frame {
  frame_columns : list string;
  frame_rows : list (list cell)
}.

Definition identification_columns : list string := ["case_admission_id"; "sample_date"].

Definition target_structure_columns : list string :=
  ["case_admission_id"; "sample_date"; "analyse_label"; "dosage_label"; "material_label";
   "unit_of_measure"; "value"; "lower_limit"; "upper_limit"].

Fixpoint position (c : string) (cols : list string) : option nat :=
  match cols with
  | [] => None
  | d :: t => if String.eqb c d then Some 0 else option_map S (position c t)
  end.

(** The cell of a row under a column; NaN where the table has no such column. *)
Definition cell_at (cols : list string) (row : list cell) (c : string) : cell :=
  match position c cols with
  | Some i => nth i row NaN
  | None => NaN
  end.

(** [df[names]] *)
Definition select (names : list string) (df : frame) : result frame :=
  match find (fun c => negb (PyStr.isin c (frame_columns df))) names with
  | Some missing => Raise (KeyError missing)
  | None =>
      Ok (mk_frame names
            (map (fun row => map (cell_at (frame_columns df) row) names) (frame_rows df)))
  end.

(** [df.dropna(subset=[c])] *)
Definition dropna_subset (c : string) (df : frame) : result frame :=
  match position c (frame_columns df) with
  | None => Raise (KeyError c)
  | Some i =>
      Ok (mk_frame (frame_columns df)
            (filter (fun row => negb (isna (nth i row NaN))) (frame_rows df)))
  end.

(** [df.columns = names] *)
Definition set_columns (names : list string) (df : frame) : result frame :=
  if Nat.eqb (List.length names) (List.length (frame_columns df))
  then Ok (mk_frame names (frame_rows df))
  else Raise ValueError_length_mismatch.

Fixpoint replace_nth (i : nat) (v : cell) (row : list cell) : list cell :=
  match row, i with
  | [], _ => []
  | _ :: t, O => v :: t
  | x :: t, S k => x :: replace_nth k v t
  end.

(** [df[c] = v]: a new last column, or the column [c] overwritten. *)
Definition assign (c : string) (v : cell) (df : frame) : frame :=
  match position c (frame_columns df) with
  | Some i => mk_frame (frame_columns df) (map (replace_nth i v) (frame_rows df))
  | None => mk_frame (frame_columns df ++ [c]) (map (fun row => row ++ [v]) (frame_rows df))
  end.

(** [c.split('_')[0]] and ['_'.join(c.split('_')[1:])] *)
Definition lab_of (c : string) : string := hd EmptyString (PyStr.split "_" c).
Definition field_of (c : string) : string := PyStr.join "_" (tl (PyStr.split "_" c)).

(** The elements of the set [lab_names], in order of first appearance;
    the loop visits them in an order Python leaves open. *)
Definition lab_names (df : frame) : list string :=
  PyStr.unique
    (map lab_of (filter (fun c => negb (PyStr.isin c identification_columns))
                        (frame_columns df))).

(** The body of the loop for one [lab_name]. *)
Definition individual_lab_df (lab_df : frame) (lab_name : string) : result frame :=
  let selected_columns :=
    identification_columns
    ++ filter (fun c => String.eqb (lab_of c) lab_name) (frame_columns lab_df) in
  df <- select selected_columns lab_df ;;
  df <- dropna_subset (lab_name ++ "_value")%string df ;;
  df <- set_columns (identification_columns
                     ++ map field_of (filter (PyStr.startswith lab_name) (frame_columns df)))
                    df ;;
  Ok (assign "lab_name" (Str lab_name) df).

Fixpoint split_by_lab_name (lab_df : frame) (names : list string) : result (list frame) :=
  match names with
  | [] => Ok []
  | lab_name :: rest =>
      df <- individual_lab_df lab_df lab_name ;;
      dfs <- split_by_lab_name lab_df rest ;;
      Ok (df :: dfs)
  end.

(** [pd.concat(dfs, ignore_index=True)]: the columns of all tables in
    order of first appearance, a missing cell being NaN. *)
Definition concat (dfs : list frame) : result frame :=
  match dfs with
  | [] => Raise ValueError_no_objects_to_concatenate
  | _ =>
      let cols := PyStr.unique (flat_map frame_columns dfs) in
      Ok (mk_frame cols
            (flat_map (fun df => map (fun row => map (cell_at (frame_columns df) row) cols)
                                     (frame_rows df)) dfs))
  end.

(** Lines 54 to 74: [lab_df] has its identification column and has lost
    [columns_to_drop]; [names] is the order in which the loop visits
    the set [lab_names]. *)
Definition reorganised_lab_df (names : list string) (lab_df : frame) : result frame :=
  if forallb (fun c => PyStr.isin c (frame_columns lab_df)) target_structure_columns
  then Ok lab_df
  else dfs <- split_by_lab_name lab_df names ;; concat dfs.

End Reshape.

(** ** [mimic_preprocess_labs]: the conversion of non-numerical values

    A row of the alternate source, with its text value and its numeric
    value (NaN when the source gives none). *)

Module Mimic.

Record mimic_row : Type := mk_mimic {
  hadm_id : string;
  charttime : string;
  label : string;
  value : cell;
  valuenum : float;
  valueuom : string
}.

Definition set_estimate (x : float) (r : mimic_row) : mimic_row :=
  mk_mimic (hadm_id r) (charttime r) (label r) (Num x) x (valueuom r).

(** [value.str.contains(pat, case=False, na=False)] *)
Definition value_contains (pat : string) (r : mimic_row) : bool :=
  match value r with
  | Str s => PyStr.contains_nocase pat s
  | Num _ => false
  end.

Section Convert.

(** Python's [float] on a text; [None] when it raises ValueError. *)
Variable py_float : string -> option float.

(** [float(text) * 1.05] *)
Definition five_percent_above (text : string) : result float :=
  match py_float text with
  | Some x => Ok (x * 1.05)%float
  | None => Raise (ValueError_float text)
  end.

(** One of the three assignments, for one row: [part] is the index taken
    from [row['value'].split(sep)]. *)
Definition estimate (pat sep : string) (part : nat) (r : mimic_row) : result mimic_row :=
  if value_contains pat r then
    match value r with
    | Str s =>
        match nth_error (PyStr.split sep s) part with
        | Some text => x <- five_percent_above text ;; Ok (set_estimate x r)
        | None => Raise IndexError
        end
    | Num _ => Ok r
    end
  else Ok r.

(** [apply(..., axis=1)] over the rows, in order; the rows the mask
    leaves out are not visited and keep their cells. *)
Fixpoint estimate_rows (pat sep : string) (part : nat) (df : list mimic_row)
  : result (list mimic_row) :=
  match df with
  | [] => Ok []
  | r :: rest =>
      r' <- estimate pat sep part r ;;
      rest' <- estimate_rows pat sep part rest ;;
      Ok (r' :: rest')
  end.

Definition is_text (r : mimic_row) : bool :=
  match value r with
  | Str _ => true
  | Num _ => false
  end.

(** [restricted_lab_df['value'].str], on the object column [value]:
    AttributeError ('Can only use .str accessor with string values')
    when the column holds no text and some number that is not NaN. *)
Definition str_accessor (df : list mimic_row) : result unit :=
  if existsb is_text df || forallb (fun r => isna (value r)) df
  then Ok tt
  else Raise AttributeError_str_accessor.

(** One of the three assignments, on the table: the mask is computed
    through [.str] on the whole column, then the rows selected are
    estimated. *)
Definition assign_estimates (pat sep : string) (part : nat) (df : list mimic_row)
  : result (list mimic_row) :=
  _ <- str_accessor df ;;
  estimate_rows pat sep part df.

(** A row with a text but no number. *)
Definition no_numeric_estimate (r : mimic_row) : bool :=
  PrimFloat.is_nan (valuenum r) && negb (isna (value r)).

(** CONVERT NON NUMERICAL VALUES: the table and the count of rows
    excluded "because non-numerical". *)
Definition convert_non_numerical_values (restricted_lab_df : list mimic_row)
  : result (list mimic_row * nat) :=
  df <- assign_estimates ">" ">" 1 restricted_lab_df ;;
  df <- assign_estimates "greater than " "GREATER THAN " 1 df ;;
  df <- assign_estimates "IS HIGHEST MEASURED " "IS HIGHEST MEASURED " 0 df ;;
  Ok (filter (fun r => negb (no_numeric_estimate r)) df,
      List.length (filter no_numeric_estimate df)).

End Convert.

End Mimic.

(** ** [mimic_preprocess_labs]: the stages around the conversion

    The reference table mimic_equivalence_lab_values.xlsx is not among
    the sources; a row of it is reduced to the columns the code reads,
    a missing cell of a text column being [None].  In these stages the
    unit of a row can be missing (the units of a reference row are
    written into it), so the unit is a cell.  Assignments through
    [.loc] act row by row, as they do on a table whose index has no
    duplicates. *)

Module MimicStages.

Record reference_row : Type := mk_reference {
  DPI_name : string;
  MIMIC_equivalent_name : option string;
  other_MIMIC_equivalents : option string;
  DPI_units : option string;
  unit_conversion_needed : float;
  multiplicative_factor : float
}.

Record lab : Type := mk_lab {
  hadm_id : string;
  charttime : string;
  label : string;
  value : cell;
  valuenum : float;
  valueuom : cell
}.

Definition set_label (l : string) (r : lab) : lab :=
  mk_lab (hadm_id r) (charttime r) l (value r) (valuenum r) (valueuom r).

Definition set_value (v : cell) (r : lab) : lab :=
  mk_lab (hadm_id r) (charttime r) (label r) v (valuenum r) (valueuom r).

Definition set_valuenum (x : float) (r : lab) : lab :=
  mk_lab (hadm_id r) (charttime r) (label r) (value r) x (valueuom r).

Definition set_valueuom (u : cell) (r : lab) : lab :=
  mk_lab (hadm_id r) (charttime r) (label r) (value r) (valuenum r) u.

Inductive error : Type :=
| ValueError_no_MIMIC_equivalent (name : string)
| ValueError_units_do_not_correspond (name units : string) (observed : cell)
| IndexError_index_0.

Inductive outcome (A : Type) : Type :=
| Returns (a : A)
| Raises (e : error).

Arguments Returns {A} a.
Arguments Raises {A} e.

(** Line 328. *)
Definition selected_reference_values (reference : list reference_row)
    (selected_variables : list string) : list reference_row :=
  filter (fun row => PyStr.isin (DPI_name row) selected_variables) reference.

(** [pd.DataFrame([a, b]).dropna()[0].tolist()] *)
Definition equivalence_list (row : reference_row) : list string :=
  match MIMIC_equivalent_name row with Some m => [m] | None => [] end
  ++ match other_MIMIC_equivalents row with Some o => [o] | None => [] end.

(** ALIGN LABEL NAMES TO DPI LABEL NAMES: the loop over the reference rows. *)
Fixpoint align (refs : list reference_row) (aligned_lab_df : list lab) : outcome (list lab) :=
  match refs with
  | [] => Returns aligned_lab_df
  | row :: rest =>
      match MIMIC_equivalent_name row with
      | None =>
          if String.eqb (DPI_name row) "calcium corrige"
          then align rest aligned_lab_df
          else Raises (ValueError_no_MIMIC_equivalent (DPI_name row))
      | Some _ =>
          align rest
            (map (fun r => if PyStr.isin (label r) (equivalence_list row)
                           then set_label (DPI_name row) r else r)
                 aligned_lab_df)
      end
  end.

(** RESTRICT TO SELECTED VARIABLES.  The assertion that follows compares
    the results of two calls of [list.sort()], both [None]: it holds for
    every table. *)
Definition restrict (refs : list reference_row) (aligned_lab_df : list lab) : list lab :=
  filter (fun r => PyStr.isin (label r) (map DPI_name refs)) aligned_lab_df.

Definition unit_cell (u : option string) : cell :=
  match u with
  | Some s => Str s
  | None => NaN
  end.

(** One round of the loop of CONVERT UNITS: the two [apply] over the
    rows of a table that has rows. *)
Definition convert_units_of (df : list lab) (row : reference_row) : list lab :=
  map (fun X => if String.eqb (label X) (DPI_name row)
                then set_valueuom (unit_cell (DPI_units row))
                       (set_valuenum (valuenum X * multiplicative_factor row)%float X)
                else X) df.

Definition conversions (refs : list reference_row) : list reference_row :=
  filter (fun row => PrimFloat.eqb (unit_conversion_needed row) 1) refs.

Definition mg_dL_to_mg_l (df : list lab) : list lab :=
  map (fun r => if cell_is (valueuom r) "mg/dL"
                then set_valueuom (Str "mg/l") (set_valuenum (valuenum r * 10)%float r)
                else r) df.

Definition replace_unit (from to : string) (df : list lab) : list lab :=
  map (fun r => if cell_is (valueuom r) from then set_valueuom (Str to) r else r) df.

(** "Replace units that are equivalent" *)
Definition replace_equivalent_units (df : list lab) : list lab :=
  let df := map (fun r => if PyStr.isin (label r) ["chlore"; "sodium"; "potassium"]
                             && cell_is (valueuom r) "mEq/L"
                          then set_valueuom (Str "mmol/l") r else r) df in
  let df := replace_unit "mmol/L" "mmol/l" df in
  let df := replace_unit "IU/L" "U/l" df in
  let df := replace_unit "m/uL" "T/l" df in
  let df := replace_unit "K/uL" "G/l" df in
  let df := replace_unit "pg/mL" "ng/l" df in
  replace_unit "mg/L" "mg/l" df.

(** Verify that units in selected_reference_values are consistent with
    those of the table. *)
Fixpoint verify_units (refs : list reference_row) (df : list lab) : outcome unit :=
  match refs with
  | [] => Returns tt
  | row :: rest =>
      match DPI_units row with
      | None => verify_units rest df
      | Some units =>
          match unique_cells
                  (map valueuom (filter (fun r => String.eqb (label r) (DPI_name row)) df)) with
          | [] => Raises IndexError_index_0
          | observed :: _ =>
              if cell_is observed units then verify_units rest df
              else Raises (ValueError_units_do_not_correspond (DPI_name row) units observed)
          end
      end
  end.

Section Units.

(** [valuenum.astype(str)] on one number. *)
Variable float_str : float -> string.

(** CONVERT UNITS, lines 403 to 427. *)
Definition convert_units (refs : list reference_row) (restricted_lab_df : list lab)
  : list lab :=
  let df := fold_left convert_units_of (conversions refs) restricted_lab_df in
  let df := mg_dL_to_mg_l df in
  let df := map (fun r => set_value (Str (float_str (valuenum r))) r) df in
  replace_equivalent_units df.

End Units.

(** RESTRICT TO PLAUSIBLE RANGE: a row goes with its [out_of_range] cell. *)
Definition flag_out_of_range (possible_value_ranges : list (string * float * float))
    (df : list (lab * bool)) (variable : string) : list (lab * bool) :=
  match range_of possible_value_ranges variable with
  | Some (lo, hi) =>
      map (fun rf : lab * bool =>
             if String.eqb (label (fst rf)) variable
                        && negb (between (valuenum (fst rf)) lo hi)
                     then (fst rf, true) else rf) df
  | None => df
  end.

Definition restrict_to_plausible_range (possible_value_ranges : list (string * float * float))
    (restricted_lab_df : list lab) : list lab * nat :=
  let df := map (fun r => (r, false)) restricted_lab_df in
  let df := fold_left (flag_out_of_range possible_value_ranges)
                      (range_variables possible_value_ranges) df in
  let n_observations_out_ouf_range :=
    List.length (filter (fun rf : lab * bool =>
                           snd rf && negb (PrimFloat.is_nan (valuenum (fst rf)))) df) in
  let df := map (fun rf : lab * bool =>
                   if snd rf then set_valuenum nan (set_value NaN (fst rf)) else fst rf) df in
  (filter (fun r => negb (PrimFloat.is_nan (valuenum r))) df, n_observations_out_ouf_range).

(** CREATE A VARIABLE FOR CORRECTED CALCIUM, lines 342 to 369. *)
Section Calcium.

(** Equality of two rows in every column of the table, as
    [drop_duplicates] decides it (the table may have columns beyond
    those of [lab]). *)
Variable same_row : lab -> lab -> bool.

Definition hadm_id_charttime (r : lab) : string :=
  (hadm_id r ++ "_" ++ charttime r)%string.

(** The rows of calcium and albumin, without duplicates, whose
    admission and time another of them shares. *)
Definition calcium_components (aligned_lab_df : list lab) : list lab :=
  let calcium_components_df :=
    filter (fun r => PyStr.isin (label r) ["Calcium, Total"; "Albumin"]) aligned_lab_df in
  let distinct := unique_by same_row calcium_components_df in
  filter (fun r => Nat.ltb 1 (List.length
                                (filter (fun q => String.eqb (hadm_id_charttime q)
                                                             (hadm_id_charttime r))
                                        distinct)))
         distinct.

(** One round of the loop, and the columns set after it. *)
Definition corrected_calcium_row (calcium_components_df : list lab) (row : lab)
  : outcome lab :=
  match filter (fun q => String.eqb (label q) "Albumin"
                         && String.eqb (charttime q) (charttime row))
               calcium_components_df with
  | [] => Raises IndexError_index_0
  | simultaneous_albumin :: _ =>
      let corrected_value :=
        (valuenum row * 0.2495 + 0.02 * (40 - valuenum simultaneous_albumin * 10))%float in
      Returns (mk_lab (hadm_id row) (charttime row) "calcium corrige"
                      (Num corrected_value) corrected_value (Str "mmol/l"))
  end.

Fixpoint corrected_calcium_rows (calcium_components_df rows : list lab)
  : outcome (list lab) :=
  match rows with
  | [] => Returns []
  | row :: rest =>
      match corrected_calcium_row calcium_components_df row with
      | Raises e => Raises e
      | Returns r =>
          match corrected_calcium_rows calcium_components_df rest with
          | Raises e => Raises e
          | Returns rs => Returns (r :: rs)
          end
      end
  end.

Definition create_corrected_calcium (selected_variables : list string)
    (aligned_lab_df : list lab) : outcome (list lab) :=
  if PyStr.isin "calcium corrige" selected_variables then
    let calcium_components_df := calcium_components aligned_lab_df in
    match corrected_calcium_rows calcium_components_df
            (filter (fun r => String.eqb (label r) "Calcium, Total")
                    calcium_components_df) with
    | Raises e => Raises e
    | Returns corrected_calcium_df => Returns (aligned_lab_df ++ corrected_calcium_df)
    end
  else Returns aligned_lab_df.

End Calcium.

End MimicStages.

(** ** utils.py: [create_registry_case_identification_column]

    A row of the registry with its 'Case ID'; [patient_id] and
    [EDS_last_4_digits] are [None] when the table has no such column
    (the code tests the columns of the table: all rows agree). *)

Module Registry.

Record registry_row : Type := mk_registry {
  Case_ID : string;
  patient_id : option string;
  EDS_last_4_digits : option string
}.

(** [x[start:-back]] and [x[-back:]] *)
Definition slice_to_back (start back : nat) (x : string) : string :=
  substring start (String.length x - back - start) x.

Definition slice_last (back : nat) (x : string) : string :=
  substring (String.length x - back) back x.

Definition create_registry_case_identification_column (df : list registry_row)
  : list string :=
  map (fun x =>
         let patient_id :=
           match patient_id x with
           | Some p => p
           | None => slice_to_back 8 4 (Case_ID x)
           end in
         let EDS_last_4_digits :=
           match EDS_last_4_digits x with
           | Some d => d
           | None => slice_last 4 (Case_ID x)
           end in
         (patient_id ++ "_" ++ PyStr.zfill 4 EDS_last_4_digits)%string) df.

End Registry.

(** ** outcome_preprocessing.py: [preprocess_outcomes]

    A row of the registry, reduced to the columns the function reads
    and writes; the three columns it creates ([delta_mRS], [mRS_0_1],
    [mRS_0_2]) are overwritten whatever they held.  An assignment
    [df.loc[mask, c] = v] gives the column [c] the value [v] on the
    rows of the mask.  The table returned has the columns of
    [outcome_columns], of which [prestroke_disability] is none. *)

Module Outcomes.

Record outcome_row : Type := mk_outcome {
  death_in_hospital : cell;              (* 'Death in hospital' *)
  death_3M : cell;                       (* '3M Death' *)
  mRS_3M : float;                        (* '3M mRS' *)
  prestroke_disability : float;          (* 'Prestroke disability (Rankin)' *)
  duration_of_hospital_stay : float;     (* 'Duration of hospital stay (days)' *)
  delta_mRS : float;                     (* '3M delta mRS' *)
  mRS_0_1 : float;                       (* '3M mRS 0-1' *)
  mRS_0_2 : float                        (* '3M mRS 0-2' *)
}.

Definition set_death_in_hospital (v : cell) (r : outcome_row) : outcome_row :=
  mk_outcome v (death_3M r) (mRS_3M r) (prestroke_disability r)
             (duration_of_hospital_stay r) (delta_mRS r) (mRS_0_1 r) (mRS_0_2 r).

Definition set_death_3M (v : cell) (r : outcome_row) : outcome_row :=
  mk_outcome (death_in_hospital r) v (mRS_3M r) (prestroke_disability r)
             (duration_of_hospital_stay r) (delta_mRS r) (mRS_0_1 r) (mRS_0_2 r).

Definition set_mRS_3M (x : float) (r : outcome_row) : outcome_row :=
  mk_outcome (death_in_hospital r) (death_3M r) x (prestroke_disability r)
             (duration_of_hospital_stay r) (delta_mRS r) (mRS_0_1 r) (mRS_0_2 r).

Definition set_duration_of_hospital_stay (x : float) (r : outcome_row) : outcome_row :=
  mk_outcome (death_in_hospital r) (death_3M r) (mRS_3M r) (prestroke_disability r)
             x (delta_mRS r) (mRS_0_1 r) (mRS_0_2 r).

Definition set_delta_mRS (x : float) (r : outcome_row) : outcome_row :=
  mk_outcome (death_in_hospital r) (death_3M r) (mRS_3M r) (prestroke_disability r)
             (duration_of_hospital_stay r) x (mRS_0_1 r) (mRS_0_2 r).

Definition set_mRS_0_1 (x : float) (r : outcome_row) : outcome_row :=
  mk_outcome (death_in_hospital r) (death_3M r) (mRS_3M r) (prestroke_disability r)
             (duration_of_hospital_stay r) (delta_mRS r) x (mRS_0_2 r).

Definition set_mRS_0_2 (x : float) (r : outcome_row) : outcome_row :=
  mk_outcome (death_in_hospital r) (death_3M r) (mRS_3M r) (prestroke_disability r)
             (duration_of_hospital_stay r) (delta_mRS r) (mRS_0_1 r) x.

Inductive raised : Type :=
| AssertionError (message : string).

Inductive outcome (A : Type) : Type :=
| Returns (a : A)
| Raises (e : raised).

Arguments Returns {A} a.
Arguments Raises {A} e.

(** [column.value_counts().sum()]: the number of values that are not missing. *)
Definition value_counts_sum (column : list float) : nat :=
  List.length (filter (fun x => negb (PrimFloat.is_nan x)) column).

(** [np.where(mRS.isna(), np.nan, np.where(mRS <= bound, 1, 0))] *)
Definition binarised (bound mRS : float) : float :=
  if PrimFloat.is_nan mRS then nan else if PrimFloat.leb mRS bound then 1%float else 0%float.

(** Lines 46 to 79, row by row. *)
Definition outcome_of (r : outcome_row) : outcome_row :=
  (* if death in hospital, set mRs to 6 *)
  let r := set_mRS_3M (if cell_is (death_in_hospital r) "yes" then 6 else mRS_3M r)%float r in
  (* if 3M Death and 3M mRS nan, set mrs to 6 *)
  let r := set_mRS_3M (if cell_is (death_3M r) "yes" && PrimFloat.is_nan (mRS_3M r)
                       then 6 else mRS_3M r)%float r in
  let r := set_delta_mRS (mRS_3M r - prestroke_disability r)%float r in
  (* if death in hospital set 3M Death to yes *)
  let r := set_death_3M (if cell_is (death_in_hospital r) "yes"
                         then Str "yes" else death_3M r) r in
  (* if 3M mRs == 6, set 3M Death to yes *)
  let r := set_death_3M (if PrimFloat.eqb (mRS_3M r) 6 then Str "yes" else death_3M r) r in
  (* if 3M mRs not nan and not 6, set 3M Death to no *)
  let r := set_death_3M (if negb (PrimFloat.eqb (mRS_3M r) 6)
                            && negb (PrimFloat.is_nan (mRS_3M r))
                            && isna (death_3M r)
                         then Str "no" else death_3M r) r in
  (* restrict to plausible ranges *)
  let r := set_delta_mRS (if PrimFloat.ltb (delta_mRS r) 0 then 0 else delta_mRS r)%float r in
  let r := set_duration_of_hospital_stay
             (if PrimFloat.ltb 365 (duration_of_hospital_stay r)
              then nan else duration_of_hospital_stay r) r in
  (* add binarised outcomes if 3M mRS is not nan *)
  let r := set_mRS_0_1 (binarised 1 (mRS_3M r)) r in
  let r := set_mRS_0_2 (binarised 2 (mRS_3M r)) r in
  (* binarise 3M Death and Death in hospital *)
  let r := set_death_3M (if cell_is (death_3M r) "yes" then Num 1 else death_3M r) r in
  let r := set_death_3M (if cell_is (death_3M r) "no" then Num 0 else death_3M r) r in
  let r := set_death_in_hospital
             (if cell_is (death_in_hospital r) "yes" then Num 1 else death_in_hospital r) r in
  set_death_in_hospital
    (if cell_is (death_in_hospital r) "no" then Num 0 else death_in_hospital r) r.

Definition preprocess_outcomes (stroke_registry_df : list outcome_row)
  : outcome (list outcome_row) :=
  let outcome_df := map outcome_of stroke_registry_df in
  if negb (Nat.eqb (value_counts_sum (map mRS_0_2 outcome_df))
                   (value_counts_sum (map mRS_3M outcome_df)))
  then Raises (AssertionError "Number of 3M mRS 0-2 not equal to 3M mRS")
  else if negb (Nat.eqb (value_counts_sum (map mRS_0_1 outcome_df))
                        (value_counts_sum (map mRS_3M outcome_df)))
  then Raises (AssertionError "Number of 3M mRS 0-1 not equal to 3M mRS")
  else Returns outcome_df.

End Outcomes.

(** ** utils.py: [patient_selection]

    The run with [exclude_non_acute_stroke=False]: the date arithmetic
    of the other case is not embedded.  The two tables are read with
    [dtype=str]; a row is reduced to the columns the function reads, and
    goes with its [case_admission_id] once this is computed. *)

Module Selection.

Record registry_row : Type := mk_registry_row {
  identification : Registry.registry_row;
  Type_of_event : cell;                               (* 'Type of event' *)
  Patient_refuses_use_of_data_for_research : cell;
  Age_calc : cell;                                    (* 'Age (calc.)' *)
  Referral : cell
}.

Record eds_row : Type := mk_eds_row {
  patient_id : string;
  eds_end_4digit : string;
  patient_id_gc : cell
}.

(** The log [excluded_patients_df]; a count is [None] when its exclusion
    is switched off. *)
Record excluded_patients : Type := mk_excluded {
  n_records_screened : Z;
  n_patient_refuses_research : nat;
  n_patients_not_ischemic_stroke : option nat;
  n_patients_under_18 : option nat;
  n_patients_with_intra_hospital_stroke : option nat
}.

Inductive error : Type :=
| ValueError_could_not_convert_string_to_float (text : string).

Inductive outcome (A : Type) : Type :=
| Returns (a : A)
| Raises (e : error).

Arguments Returns {A} a.
Arguments Raises {A} e.

Definition case_admission_id (r : string * registry_row) : string := fst r.

(** [create_ehr_case_identification_column] on a row of the EDS table. *)
Definition ehr_case_admission_id (e : eds_row) : string :=
  (patient_id e ++ "_" ++ PyStr.zfill 4 (eds_end_4digit e))%string.

(** [column.duplicated().sum()] *)
Definition duplicated_sum (column : list string) : nat :=
  List.length column - List.length (PyStr.unique column).

(** [drop_duplicates(subset='case_admission_id', keep='first')] *)
Definition drop_duplicates (df : list (string * registry_row)) : list (string * registry_row) :=
  unique_by (fun a b => String.eqb (case_admission_id a) (case_admission_id b)) df.

(** The left merge on the identifier: a registry row with each EDS row
    of its identifier, or with a missing [patient_id_gc] when there is
    none. *)
Definition consent_df (registry_df : list (string * registry_row))
    (eds_df : list (string * eds_row)) : list (string * cell * cell) :=
  flat_map (fun r =>
              let refuses := Patient_refuses_use_of_data_for_research (snd r) in
              match filter (fun e => String.eqb (fst e) (case_admission_id r)) eds_df with
              | [] => [(case_admission_id r, refuses, NaN)]
              | matches =>
                  map (fun e => (case_admission_id r, refuses, patient_id_gc (snd e))) matches
              end) registry_df.

Definition refuses_use_of_data (c : string * cell * cell) : bool :=
  let '(_, refuses, gc) := c in
  cell_is gc "Non" || (cell_is refuses "yes" && negb (cell_is gc "Oui")).

(** [df[~df.case_admission_id.isin(cids)]] *)
Definition without (cids : list string) (df : list (string * registry_row))
  : list (string * registry_row) :=
  filter (fun r => negb (PyStr.isin (case_admission_id r) cids)) df.

Definition is_ischemic_stroke (r : string * registry_row) : bool :=
  cell_is (Type_of_event (snd r)) "Ischemic stroke".

Section Ages.

(** Python's [float] on a text; [None] when it raises ValueError. *)
Variable py_float : string -> option float.

(** ['Age (calc.)'].astype(float) *)
Fixpoint ages (df : list (string * registry_row)) : outcome (list float) :=
  match df with
  | [] => Returns []
  | r :: rest =>
      match Age_calc (snd r) with
      | Str s =>
          match py_float s with
          | None => Raises (ValueError_could_not_convert_string_to_float s)
          | Some x =>
              match ages rest with
              | Returns xs => Returns (x :: xs)
              | Raises e => Raises e
              end
          end
      | Num x =>
          match ages rest with
          | Returns xs => Returns (x :: xs)
          | Raises e => Raises e
          end
      end
  end.

Definition patient_selection (registry : list registry_row) (eds : list eds_row)
    (exclude_patients_under_18 exclude_non_ischemic_stroke exclude_intra_hospital_stroke : bool)
  : outcome (list (string * registry_row) * excluded_patients) :=
  let eds_df := combine (map ehr_case_admission_id eds) eds in
  let registry_df :=
    combine (Registry.create_registry_case_identification_column (map identification registry))
            registry in
  let n_duplicates :=
    List.length
      (PyStr.unique
         (map case_admission_id
              (filter (fun r => cell_is (Type_of_event (snd r)) "duplicate") registry_df)))
    + duplicated_sum (map case_admission_id registry_df) in
  let n_records_screened :=
    (Z.of_nat (List.length (PyStr.unique (map case_admission_id registry_df)))
     - Z.of_nat n_duplicates)%Z in
  let registry_df :=
    filter (fun r => negb (cell_is (Type_of_event (snd r)) "duplicate")) registry_df in
  let registry_df := drop_duplicates registry_df in
  (* patients refusing to participate *)
  let patients_refusing_use_of_data :=
    PyStr.unique
      (map (fun c => fst (fst c)) (filter refuses_use_of_data (consent_df registry_df eds_df))) in
  let n_patient_refuses_research := List.length patients_refusing_use_of_data in
  let registry_df := without patients_refusing_use_of_data registry_df in
  (* only ischemic stroke patients *)
  let n_patients_not_ischemic_stroke :=
    if exclude_non_ischemic_stroke
    then Some (List.length (PyStr.unique (map case_admission_id registry_df))
               - List.length (PyStr.unique
                                (map case_admission_id
                                     (filter is_ischemic_stroke registry_df))))
    else None in
  let registry_df :=
    if exclude_non_ischemic_stroke then filter is_ischemic_stroke registry_df
    else registry_df in
  (* patients under 18 (an age below 1 stands for a wrong date of birth) *)
  match (if exclude_patients_under_18
         then match ages registry_df with
              | Raises e => Raises e
              | Returns age =>
                  let cids_under_18 :=
                    PyStr.unique
                      (map (fun ra => case_admission_id (fst ra))
                           (filter (fun ra => PrimFloat.ltb (snd ra) 18
                                              && PrimFloat.ltb 1 (snd ra))
                                   (combine registry_df age))) in
                  Returns (without cids_under_18 registry_df,
                           Some (List.length cids_under_18))
              end
         else Returns (registry_df, None)) with
  | Raises e => Raises e
  | Returns (registry_df, n_patients_under_18) =>
      (* intra-hospital stroke *)
      let cids_intra_hospital_stroke :=
        PyStr.unique
          (map case_admission_id
               (filter (fun r => cell_is (Referral (snd r)) "In-hospital event")
                       registry_df)) in
      let n_patients_with_intra_hospital_stroke :=
        if exclude_intra_hospital_stroke
        then Some (List.length cids_intra_hospital_stroke) else None in
      let registry_df :=
        if exclude_intra_hospital_stroke
        then without cids_intra_hospital_stroke registry_df else registry_df in
      Returns (registry_df,
               mk_excluded n_records_screened n_patient_refuses_research
                           n_patients_not_ischemic_stroke n_patients_under_18
                           n_patients_with_intra_hospital_stroke)
  end.

End Ages.

End Selection.

(** * Properties *)

(** ** The censored-value corrector *)

(** The rule table read as a lookup: the first rule whose labels and
    literal match the row. *)
Definition lookup_correction (r : lab_row) : option float :=
  option_map snd (find (fun ru => rule_applies ru r) correction_rules).

Definition corrected_row (r : lab_row) : lab_row :=
  let r' := strip_apostrophes r in
  match lookup_correction r' with
  | Some v => set_value (Num v) r'
  | None => r'
  end.

(** The literal of a rule is a comparator followed by a threshold [t];
    the number assigned is [t + 0.05 * t] after ['>'] and [t - 0.05 * t]
    after ['<'], evaluated in binary64. *)
Definition five_percent_beyond (ru : rule) : bool :=
  let '(_, literal, v) := ru in
  match literal with
  | String ">"%char text =>
      match Literal.parse_decimal text with
      | Some t => PrimFloat.eqb v (t + 0.05 * t)
      | None => false
      end
  | String "<"%char text =>
      match Literal.parse_decimal text with
      | Some t => PrimFloat.eqb v (t - 0.05 * t)
      | None => false
      end
  | _ => false
  end.

(** The same number as the product [t * 1.05] (or [t * 0.95]) of the
    claim's wording: the two binary64 results are equal or neighbours. *)
Definition neighbours (x y : float) : bool :=
  PrimFloat.eqb x y || PrimFloat.eqb x (PrimFloat.next_up y)
  || PrimFloat.eqb x (PrimFloat.next_down y).

Definition five_percent_product (ru : rule) : bool :=
  let '(_, literal, v) := ru in
  match literal with
  | String ">"%char text =>
      match Literal.parse_decimal text with
      | Some t => neighbours v (t * 1.05)
      | None => false
      end
  | String "<"%char text =>
      match Literal.parse_decimal text with
      | Some t => neighbours v (t * 0.95)
      | None => false
      end
  | _ => false
  end.

Lemma fold_rules_rows (rules : list rule) (df : table) :
  fold_left (fun t ru => map (apply_rule ru) t) rules df
  = map (fun r => fold_left (fun r ru => apply_rule ru r) rules r) df.
Proof.
  revert df; induction rules as [|ru rules IH]; intro df; simpl.
  - now rewrite map_id.
  - rewrite IH, map_map. reflexivity.
Qed.

Lemma rules_keep_number (rules : list rule) (r : lab_row) (x : float) :
  value r = Num x -> fold_left (fun r ru => apply_rule ru r) rules r = r.
Proof.
  intro Hv; induction rules as [|[[labels literal] v] rules IH]; simpl; auto.
  assert (E : apply_rule (labels, literal, v) r = r).
  { unfold apply_rule, rule_applies. rewrite Hv. simpl.
    now rewrite andb_false_r. }
  rewrite E. exact IH.
Qed.

Lemma fold_rules_find (rules : list rule) (r : lab_row) :
  fold_left (fun r ru => apply_rule ru r) rules r
  = match find (fun ru => rule_applies ru r) rules with
    | Some ru => set_value (Num (snd ru)) r
    | None => r
    end.
Proof.
  induction rules as [|ru rules IH]; simpl; auto.
  unfold apply_rule at 2.
  destruct (rule_applies ru r) eqn:E.
  - now apply rules_keep_number with (x := snd ru).
  - exact IH.
Qed.

Lemma correct_non_numerical_values_rows (df : table) :
  correct_non_numerical_values df = map corrected_row df.
Proof.
  unfold correct_non_numerical_values. rewrite fold_rules_rows, map_map.
  apply map_ext; intro r. unfold corrected_row, lookup_correction.
  rewrite fold_rules_find.
  destruct (find _ correction_rules); reflexivity.
Qed.

(** From here on the corrector is used through the lemma above. *)
Opaque correct_non_numerical_values.

(** C5. Censored-value law: [correct_non_numerical_values] rewrites each
    row on its own, by a lookup of (label, literal) in the fixed rule
    table after apostrophes are removed; a glucose row with value
    ">83.2" gets the number 87.36 and an ALAT row with value "<5" gets
    4.75; a row matching no rule keeps its text; and every rule assigns
    the threshold of its literal moved by 5 percent, up after ">" and
    down after "<": computed as [t + 0.05 * t] and [t - 0.05 * t], which
    is the binary64 product [t * 1.05] or [t * 0.95] up to the last bit. *)
Theorem censored_value_law :
  (forall df, correct_non_numerical_values df = map corrected_row df)
  /\ (forall c d a m u lo hi,
        corrected_row (mk_row c d a "glucose" m u (Str ">83.2") lo hi)
        = mk_row c d a "glucose" m u (Num 87.36) lo hi)
  /\ (forall c d a m u lo hi,
        corrected_row (mk_row c d a "ALAT" m u (Str "<5") lo hi)
        = mk_row c d a "ALAT" m u (Num 4.75) lo hi)
  /\ (forall r,
        existsb (fun ru => rule_applies ru (strip_apostrophes r)) correction_rules = false ->
        corrected_row r = strip_apostrophes r)
  /\ forallb five_percent_beyond correction_rules = true
  /\ forallb five_percent_product correction_rules = true.
Proof.
  split; [exact correct_non_numerical_values_rows|].
  split; [intros; reflexivity|].
  split; [intros; reflexivity|].
  split; [|split; vm_compute; reflexivity].
  intros r H. unfold corrected_row, lookup_correction.
  destruct (find _ correction_rules) as [ru|] eqn:F; [|reflexivity].
  apply find_some in F. destruct F as [Hin Happ].
  assert (existsb (fun ru => rule_applies ru (strip_apostrophes r)) correction_rules = true)
    by (apply existsb_exists; eauto).
  congruence.
Qed.

(** A glucose row with an unlisted literal is left as text. *)
Lemma censored_value_law_witness :
  corrected_row (mk_row "1_0001" "d" "a" "glucose" "sga" "mmol/l" (Str ">90") NaN NaN)
  = mk_row "1_0001" "d" "a" "glucose" "sga" "mmol/l" (Str ">90") NaN NaN.
Proof.
  apply (proj1 (proj2 (proj2 (proj2 censored_value_law)))).
  vm_compute. reflexivity.
Defined.

(** ** Distinct values *)

Lemma In_unique_by_sub {A : Type} (eqb : A -> A -> bool) (l : list A) (y : A) :
  In y (unique_by eqb l) -> In y l.
Proof.
  induction l as [|x t IH]; simpl; auto.
  rewrite filter_In. intros [H|[H _]]; auto.
Qed.

Section Unique.

Context {A : Type} (eqb : A -> A -> bool).
Hypothesis eqb_eq : forall x y, eqb x y = true <-> x = y.

Lemma In_unique_by (l : list A) (y : A) : In y (unique_by eqb l) <-> In y l.
Proof.
  induction l as [|x t IH]; simpl; [tauto|].
  rewrite filter_In, IH. split.
  - intros [H|[H _]]; auto.
  - intros [H|H]; auto.
    destruct (eqb x y) eqn:E.
    + left. now apply eqb_eq.
    + right. split; auto.
Qed.

Lemma NoDup_unique_by (l : list A) : NoDup (unique_by eqb l).
Proof.
  induction l as [|x t IH]; simpl; constructor.
  - rewrite filter_In. intros [_ H].
    assert (E : eqb x x = true) by now apply eqb_eq.
    now rewrite E in H.
  - now apply NoDup_filter.
Qed.

Lemma unique_by_le_1 (l : list A) :
  List.length (unique_by eqb l) <= 1 <-> (forall x y, In x l -> In y l -> x = y).
Proof.
  destruct l as [|x t]; simpl.
  - split; [intros _ ? ? []|lia].
  - split.
    + intros H.
      assert (T : forall z, In z t -> z = x).
      { intros z Hz. destruct (eqb x z) eqn:E; [symmetry; now apply eqb_eq|].
        assert (Hin : In z (filter (fun y => negb (eqb x y)) (unique_by eqb t)))
          by (apply filter_In; split; [now apply In_unique_by|now rewrite E]).
        destruct (filter _ _); [destruct Hin|simpl in H; lia]. }
      intros a b [<-|Ha] [<-|Hb]; auto.
      * symmetry; auto.
      * rewrite (T a Ha), (T b Hb); auto.
    + intros H.
      assert (E : filter (fun y => negb (eqb x y)) (unique_by eqb t) = []).
      { destruct (filter _ _) as [|z f] eqn:F; auto.
        assert (Hz : In z (filter (fun y => negb (eqb x y)) (unique_by eqb t)))
          by (rewrite F; now left).
        apply filter_In in Hz. destruct Hz as [Hz Hn].
        apply (proj1 (In_unique_by _ _)) in Hz.
        assert (Exz : x = z) by (apply H; [now left|now right]).
        apply eqb_eq in Exz. now rewrite Exz in Hn. }
      rewrite E. simpl. lia.
Qed.

Lemma unique_by_nonempty (l : list A) : l <> [] -> 1 <= List.length (unique_by eqb l).
Proof. destruct l; simpl; [congruence|lia]. Qed.

End Unique.

Lemma In_unique (l : list string) (y : string) : In y (PyStr.unique l) <-> In y l.
Proof. apply In_unique_by, String.eqb_eq. Qed.

Lemma unique_le_1 (l : list string) :
  List.length (PyStr.unique l) <= 1 <-> (forall x y, In x l -> In y l -> x = y).
Proof. apply unique_by_le_1, String.eqb_eq. Qed.

Lemma isin_In (x : string) (l : list string) : PyStr.isin x l = true <-> In x l.
Proof.
  unfold PyStr.isin. rewrite existsb_exists. split.
  - intros [y [Hy E]]. apply String.eqb_eq in E. now subst.
  - intro H. exists x. split; auto. apply String.eqb_refl.
Qed.

(** ** Rows that stem from rows of an earlier table

    The stages after the label rewriting drop rows and rewrite single
    columns; [stems_from keys out df] says that every row of [out] agrees
    on [keys] with a row of [df]. *)

Definition stems_from {K : Type} (keys : lab_row -> K) (out df : table) : Prop :=
  forall r, In r out -> exists r', In r' df /\ keys r = keys r'.

Lemma stems_from_refl {K} (keys : lab_row -> K) (df : table) : stems_from keys df df.
Proof. intros r H; eauto. Qed.

Lemma stems_from_trans {K} (keys : lab_row -> K) (a b c : table) :
  stems_from keys a b -> stems_from keys b c -> stems_from keys a c.
Proof.
  intros H1 H2 r Hr. destruct (H1 r Hr) as [r1 [Hr1 E1]].
  destruct (H2 r1 Hr1) as [r2 [Hr2 E2]]. exists r2. split; congruence.
Qed.

Lemma stems_from_filter {K} (keys : lab_row -> K) (f : lab_row -> bool) (df : table) :
  stems_from keys (filter f df) df.
Proof. intros r H. apply filter_In in H. exists r. tauto. Qed.

Lemma stems_from_map {K} (keys : lab_row -> K) (g : lab_row -> lab_row) (df : table) :
  (forall r, keys (g r) = keys r) -> stems_from keys (map g df) df.
Proof.
  intros Hg r H. apply in_map_iff in H. destruct H as [r' [<- Hr']].
  exists r'. split; auto.
Qed.

Lemma stems_from_fold_map {K X} (keys : lab_row -> K) (g : X -> lab_row -> lab_row)
    (xs : list X) (df : table) :
  (forall x r, keys (g x r) = keys r) ->
  stems_from keys (fold_left (fun t x => map (g x) t) xs df) df.
Proof.
  intro Hg. revert df; induction xs as [|x xs IH]; intro df; simpl.
  - apply stems_from_refl.
  - eapply stems_from_trans; [apply IH|]. apply stems_from_map. apply Hg.
Qed.

(** Label and unit: no stage after the unit check rewrites them. *)
Definition label_unit (r : lab_row) : string * string :=
  (dosage_label r, unit_of_measure r).

(** ** The stages after the unit check keep labels, materials and units *)

Section ValueStages.

Context {K : Type} (keys : lab_row -> K).
Hypothesis keys_set_value : forall v r, keys (set_value v r) = keys r.

Variable to_numeric : string -> float.
Variable possible_value_ranges : list (string * float * float).

Lemma keys_strip_apostrophes (r : lab_row) : keys (strip_apostrophes r) = keys r.
Proof. unfold strip_apostrophes. destruct (value r); apply keys_set_value. Qed.

Lemma keys_corrected_row (r : lab_row) : keys (corrected_row r) = keys r.
Proof.
  unfold corrected_row. destruct (lookup_correction _).
  - rewrite keys_set_value. apply keys_strip_apostrophes.
  - apply keys_strip_apostrophes.
Qed.

Lemma remove_non_numerical_stems (df : table) :
  stems_from keys (remove_non_numerical df) df.
Proof.
  unfold remove_non_numerical, dropna.
  eapply stems_from_trans; [apply stems_from_filter|].
  eapply stems_from_trans; [apply stems_from_filter|].
  rewrite correct_non_numerical_values_rows.
  apply stems_from_map, keys_corrected_row.
Qed.

Lemma process_values_stems (df out : table) :
  process_values to_numeric df = Ok out -> stems_from keys out df.
Proof.
  unfold process_values. destruct (Nat.ltb _ _); [discriminate|].
  intro H.
  assert (E : out = map (fun r => set_value (Num (to_numeric_cell to_numeric (value r))) r)
                        (remove_non_numerical df)) by congruence.
  rewrite E.
  eapply stems_from_trans; [|apply remove_non_numerical_stems].
  apply stems_from_map. intro r. apply keys_set_value.
Qed.

Lemma correct_negative_values_stems (df : table) :
  stems_from keys (fst (correct_negative_values df)) df.
Proof.
  unfold correct_negative_values, dropna. simpl.
  eapply stems_from_trans; [apply stems_from_filter|].
  eapply stems_from_trans;
    apply stems_from_map; intro r;
    match goal with |- keys (if ?c then _ else _) = _ => destruct c; auto end.
Qed.

Lemma restrict_to_possible_value_ranges_stems (df : table) :
  stems_from keys (fst (restrict_to_possible_value_ranges possible_value_ranges df)) df.
Proof.
  unfold restrict_to_possible_value_ranges, dropna. simpl.
  eapply stems_from_trans; [apply stems_from_filter|].
  unfold null_out_of_range.
  apply (stems_from_fold_map keys
           (fun v r => if out_of_range possible_value_ranges v r then set_value NaN r else r)).
  intros v r. destruct (out_of_range _ v r); auto.
Qed.

End ValueStages.

(** ** The run of [preprocess_labs], stage by stage *)

Section Run.

Variable nfkd : string -> string.
Variable to_numeric : string -> float.
Variable equivalent_labels : list (list string).
Variable dosage_units : list (string * list string).
Variable possible_value_ranges : list (string * float * float).
Variable selected_variables : list string.
Variable material_to_include : list string.

Local Abbreviation run := (preprocess_labs nfkd to_numeric equivalent_labels dosage_units
                         possible_value_ranges selected_variables material_to_include).
Local Abbreviation labels := (process_labels nfkd equivalent_labels selected_variables).
Local Abbreviation materials := (process_materials material_to_include).
Local Abbreviation units := (process_units dosage_units).

(** The tables between the stages of a run that returns. *)
Inductive stages (lab_df : list input_row) (out : table) (log : audit) : Prop :=
| Stages (after_labels after_materials after_units after_values : table)
    (labels_ok : labels lab_df
                 = Ok (after_labels, included_dosage_labels log, dropped_dosage_labels log))
    (materials_ok : materials after_labels = Ok (after_materials, excluded_material log))
    (units_ok : units after_materials = Ok after_units)
    (values_ok : process_values to_numeric after_units = Ok after_values)
    (ranges_ok : restrict_to_possible_value_ranges possible_value_ranges
                   (fst (correct_negative_values after_values))
                 = (out, n_observations_out_ouf_range log))
    (median_ok : median_observations_per_case_admission_id log
                 = median_per_dosage_label (observations_per_case_admission_id out)).

Lemma run_stages (lab_df : list input_row) (out : table) (log : audit) :
  run lab_df = Ok (out, log) -> stages lab_df out log.
Proof.
  unfold preprocess_labs, bind.
  destruct (process_labels _ _ _ lab_df) as [[[df0 inc] drp]|] eqn:E0; [|discriminate].
  destruct (process_materials _ df0) as [[df1 exc]|] eqn:E1; [|discriminate].
  destruct (process_units _ df1) as [df2|] eqn:E2; [|discriminate].
  destruct (process_values _ df2) as [df3|] eqn:E3; [|discriminate].
  destruct (correct_negative_values df3) as [df4 w] eqn:E4.
  destruct (restrict_to_possible_value_ranges _ df4) as [df5 n] eqn:E5.
  intro H. injection H as <- <-.
  apply (Stages lab_df df5 _ df0 df1 df2 df3); cbn [included_dosage_labels
    dropped_dosage_labels excluded_material n_observations_out_ouf_range
    median_observations_per_case_admission_id]; auto.
  now rewrite E4.
Qed.

(** The rows returned stem from the rows that passed the unit check. *)
Lemma out_stems_from_units {K} (keys : lab_row -> K) (lab_df : list input_row)
    (out : table) (log : audit) :
  (forall v r, keys (set_value v r) = keys r) ->
  run lab_df = Ok (out, log) ->
  exists df0 df1 df2 inc drp exc,
    labels lab_df = Ok (df0, inc, drp) /\ materials df0 = Ok (df1, exc)
    /\ units df1 = Ok df2 /\ stems_from keys out df2.
Proof.
  intros Hk H. destruct (run_stages _ _ _ H) as [df0 df1 df2 df3 E0 E1 E2 E3 E4 _].
  exists df0, df1, df2. do 3 eexists. repeat split; eauto.
  replace out with (fst (restrict_to_possible_value_ranges possible_value_ranges
                           (fst (correct_negative_values df3)))) by now rewrite E4.
  eapply stems_from_trans; [now apply restrict_to_possible_value_ranges_stems|].
  eapply stems_from_trans; [now apply correct_negative_values_stems|].
  eapply process_values_stems; eauto.
Qed.

End Run.

(** ** C1: one unit per label *)

Lemma check_units_ok (labels : list string) (df : table) :
  check_units labels df = Ok tt ->
  forall label, In label labels -> List.length (units_for label df) <= 1.
Proof.
  induction labels as [|l ls IH]; simpl; [intros _ ? []|].
  destruct (Nat.ltb 1 _) eqn:E; [discriminate|].
  apply Nat.ltb_ge in E. intros H label [<-|Hl]; auto.
Qed.

Lemma check_units_raise (labels : list string) (df : table) :
  (exists label, In label labels /\ 1 < List.length (units_for label df)) ->
  exists label, In label labels /\ 1 < List.length (units_for label df)
                /\ check_units labels df = Raise (ValueError_units label (units_for label df)).
Proof.
  induction labels as [|l ls IH]; simpl; [intros [? [[] _]]|].
  intros [label [Hin Hlen]].
  destruct (Nat.ltb 1 (List.length (units_for l df))) eqn:E.
  - apply Nat.ltb_lt in E. exists l. auto.
  - apply Nat.ltb_ge in E.
    destruct Hin as [->|Hin]; [lia|].
    destruct IH as [l' [H1 [H2 H3]]]; [eauto|]. exists l'. auto.
Qed.

Lemma In_units_for (u label : string) (df : table) :
  In u (units_for label df)
  <-> exists r, In r df /\ dosage_label r = label /\ unit_of_measure r = u.
Proof.
  unfold units_for. rewrite In_unique, in_map_iff. split.
  - intros [r [Hu Hr]]. apply filter_In in Hr. destruct Hr as [Hr E].
    apply String.eqb_eq in E. eauto.
  - intros [r [Hr [El Eu]]]. exists r. split; auto.
    apply filter_In. split; auto. now apply String.eqb_eq.
Qed.

Lemma units_for_le_1 (label : string) (df : table) :
  List.length (units_for label df) <= 1
  <-> (forall r r', In r df -> In r' df -> dosage_label r = label ->
                    dosage_label r' = label -> unit_of_measure r = unit_of_measure r').
Proof.
  unfold units_for. rewrite unique_le_1. split.
  - intros H r r' Hr Hr' E E'. apply H; apply in_map, filter_In; split; auto;
      now apply String.eqb_eq.
  - intros H x y Hx Hy.
    apply in_map_iff in Hx. destruct Hx as [r [<- Hr]].
    apply in_map_iff in Hy. destruct Hy as [r' [<- Hr']].
    apply filter_In in Hr, Hr'. destruct Hr as [Hr E], Hr' as [Hr' E'].
    apply String.eqb_eq in E, E'. now apply H.
Qed.

Lemma units_for_stems (label : string) (out df : table) :
  stems_from label_unit out df ->
  List.length (units_for label df) <= 1 -> List.length (units_for label out) <= 1.
Proof.
  intros Hs H. rewrite units_for_le_1 in *. intros r r' Hr Hr' E E'.
  destruct (Hs r Hr) as [q [Hq Eq]], (Hs r' Hr') as [q' [Hq' Eq']].
  unfold label_unit in *. injection Eq as L U. injection Eq' as L' U'.
  rewrite U, U'. apply H; congruence.
Qed.

Lemma process_units_one_unit (dosage_units : list (string * list string)) (df out : table) :
  process_units dosage_units df = Ok out ->
  forall label, List.length (units_for label out) <= 1.
Proof.
  unfold process_units, bind.
  destruct (reconcile_units dosage_units df) as [t|]; [|discriminate].
  destruct (check_units _ t) as [[]|] eqn:C; [|discriminate].
  intro H. injection H as <-. intro label.
  destruct (in_dec string_dec label (map dosage_label t)) as [Hin|Hout].
  - eapply check_units_ok; eauto. now apply In_unique.
  - apply units_for_le_1. intros r r' Hr _ E _. exfalso. apply Hout.
    rewrite <- E. now apply in_map.
Qed.

Lemma reconcile_units_returns (dosage_units : list (string * list string)) (df : table) :
  exists t, reconcile_units dosage_units df = Ok t.
Proof. unfold reconcile_units, unit_of_measure_equivalents. simpl. eauto. Qed.

Section UnitInvariant.

Variable nfkd : string -> string.
Variable to_numeric : string -> float.
Variable equivalent_labels : list (list string).
Variable dosage_units : list (string * list string).
Variable possible_value_ranges : list (string * float * float).
Variable selected_variables : list string.
Variable material_to_include : list string.

Local Abbreviation run := (preprocess_labs nfkd to_numeric equivalent_labels dosage_units
                             possible_value_ranges selected_variables material_to_include).

(** C1. Unit invariant: in the table [preprocess_labs] returns, the rows
    of every label present carry exactly one distinct unit of measure;
    and when, after the unit synonyms are merged and the units not
    allowed for their label are dropped, some label is left with more
    than one distinct unit, [preprocess_labs] raises the error that names
    such a label and its units. *)
Theorem unit_invariant (lab_df : list input_row) :
  (forall out log,
      run lab_df = Ok (out, log) ->
      forall r, In r out -> List.length (units_for (dosage_label r) out) = 1)
  /\ (forall df0 inc drp df1 exc df2,
        process_labels nfkd equivalent_labels selected_variables lab_df = Ok (df0, inc, drp) ->
        process_materials material_to_include df0 = Ok (df1, exc) ->
        reconcile_units dosage_units df1 = Ok df2 ->
        (exists r, In r df2 /\ 1 < List.length (units_for (dosage_label r) df2)) ->
        exists label,
          In label (map dosage_label df2)
          /\ 1 < List.length (units_for label df2)
          /\ run lab_df = Raise (ValueError_units label (units_for label df2))).
Proof.
  split.
  - intros out log H r Hr.
    destruct (out_stems_from_units _ _ _ _ _ _ _ label_unit _ _ _ (fun _ _ => eq_refl) H)
      as [df0 [df1 [df2 [inc [drp [exc [_ [_ [E2 Hs]]]]]]]]].
    assert (Hle : List.length (units_for (dosage_label r) out) <= 1).
    { eapply units_for_stems; eauto. eapply process_units_one_unit; eauto. }
    assert (Hin : In (unit_of_measure r) (units_for (dosage_label r) out))
      by (apply In_units_for; eauto).
    destruct (units_for (dosage_label r) out); [destruct Hin|simpl in *; lia].
  - intros df0 inc drp df1 exc df2 E0 E1 E2 [r [Hr Hlen]].
    destruct (check_units_raise (PyStr.unique (map dosage_label df2)) df2)
      as [label [Hin [Hl Hc]]].
    { exists (dosage_label r). split; auto. apply In_unique. now apply in_map. }
    exists label. split; [now apply In_unique|]. split; auto.
    unfold preprocess_labs, bind. rewrite E0, E1.
    unfold process_units, bind. rewrite E2, Hc. reflexivity.
Qed.

End UnitInvariant.

(** *** Runs on concrete tables

    The ASCII texts below are their own NFKD form, and their numbers are
    plain decimal literals. *)

Definition lab (patient eds label material unit_ : string) (v : string) : input_row :=
  mk_input patient eds
    (mk_row "" "01.01.2020 12:00" "analysis" label material unit_ (Str v) (Str "0") (Str "100")).

Definition run_plain := preprocess_labs (fun s => s) Literal.to_numeric [] [].

Definition long (case label material unit_ : string) (v : cell) : lab_row :=
  mk_row case "01.01.2020 12:00" "analysis" label material unit_ v (Str "0") (Str "100").

(** The table of the repository's test, and one with two units for sodium. *)
Definition albumine_rows : list input_row :=
  [ lab "1" "1234" "albumine" "sga" "g/l" "10";
    lab "1" "1234" "albumine" "sga" "g/l" "20";
    lab "2" "9999" "albumine" "sga" "g/l" "30" ].

Definition sodium_rows : list input_row :=
  [ lab "1" "1234" "sodium" "sgv" "mmol/l" "140";
    lab "1" "1234" "sodium" "sgv" "mEq/l" "141" ].

Definition sodium_reconciled : table :=
  [ long "1_1234" "sodium" "any_blood" "mmol/l" (Str "140");
    long "1_1234" "sodium" "any_blood" "mEq/l" (Str "141") ].

Lemma unit_invariant_witness :
  List.length (units_for "albumine" [ long "1_1234" "albumine" "any_blood" "g/l" (Num 10);
                                      long "1_1234" "albumine" "any_blood" "g/l" (Num 20) ]) = 1
  /\ exists label,
       In label (map dosage_label sodium_reconciled)
       /\ 1 < List.length (units_for label sodium_reconciled)
       /\ run_plain [] ["sodium"] ["any_blood"] sodium_rows
          = Raise (ValueError_units label (units_for label sodium_reconciled)).
Proof.
  split.
  - refine (proj1 (unit_invariant (fun s => s) Literal.to_numeric [] []
                     [("albumine", 0, 25)%float] ["albumine"] ["any_blood"] albumine_rows)
              _ _ _ (long "1_1234" "albumine" "any_blood" "g/l" (Num 10)) _).
    + vm_compute. reflexivity.
    + vm_compute. auto.
  - eapply (proj2 (unit_invariant (fun s => s) Literal.to_numeric [] [] []
                     ["sodium"] ["any_blood"] sodium_rows) _ _ _ _ _ sodium_reconciled).
    + vm_compute. reflexivity.
    + vm_compute. reflexivity.
    + vm_compute. reflexivity.
    + eexists. split; [left; reflexivity|]. vm_compute. lia.
Defined.

(** ** The material filter and the blood-gas loop *)

Lemma merged_material_not_sga (df : table) (r : lab_row) :
  In r (merge_blood_materials df) -> material_label r <> "sga".
Proof.
  unfold merge_blood_materials. rewrite in_map_iff. intros [q [<- _]].
  destruct (PyStr.isin (material_label q) blood_material_equivalents) eqn:E.
  - simpl. discriminate.
  - intro H. rewrite H in E. vm_compute in E. discriminate.
Qed.

(** What one round keeps: the rows that are not of the label, and the
    rows of the label with material 'sga'. *)
Definition kept_by_blood_gas_step (gas : string) (r : lab_row) : bool :=
  negb (is_blood_gas gas r && negb (String.eqb (material_label r) "sga")).

(** The [raise] of the loop is never reached: after the drop, the rows
    of the label have the one material 'sga'. *)
Lemma blood_gas_step_returns (gas : string) (df : table) :
  blood_gas_step gas df = Ok (filter (kept_by_blood_gas_step gas) df).
Proof.
  unfold blood_gas_step. fold (kept_by_blood_gas_step gas).
  set (df' := filter (kept_by_blood_gas_step gas) df).
  set (ms := PyStr.unique (map material_label (filter (is_blood_gas gas) df'))).
  assert (H : List.length ms <= 1).
  { apply unique_le_1.
    assert (S : forall m, In m (map material_label (filter (is_blood_gas gas) df')) -> m = "sga").
    { intros m Hm. apply in_map_iff in Hm. destruct Hm as [r [<- Hr]].
      apply filter_In in Hr. destruct Hr as [Hr G].
      apply filter_In in Hr. destruct Hr as [_ Kp].
      unfold kept_by_blood_gas_step in Kp. rewrite G in Kp. simpl in Kp.
      rewrite negb_involutive in Kp. now apply String.eqb_eq. }
    intros x y Hx Hy. rewrite (S x Hx), (S y Hy). reflexivity. }
  apply Nat.ltb_ge in H. rewrite H, andb_false_r. reflexivity.
Qed.

Lemma blood_gas_loop_returns (gases : list string) (df : table) :
  exists df', blood_gas_loop gases df = Ok df'
              /\ stems_from (fun r => r) df' df
              /\ forall r gas, In r df' -> In gas gases ->
                               is_blood_gas gas r = true -> material_label r = "sga".
Proof.
  revert df; induction gases as [|g gs IH]; intro df; simpl.
  - exists df. split; auto. split; [apply stems_from_refl|]. intros ? ? _ [].
  - rewrite blood_gas_step_returns. unfold bind.
    destruct (IH (filter (kept_by_blood_gas_step g) df)) as [df' [E [S P]]].
    exists df'. split; auto. split.
    + eapply stems_from_trans; [exact S|apply stems_from_filter].
    + intros r gas Hr [<-|Hg] G; [|eauto].
      destruct (S r Hr) as [q [Hq <-]]. apply filter_In in Hq. destruct Hq as [_ Kp].
      unfold kept_by_blood_gas_step in Kp. rewrite G in Kp. simpl in Kp.
      rewrite negb_involutive in Kp. now apply String.eqb_eq.
Qed.

Lemma process_materials_returns (material_to_include : list string) (df : table) :
  exists df' excluded,
    process_materials material_to_include df = Ok (df', excluded)
    /\ forall r, In r df' ->
         material_label r <> "sga"
         /\ PyStr.isin (material_label r) material_to_include = true
         /\ forall gas, In gas blood_gas_labels -> is_blood_gas gas r = false.
Proof.
  unfold process_materials.
  set (kept := filter (is_included_material material_to_include) (merge_blood_materials df)).
  destruct (blood_gas_loop_returns blood_gas_labels kept) as [df' [E [S P]]].
  rewrite E. unfold bind. do 2 eexists. split; [reflexivity|].
  intros r Hr. destruct (S r Hr) as [q [Hq <-]].
  apply filter_In in Hq. destruct Hq as [Hq I].
  assert (N : material_label r <> "sga") by (eapply merged_material_not_sga; eauto).
  repeat split; auto.
  intros gas Hg. destruct (is_blood_gas gas r) eqn:G; auto.
  exfalso. apply N. eapply P; eauto.
Qed.

Lemma retain_units_stems {K} (keys : lab_row -> K)
    (dosage_units : list (string * list string)) (df : table) :
  stems_from keys (fold_left retain_units dosage_units df) df.
Proof.
  revert df; induction dosage_units as [|c cs IH]; intro df; simpl.
  - apply stems_from_refl.
  - eapply stems_from_trans; [apply IH|apply stems_from_filter].
Qed.

Lemma process_units_stems {K} (keys : lab_row -> K)
    (dosage_units : list (string * list string)) (df out : table) :
  (forall u r, keys (set_unit_of_measure u r) = keys r) ->
  process_units dosage_units df = Ok out -> stems_from keys out df.
Proof.
  intro Hk. unfold process_units, reconcile_units, unit_of_measure_equivalents.
  cbn [replace_all_equivalents replace_equivalents bind].
  destruct (check_units _ _); [|discriminate].
  intro H. injection H as <-.
  eapply stems_from_trans; [apply retain_units_stems|].
  apply stems_from_map. intro r.
  match goal with |- keys (if ?c then _ else _) = _ => destruct c; auto end.
Qed.


Lemma replace_all_equivalents_raises (get : lab_row -> string)
    (set : string -> lab_row -> lab_row) (groups : list (list string)) (df : table) (e : exn) :
  replace_all_equivalents get set groups df = Raise e -> e = IndexError.
Proof.
  revert df; induction groups as [|g gs IH]; intro df; simpl; [discriminate|].
  destruct g as [|c others]; simpl.
  - intro H. now injection H as <-.
  - apply IH.
Qed.

Section MaterialInvariant.

Variable nfkd : string -> string.
Variable to_numeric : string -> float.
Variable equivalent_labels : list (list string).
Variable dosage_units : list (string * list string).
Variable possible_value_ranges : list (string * float * float).
Variable selected_variables : list string.
Variable material_to_include : list string.

Local Abbreviation run := (preprocess_labs nfkd to_numeric equivalent_labels dosage_units
                             possible_value_ranges selected_variables material_to_include).




End MaterialInvariant.


(** Two pH rows, one arterial and one venous, and the rows of the test
    next to them. *)
Definition pH_rows : list input_row :=
  [ lab "1" "1234" "pH" "sga" "" "7.40";
    lab "1" "1234" "pH" "sgv" "" "7.35" ].



(** C2. The run on an arterial and a venous pH row, both passing the
    material filter as 'any_blood': no error is raised, both rows are
    dropped and an empty table is returned. *)
Theorem arterial_and_venous_pH_returns :
  run_plain [] ["pH"] ["any_blood"] pH_rows
  = Ok ([], mk_audit ["pH"] [] [] false 0 [])
  /\ blood_gas_loop blood_gas_labels
       [ long "1_1234" "pH" "sga" "" (Str "7.40"); long "1_1234" "pH" "sgv" "" (Str "7.35") ]
     = Ok [ long "1_1234" "pH" "sga" "" (Str "7.40") ].
Proof. split; vm_compute; reflexivity. Qed.

(** ** C6: values that are no numbers *)

Lemma In_unique_cells_text (s : string) (l : list cell) :
  In (Str s) (unique_cells l) <-> In (Str s) l.
Proof.
  unfold unique_cells. induction l as [|x t IH]; simpl; [tauto|].
  rewrite filter_In, IH. split.
  - intros [H|[H _]]; auto.
  - intros [H|H]; auto.
    destruct x as [s'|y]; simpl.
    + destruct (String.eqb s' s) eqn:E.
      * left. apply String.eqb_eq in E. now subst.
      * right. auto.
    + right. auto.
Qed.

Lemma In_remove_non_numerical (df : table) (r : lab_row) :
  In r (remove_non_numerical df)
  <-> In r (correct_non_numerical_values df)
      /\ cell_isin (value r) non_numerical_values_to_remove = false
      /\ isna (value r) = false.
Proof.
  unfold remove_non_numerical, dropna. rewrite !filter_In, !negb_true_iff. tauto.
Qed.

Section NonNumerical.

Variable nfkd : string -> string.
Variable to_numeric : string -> float.
Variable equivalent_labels : list (list string).
Variable dosage_units : list (string * list string).
Variable possible_value_ranges : list (string * float * float).
Variable selected_variables : list string.
Variable material_to_include : list string.

Local Abbreviation run := (preprocess_labs nfkd to_numeric equivalent_labels dosage_units
                             possible_value_ranges selected_variables material_to_include).
Local Abbreviation unparsable := (fun r => PrimFloat.is_nan (to_numeric_cell to_numeric (value r))).

(** The values the error lists are the distinct unparsable texts left. *)
Lemma In_remaining_non_numerical_values (df : table) (c : cell) :
  In c (remaining_non_numerical_values to_numeric (remove_non_numerical df))
  <-> exists s, c = Str s /\ PrimFloat.is_nan (to_numeric s) = true
                /\ exists r, In r (remove_non_numerical df) /\ value r = Str s.
Proof.
  unfold remaining_non_numerical_values. split.
  - intro H. apply In_unique_by_sub in H.
    apply in_map_iff in H. destruct H as [r [<- Hr]].
    apply filter_In in Hr. destruct Hr as [Hr B].
    pose proof (proj1 (In_remove_non_numerical df r) Hr) as [_ [_ N]].
    destruct (value r) as [s|x] eqn:V.
    + exists s. split; [reflexivity|]. split; [exact B|]. exists r. split; assumption.
    + cbn [isna to_numeric_cell] in B, N. congruence.
  - intros [s [-> [B [r [Hr V]]]]]. apply In_unique_cells_text.
    rewrite <- V. apply in_map, filter_In. split; [exact Hr|].
    rewrite V. exact B.
Qed.

End NonNumerical.

Lemma correct_negative_values_rows (df : table) (r : lab_row) :
  In r (fst (correct_negative_values df)) ->
  In r df /\ isna (value r) = false
  /\ (PyStr.isin (dosage_label r) ["hémoglobine"; "hemoglobine"] = true
      \/ dosage_label r = "glucose" -> is_negative r = false).
Proof.
  unfold correct_negative_values, dropna. cbn [fst]. intro H.
  apply filter_In in H. destruct H as [H N]. apply negb_true_iff in N.
  apply in_map_iff in H. destruct H as [p [E Hp]].
  apply in_map_iff in Hp. destruct Hp as [q [E' Hq]].
  destruct (PyStr.isin (dosage_label q) ["hémoglobine"; "hemoglobine"] && is_negative q)
    eqn:C1.
  - subst p. cbn [dosage_label set_value] in E.
    destruct (String.eqb (dosage_label q) "glucose" && is_negative (set_value NaN q));
      subst r; cbn [value set_value] in N; discriminate.
  - subst p.
    destruct (String.eqb (dosage_label q) "glucose" && is_negative q) eqn:C2.
    + subst r. cbn [value set_value] in N. discriminate.
    + subst r. split; [exact Hq|]. split; [exact N|].
      intros [I|G].
      * rewrite I in C1. exact C1.
      * rewrite G in C2. exact C2.
Qed.

(** ** C8: range validation *)


Lemma filter_complement_length {A : Type} (f : A -> bool) (l : list A) :
  List.length (filter (fun x => negb (f x)) l) = List.length l - List.length (filter f l).
Proof.
  assert (H : List.length (filter f l) + List.length (filter (fun x => negb (f x)) l)
              = List.length l).
  { induction l as [|x t IH]; simpl; auto. destruct (f x); simpl; lia. }
  lia.
Qed.

Section Ranges.

Variable possible_value_ranges : list (string * float * float).

(** A row is in range when its variable has no configured range, or
    its number lies between the bounds, bounds included. *)
Definition in_range (r : lab_row) : bool :=
  match range_of possible_value_ranges (dosage_label r) with
  | Some (lo, hi) => between (as_float (value r)) lo hi
  | None => true
  end.

Lemma fold_null_out_of_range (variables : list string) (df : table) :
  fold_left (null_out_of_range possible_value_ranges) variables df
  = map (fun r => if existsb (fun v => out_of_range possible_value_ranges v r) variables
                  then set_value NaN r else r) df.
Proof.
  revert df; induction variables as [|v vs IH]; intro df; simpl.
  - now rewrite map_id.
  - rewrite IH. unfold null_out_of_range. rewrite map_map. apply map_ext. intro r.
    destruct (out_of_range possible_value_ranges v r) eqn:E; simpl.
    + destruct (existsb _ vs); reflexivity.
    + reflexivity.
Qed.

Lemma range_of_variable (v : string) (lo hi : float) :
  range_of possible_value_ranges v = Some (lo, hi) ->
  In v (range_variables possible_value_ranges).
Proof.
  unfold range_of, range_variables.
  destruct (find _ _) as [[[l a] b]|] eqn:F; [|discriminate].
  intros _. apply find_some in F. destruct F as [Hin E]. simpl in E.
  apply String.eqb_eq in E. subst l. apply In_unique.
  now apply (in_map (fun row => fst (fst row)) _ (v, a, b)).
Qed.

Lemma some_variable_out_of_range (r : lab_row) :
  existsb (fun v => out_of_range possible_value_ranges v r)
          (range_variables possible_value_ranges)
  = negb (in_range r).
Proof.
  apply eq_true_iff_eq. rewrite existsb_exists, negb_true_iff. unfold in_range. split.
  - intros [v [_ H]]. unfold out_of_range in H.
    destruct (range_of possible_value_ranges v) as [[lo hi]|] eqn:R; [|discriminate].
    apply andb_true_iff in H. destruct H as [E B].
    apply String.eqb_eq in E. rewrite E, R. now apply negb_true_iff.
  - destruct (range_of possible_value_ranges (dosage_label r)) as [[lo hi]|] eqn:R;
      [|discriminate].
    intro B. exists (dosage_label r). split; [eapply range_of_variable; eauto|].
    unfold out_of_range. rewrite R, String.eqb_refl, B. reflexivity.
Qed.

(** The validator keeps the rows in range (that are not missing) and
    counts the others. *)
Lemma restrict_to_possible_value_ranges_filter (df : table) :
  restrict_to_possible_value_ranges possible_value_ranges df
  = (filter (fun r => in_range r && negb (isna (value r))) df,
     List.length df
     - List.length (filter (fun r => in_range r && negb (isna (value r))) df)).
Proof.
  unfold restrict_to_possible_value_ranges. rewrite fold_null_out_of_range.
  set (g := fun r => if existsb (fun v => out_of_range possible_value_ranges v r)
                          (range_variables possible_value_ranges)
                     then set_value NaN r else r).
  assert (D : dropna (map g df)
              = filter (fun r => in_range r && negb (isna (value r))) df).
  { unfold dropna. induction df as [|r t IH]; simpl; auto.
    unfold g at 1 2. rewrite some_variable_out_of_range.
    destruct (in_range r); simpl.
    - destruct (isna (value r)); simpl; now rewrite IH.
    - exact IH. }
  rewrite D. f_equal.
  replace (filter (fun r => isna (value r)) (map g df))
    with (filter (fun r => negb (negb (isna (value r)))) (map g df))
    by (apply filter_ext; intro; apply negb_involutive).
  rewrite (filter_complement_length (fun r => negb (isna (value r)))).
  fold (dropna (map g df)). rewrite D, length_map. reflexivity.
Qed.

End Ranges.

Lemma process_values_numbers (to_numeric : string -> float) (df out : table) :
  process_values to_numeric df = Ok out ->
  forall r, In r out -> exists x, value r = Num x.
Proof.
  unfold process_values. destruct (Nat.ltb _ _); [discriminate|].
  intros H r Hr.
  assert (E : out = map (fun r => set_value (Num (to_numeric_cell to_numeric (value r))) r)
                        (remove_non_numerical df)) by congruence.
  rewrite E in Hr. apply in_map_iff in Hr. destruct Hr as [q [<- _]].
  eexists. reflexivity.
Qed.

Lemma correct_negative_values_numbers (df : table) :
  (forall r, In r df -> exists x, value r = Num x) ->
  forall r, In r (fst (correct_negative_values df)) ->
            exists x, value r = Num x /\ PrimFloat.is_nan x = false.
Proof.
  intros H r Hr. unfold correct_negative_values, dropna in Hr. cbn [fst] in Hr.
  apply filter_In in Hr. destruct Hr as [Hr N].
  assert (V : exists x, value r = Num x).
  { apply in_map_iff in Hr. destruct Hr as [q [<- Hq]].
    apply in_map_iff in Hq. destruct Hq as [p [<- Hp]].
    destruct (H p Hp) as [x Hx].
    repeat match goal with |- context [if ?c then _ else _] => destruct c end;
      cbn [value set_value]; try (eexists; reflexivity); eauto. }
  destruct V as [x Hx]. exists x. split; auto.
  rewrite Hx in N. cbn [isna] in N. now apply negb_true_iff in N.
Qed.

Section RangeValidation.

Variable nfkd : string -> string.
Variable to_numeric : string -> float.
Variable equivalent_labels : list (list string).
Variable dosage_units : list (string * list string).
Variable possible_value_ranges : list (string * float * float).
Variable selected_variables : list string.
Variable material_to_include : list string.

Local Abbreviation run := (preprocess_labs nfkd to_numeric equivalent_labels dosage_units
                             possible_value_ranges selected_variables material_to_include).


End RangeValidation.


(** ** C6: values that are no numbers, from the input to the check *)

Lemma replace_all_equivalents_stems {K} (keys : lab_row -> K) (get : lab_row -> string)
    (set : string -> lab_row -> lab_row) (groups : list (list string)) (df df' : table) :
  (forall x r, keys (set x r) = keys r) ->
  replace_all_equivalents get set groups df = Ok df' -> stems_from keys df' df.
Proof.
  intro Hk. revert df; induction groups as [|g gs IH]; intro df; cbn [replace_all_equivalents].
  - intro H. injection H as <-. apply stems_from_refl.
  - destruct g as [|c others]; cbn [replace_equivalents bind]; [discriminate|].
    intro H. eapply stems_from_trans; [exact (IH _ H)|].
    apply stems_from_map. intro r. destruct (PyStr.isin _ _); auto.
Qed.

Lemma identified_value (lab_df : list input_row) (r : lab_row) :
  In r (identified lab_df) -> exists x, In x lab_df /\ value r = value (columns x).
Proof.
  unfold identified. intro H. apply in_map_iff in H. destruct H as [[x c] [<- Hx]].
  apply in_combine_l in Hx. exists x. split; [exact Hx|reflexivity].
Qed.

Section NonNumericalRun.

Variable nfkd : string -> string.
Variable to_numeric : string -> float.
Variable equivalent_labels : list (list string).
Variable dosage_units : list (string * list string).
Variable possible_value_ranges : list (string * float * float).
Variable selected_variables : list string.
Variable material_to_include : list string.

Local Abbreviation run := (preprocess_labs nfkd to_numeric equivalent_labels dosage_units
                             possible_value_ranges selected_variables material_to_include).
Local Abbreviation unparsable := (fun r => PrimFloat.is_nan (to_numeric_cell to_numeric (value r))).

(** The value of a row that reaches the value stage is the value of a
    row of the input, without its accents. *)
Lemma values_reaching_the_check (lab_df : list input_row) (df0 df1 df2 : table)
    (inc drp exc : list string) :
  process_labels nfkd equivalent_labels selected_variables lab_df = Ok (df0, inc, drp) ->
  process_materials material_to_include df0 = Ok (df1, exc) ->
  process_units dosage_units df1 = Ok df2 ->
  forall r, In r df2 ->
    exists x, In x lab_df /\ value r = remove_accents_cell nfkd (value (columns x)).
Proof.
  intros E0 E1 E2 r Hr.
  destruct (process_units_stems value dosage_units df1 df2 (fun _ _ => eq_refl) E2 r Hr)
    as [r1 [H1 V1]].
  assert (M : exists r0, In r0 df0 /\ value r1 = value r0).
  { unfold process_materials in E1.
    destruct (blood_gas_loop_returns blood_gas_labels
                (filter (is_included_material material_to_include)
                        (merge_blood_materials df0))) as [t [E [S _]]].
    rewrite E in E1. cbn [bind] in E1. injection E1 as <- _.
    destruct (S r1 H1) as [q [Hq <-]]. apply filter_In in Hq. destruct Hq as [Hq _].
    unfold merge_blood_materials in Hq. apply in_map_iff in Hq.
    destruct Hq as [r0 [<- H0]]. exists r0. split; [exact H0|].
    destruct (PyStr.isin _ _); reflexivity. }
  destruct M as [r0 [H0 V0]].
  unfold process_labels, bind in E0.
  destruct (replace_all_equivalents dosage_label set_dosage_label equivalent_labels
              (identified lab_df)) as [t|] eqn:R; [|discriminate].
  injection E0 as <- _ _. apply filter_In in H0. destruct H0 as [H0 _].
  unfold remove_french_accents_and_cedillas_from_dataframe in H0.
  apply in_map_iff in H0. destruct H0 as [q [<- Hq]].
  destruct (replace_all_equivalents_stems value dosage_label set_dosage_label
              equivalent_labels (identified lab_df) t (fun _ _ => eq_refl) R q Hq)
    as [q0 [Hq0 Vq]].
  destruct (identified_value lab_df q0 Hq0) as [x [Hx Vx]].
  exists x. split; [exact Hx|]. rewrite V1, V0. cbn [value]. now rewrite Vq, Vx.
Qed.

(** C6, amended.  The values the value stage of [preprocess_labs]
    receives are the values of the input without their accents.  Once
    apostrophes are removed and the censored values corrected, the rows
    whose value is a token of the exclusion list (or is missing) are
    dropped and never reach the check.  If a value that [pd.to_numeric]
    does not parse (for which it gives NaN) is left among the other
    rows, the run raises the error listing the distinct unparsed texts
    and returns nothing.  If none is left the run returns, and the value
    of every row returned is what [pd.to_numeric] makes of the value of
    a row left: a text is returned as the number it parses to, finite
    or not. *)
Theorem non_numerical_values_are_fatal
    (lab_df : list input_row) (df0 df1 df2 : table) (inc drp exc : list string) :
  process_labels nfkd equivalent_labels selected_variables lab_df = Ok (df0, inc, drp) ->
  process_materials material_to_include df0 = Ok (df1, exc) ->
  process_units dosage_units df1 = Ok df2 ->
  (forall r, In r df2 ->
     exists x, In x lab_df /\ value r = remove_accents_cell nfkd (value (columns x)))
  /\ (forall r, In r (remove_non_numerical df2)
                <-> In r (correct_non_numerical_values df2)
                    /\ cell_isin (value r) non_numerical_values_to_remove = false
                    /\ isna (value r) = false)
  /\ ((exists r, In r (remove_non_numerical df2) /\ unparsable r = true) ->
      run lab_df = Raise (ValueError_non_numerical
                            (remaining_non_numerical_values to_numeric
                               (remove_non_numerical df2)))
      /\ forall c, In c (remaining_non_numerical_values to_numeric (remove_non_numerical df2))
                   <-> exists s, c = Str s /\ PrimFloat.is_nan (to_numeric s) = true
                                 /\ exists r, In r (remove_non_numerical df2)
                                              /\ value r = Str s)
  /\ ((forall r, In r (remove_non_numerical df2) -> unparsable r = false) ->
      exists out log,
        run lab_df = Ok (out, log)
        /\ forall r, In r out ->
             exists q, In q (remove_non_numerical df2)
                       /\ value r = Num (to_numeric_cell to_numeric (value q))
                       /\ PrimFloat.is_nan (to_numeric_cell to_numeric (value q)) = false
                       /\ dosage_label r = dosage_label q
                       /\ case_admission_id r = case_admission_id q).
Proof.
  intros E0 E1 E2.
  split; [exact (values_reaching_the_check lab_df df0 df1 df2 inc drp exc E0 E1 E2)|].
  split; [apply In_remove_non_numerical|]. split.
  - intros [r [Hr B]]. split; [|apply In_remaining_non_numerical_values].
    unfold preprocess_labs, bind. rewrite E0, E1, E2. unfold process_values.
    assert (L : Nat.ltb 0 (List.length (remaining_non_numerical_values to_numeric
                                          (remove_non_numerical df2))) = true).
    { apply Nat.ltb_lt. unfold remaining_non_numerical_values, unique_cells.
      apply (unique_by_nonempty cell_eqb). intro N.
      apply map_eq_nil in N.
      assert (I : In r (filter unparsable (remove_non_numerical df2)))
        by (apply filter_In; auto).
      rewrite N in I. destruct I. }
    rewrite L. reflexivity.
  - intro P.
    assert (V : process_values to_numeric df2
                = Ok (map (fun r => set_value (Num (to_numeric_cell to_numeric (value r))) r)
                          (remove_non_numerical df2))).
    { unfold process_values.
      assert (N : filter unparsable (remove_non_numerical df2) = []).
      { destruct (filter _ _) as [|r t] eqn:F; auto.
        assert (I : In r (filter unparsable (remove_non_numerical df2)))
          by (rewrite F; now left).
        apply filter_In in I. destruct I as [I B]. rewrite (P r I) in B. discriminate. }
      unfold remaining_non_numerical_values. rewrite N.
      cbn [map unique_cells unique_by List.length Nat.ltb Nat.leb]. reflexivity. }
    set (df3 := map (fun r => set_value (Num (to_numeric_cell to_numeric (value r))) r)
                    (remove_non_numerical df2)) in *.
    pose proof (restrict_to_possible_value_ranges_filter possible_value_ranges
                  (fst (correct_negative_values df3))) as R.
    unfold preprocess_labs, bind. rewrite E0, E1, E2, V.
    destruct (correct_negative_values df3) as [df4 w] eqn:E4. cbn [fst] in R.
    destruct (restrict_to_possible_value_ranges possible_value_ranges df4) as [out n].
    injection R as Eo _.
    do 2 eexists. split; [reflexivity|].
    intros r Hr. rewrite Eo in Hr. apply filter_In in Hr. destruct Hr as [Hr _].
    assert (H3 : In r df3).
    { apply (correct_negative_values_rows df3 r). now rewrite E4. }
    unfold df3 in H3. apply in_map_iff in H3. destruct H3 as [q [<- Hq]].
    exists q. split; [exact Hq|]. split; [reflexivity|]. split; [exact (P q Hq)|].
    split; reflexivity.
Qed.

End NonNumericalRun.

Definition token_rows : list input_row :=
  [ lab "1" "1234" "albumine" "sga" "g/l" "12";
    lab "1" "1234" "albumine" "sga" "g/l" "ERROR" ].

Definition unparsable_rows : list input_row :=
  [ lab "1" "1234" "albumine" "sga" "g/l" "12";
    lab "1" "1234" "albumine" "sga" "g/l" "abc";
    lab "1" "1234" "albumine" "sga" "g/l" "ERROR" ].

Lemma non_numerical_values_are_fatal_witness :
  run_plain [] ["albumine"] ["any_blood"] unparsable_rows
  = Raise (ValueError_non_numerical [Str "abc"])
  /\ exists out log, run_plain [] ["albumine"] ["any_blood"] token_rows = Ok (out, log).
Proof.
  split.
  - edestruct (non_numerical_values_are_fatal (fun s => s) Literal.to_numeric [] [] []
                 ["albumine"] ["any_blood"] unparsable_rows) as [_ [_ [H _]]].
    + vm_compute. reflexivity.
    + vm_compute. reflexivity.
    + vm_compute. reflexivity.
    + destruct H as [R _].
      * exists (long "1_1234" "albumine" "any_blood" "g/l" (Str "abc")).
        split; vm_compute; auto.
      * etransitivity; [exact R|]. vm_compute. reflexivity.
  - edestruct (non_numerical_values_are_fatal (fun s => s) Literal.to_numeric [] [] []
                 ["albumine"] ["any_blood"] token_rows) as [_ [_ [_ H]]].
    + vm_compute. reflexivity.
    + vm_compute. reflexivity.
    + vm_compute. reflexivity.
    + destruct H as [out [log [R _]]]; [|exists out, log; exact R].
      intros r Hr. vm_compute in Hr. destruct Hr as [<-|[]]. vm_compute. reflexivity.
Defined.

(** [pd.to_numeric] on the texts of the run below: 'inf' is the
    infinite number. *)
Definition to_numeric_with_inf (s : string) : float :=
  if String.eqb s "inf" then infinity else Literal.to_numeric s.

(** C6 as stated fails: the text 'inf' parses to no finite number, is
    no token of the exclusion list, and the run returns it as a number
    without raising; and the unknown text '12°' loses its last
    character, which is not ASCII, with the accents and is returned as
    the number 12. *)
Lemma infinite_text_is_returned :
  preprocess_labs (fun s => s) to_numeric_with_inf [] [] [] ["albumine"] ["any_blood"]
    [ lab "1" "1234" "albumine" "sga" "g/l" "inf" ]
  = Ok ([ long "1_1234" "albumine" "any_blood" "g/l" (Num infinity) ],
        mk_audit ["albumine"] [] [] false 0 [("albumine", 1%float)])
  /\ cell_isin (Str "inf") non_numerical_values_to_remove = false
  /\ preprocess_labs (fun s => s) to_numeric_with_inf [] [] [] ["albumine"] ["any_blood"]
       [ lab "1" "1234" "albumine" "sga" "g/l" "12°" ]
     = Ok ([ long "1_1234" "albumine" "any_blood" "g/l" (Num 12) ],
           mk_audit ["albumine"] [] [] false 0 [("albumine", 1%float)])
  /\ cell_isin (Str "12°") non_numerical_values_to_remove = false.
Proof. repeat split; vm_compute; reflexivity. Qed.

(** ** C10: observations per case and their median *)

Lemma insert_sorted_perm {A : Type} (leb : A -> A -> bool) (x : A) (l : list A) :
  Permutation (insert_sorted leb x l) (x :: l).
Proof.
  induction l as [|y t IH]; simpl; auto.
  destruct (leb x y); auto.
  rewrite IH. apply perm_swap.
Qed.

Lemma sort_by_perm {A : Type} (leb : A -> A -> bool) (l : list A) :
  Permutation (sort_by leb l) l.
Proof.
  induction l as [|x t IH]; simpl; auto.
  rewrite insert_sorted_perm. now constructor.
Qed.

Lemma key_eqb_eq (a b : string * string) : key_eqb a b = true <-> a = b.
Proof.
  destruct a as [a1 a2], b as [b1 b2]. unfold key_eqb. simpl.
  rewrite andb_true_iff, !String.eqb_eq. split.
  - intros [-> ->]. reflexivity.
  - intro H. injection H as -> ->. auto.
Qed.

(** The keys of the groups: each pair (case, label) of the table, once. *)
Lemma observations_keys (df : table) :
  NoDup (map fst (observations_per_case_admission_id df))
  /\ forall c l n,
       In (c, l, n) (observations_per_case_admission_id df)
       <-> (exists r, In r df /\ case_admission_id r = c /\ dosage_label r = l)
           /\ n = List.length
                    (filter (fun r => String.eqb (case_admission_id r) c
                                      && String.eqb (dosage_label r) l
                                      && negb (isna (value r))) df).
Proof.
  unfold observations_per_case_admission_id.
  set (keys := unique_by key_eqb (map (fun r => (case_admission_id r, dosage_label r)) df)).
  assert (P : Permutation (sort_by key_leb keys) keys) by apply sort_by_perm.
  assert (K : forall k, In k (sort_by key_leb keys)
                        <-> exists r, In r df /\ (case_admission_id r, dosage_label r) = k).
  { intro k. split.
    - intro H. apply (Permutation_in _ P) in H. unfold keys in H.
      apply (proj1 (In_unique_by key_eqb key_eqb_eq _ _)) in H.
      apply in_map_iff in H. destruct H as [r [E Hr]]. eauto.
    - intros [r [Hr E]]. apply (Permutation_in _ (Permutation_sym P)).
      apply (proj2 (In_unique_by key_eqb key_eqb_eq _ _)). rewrite <- E.
      now apply (in_map (fun r => (case_admission_id r, dosage_label r))). }
  split.
  - rewrite map_map. simpl.
    replace (map (fun k : string * string => (fst k, snd k)) (sort_by key_leb keys))
      with (sort_by key_leb keys)
      by (rewrite <- map_id at 1; apply map_ext; now intros []).
    apply (Permutation_NoDup (Permutation_sym P)).
    apply (NoDup_unique_by key_eqb key_eqb_eq).
  - intros c l n. rewrite in_map_iff. split.
    + intros [[c' l'] [E Hk]]. simpl in E. injection E as -> -> <-.
      apply K in Hk. destruct Hk as [r [Hr E]]. injection E as Ec El.
      split; [eauto|reflexivity].
    + intros [[r [Hr [Ec El]]] ->]. exists (c, l). split; [reflexivity|].
      apply K. exists r. split; auto. now rewrite Ec, El.
Qed.

(** The medians: for each label of the groups, the median of its counts. *)
Lemma medians_per_label (counts : list (string * string * nat)) (l : string) (m : float) :
  In (l, m) (median_per_dosage_label counts)
  <-> In l (map (fun c => snd (fst c)) counts)
      /\ m = median (map snd (filter (fun c => String.eqb (snd (fst c)) l) counts)).
Proof.
  unfold median_per_dosage_label. rewrite in_map_iff. split.
  - intros [l' [E H]]. injection E as -> <-.
    apply (Permutation_in _ (sort_by_perm _ _)) in H.
    apply (proj1 (In_unique _ _)) in H. auto.
  - intros [H ->]. exists l. split; auto.
    apply (Permutation_in _ (Permutation_sym (sort_by_perm _ _))). now apply In_unique.
Qed.

Ltac crunch_keys HAB HBA :=
  repeat (unfold key_eqb, key_leb;
          cbn [map filter unique_by sort_by fold_right insert_sorted
               fst snd negb andb case_admission_id dosage_label value List.length
               observations_per_case_admission_id group_count median_per_dosage_label];
          rewrite ?String.eqb_refl, ?HAB, ?HBA).

(** Two rows of a variable for one case and one row for another case,
    in any order of the rows. *)
Lemma median_two_and_one (df : table) (A B L : string) :
  A <> B ->
  List.length df = 3 ->
  (forall r, In r df -> dosage_label r = L /\ isna (value r) = false) ->
  List.length (filter (fun r => String.eqb (case_admission_id r) A) df) = 2 ->
  List.length (filter (fun r => String.eqb (case_admission_id r) B) df) = 1 ->
  median_per_dosage_label (observations_per_case_admission_id df) = [(L, 1.5%float)].
Proof.
  intros HAB Hlen Hrows HA HB.
  destruct df as [|r1 [|r2 [|r3 [|]]]]; try discriminate. clear Hlen.
  destruct (Hrows r1) as [L1 N1]; [simpl; auto|].
  destruct (Hrows r2) as [L2 N2]; [simpl; auto|].
  destruct (Hrows r3) as [L3 N3]; [simpl; auto|]. clear Hrows.
  assert (EAB : String.eqb A B = false) by now apply String.eqb_neq.
  assert (EBA : String.eqb B A = false) by (apply String.eqb_neq; congruence).
  destruct r1 as [c1 ? ? l1 ? ? v1 ? ?], r2 as [c2 ? ? l2 ? ? v2 ? ?],
           r3 as [c3 ? ? l3 ? ? v3 ? ?].
  cbn [dosage_label value case_admission_id] in *. subst l1 l2 l3.
  cbn [filter case_admission_id] in HA, HB.
  destruct (String.eqb_spec c1 A), (String.eqb_spec c1 B),
           (String.eqb_spec c2 A), (String.eqb_spec c2 B),
           (String.eqb_spec c3 A), (String.eqb_spec c3 B);
    cbn [List.length] in HA, HB; try lia; try congruence; subst.
  all: unfold observations_per_case_admission_id, group_count, median_per_dosage_label,
         PyStr.unique.
  all: crunch_keys EAB EBA; rewrite ?N1, ?N2, ?N3; crunch_keys EAB EBA.
  all: destruct (String.leb A B), (String.leb B A); crunch_keys EAB EBA.
  all: rewrite ?N1, ?N2, ?N3; crunch_keys EAB EBA.
  all: reflexivity.
Qed.

(** What a median is.  [x] is the [k]-th smallest of [counts], counting
    from 1, when fewer than [k] of the counts are below [x] and at
    least [k] of them are at most [x]. *)
Definition kth_smallest (counts : list nat) (k : nat) (x : nat) : Prop :=
  In x counts
  /\ List.length (filter (fun c => Nat.ltb c x) counts) < k
  /\ k <= List.length (filter (fun c => Nat.leb c x) counts).

Fixpoint ascending (l : list nat) : Prop :=
  match l with
  | [] => True
  | a :: t => (forall x, In x t -> a <= x) /\ ascending t
  end.

Lemma filter_length_perm {X : Type} (p : X -> bool) (l l' : list X) :
  Permutation l l' -> List.length (filter p l) = List.length (filter p l').
Proof.
  induction 1 as [|x l l' P IH|x y l|l l' l'' P1 IH1 P2 IH2]; cbn [filter].
  - reflexivity.
  - destruct (p x); cbn [List.length]; now rewrite IH.
  - destruct (p x), (p y); reflexivity.
  - now rewrite IH1.
Qed.

Lemma filter_length_mono {X : Type} (p q : X -> bool) (l : list X) :
  (forall x, p x = true -> q x = true) ->
  List.length (filter p l) <= List.length (filter q l).
Proof.
  intro H. induction l as [|x t IH]; [apply Nat.le_refl|]. cbn [filter].
  destruct (p x) eqn:P.
  - rewrite (H x P). cbn [List.length]. lia.
  - destruct (q x); cbn [List.length]; lia.
Qed.

Lemma insert_sorted_ascending (x : nat) (l : list nat) :
  ascending l -> ascending (insert_sorted Nat.leb x l).
Proof.
  induction l as [|y t IH]; cbn [insert_sorted ascending].
  - intros _. split; [intros z []|exact I].
  - intros [Hy At]. destruct (Nat.leb x y) eqn:L.
    + apply Nat.leb_le in L. cbn [ascending]. split; [|split; assumption].
      intros z [<-|Hz]; [exact L|]. specialize (Hy z Hz). lia.
    + apply Nat.leb_gt in L. cbn [ascending]. split; [|now apply IH].
      intros z Hz. apply (Permutation_in _ (insert_sorted_perm Nat.leb x t)) in Hz.
      destruct Hz as [<-|Hz]; [lia|now apply Hy].
Qed.

Lemma sort_by_ascending (l : list nat) : ascending (sort_by Nat.leb l).
Proof.
  induction l as [|x t IH]; [exact I|]. cbn [sort_by fold_right].
  now apply insert_sorted_ascending.
Qed.

(** In an ascending list the element at position [i] is the
    [i+1]-th smallest. *)
Lemma ascending_nth (s : list nat) (i : nat) :
  ascending s -> i < List.length s ->
  In (nth i s 0) s
  /\ List.length (filter (fun c => Nat.ltb c (nth i s 0)) s) <= i
  /\ i < List.length (filter (fun c => Nat.leb c (nth i s 0)) s).
Proof.
  revert i; induction s as [|a t IH]; intros i A L; [cbn [List.length] in L; lia|].
  destruct A as [Ha At]. destruct i as [|j]; cbn [nth].
  - split; [now left|]. cbn [filter]. rewrite Nat.ltb_irrefl, Nat.leb_refl. split.
    + replace (filter (fun c => Nat.ltb c a) t) with (@nil nat); [apply Nat.le_refl|].
      symmetry. clear - Ha. induction t as [|z t IH]; [reflexivity|]. cbn [filter].
      assert (E : Nat.ltb z a = false)
        by (apply Nat.ltb_ge, Ha; now left).
      rewrite E. apply IH. intros x Hx. apply Ha. now right.
    + cbn [List.length]. lia.
  - cbn [List.length] in L. destruct (IH j At) as [Hin [Lt Le]]; [lia|].
    split; [now right|]. cbn [filter].
    assert (E : Nat.leb a (nth j t 0) = true) by (apply Nat.leb_le, Ha, Hin).
    rewrite E. cbn [List.length]. split; [|lia].
    destruct (Nat.ltb a (nth j t 0)); cbn [List.length]; lia.
Qed.

Lemma sorted_nth_kth (counts : list nat) (i : nat) :
  i < List.length counts ->
  kth_smallest counts (S i) (nth i (sort_by Nat.leb counts) 0).
Proof.
  intro L. pose proof (sort_by_perm Nat.leb counts) as P.
  assert (Ls : i < List.length (sort_by Nat.leb counts))
    by now rewrite (Permutation_length P).
  destruct (ascending_nth _ i (sort_by_ascending counts) Ls) as [Hin [Lt Le]].
  unfold kth_smallest.
  rewrite <- (filter_length_perm _ _ _ P), <- (filter_length_perm _ _ _ P).
  split; [exact (Permutation_in _ P Hin)|]. lia.
Qed.

(** The [k]-th smallest is one number. *)
Lemma kth_smallest_unique (counts : list nat) (k x y : nat) :
  kth_smallest counts k x -> kth_smallest counts k y -> x = y.
Proof.
  intros [_ [Lx Ux]] [_ [Ly Uy]].
  destruct (Nat.lt_trichotomy x y) as [H|[H|H]]; [|exact H|]; exfalso.
  - pose proof (filter_length_mono (fun c => Nat.leb c x) (fun c => Nat.ltb c y) counts) as M.
    assert (Q : forall c, Nat.leb c x = true -> Nat.ltb c y = true)
      by (intros c E; apply Nat.leb_le in E; apply Nat.ltb_lt; lia).
    specialize (M Q). lia.
  - pose proof (filter_length_mono (fun c => Nat.leb c y) (fun c => Nat.ltb c x) counts) as M.
    assert (Q : forall c, Nat.leb c y = true -> Nat.ltb c x = true)
      by (intros c E; apply Nat.leb_le in E; apply Nat.ltb_lt; lia).
    specialize (M Q). lia.
Qed.

(** [median] computes the median: the middle one of the counts in
    ascending order when their number is odd, the mean of the two middle
    ones when it is even, missing when there is none. *)
Lemma median_is_the_median (counts : list nat) :
  let n := List.length counts in
  (n = 0 -> PrimFloat.is_nan (median counts) = true)
  /\ (Nat.odd n = true ->
      exists x, kth_smallest counts (n / 2 + 1) x /\ median counts = float_of_nat x)
  /\ (0 < n -> Nat.odd n = false ->
      exists lo hi,
        kth_smallest counts (n / 2) lo /\ kth_smallest counts (n / 2 + 1) hi
        /\ median counts = ((float_of_nat lo + float_of_nat hi) / 2)%float).
Proof.
  intro n. unfold median.
  rewrite (Permutation_length (sort_by_perm Nat.leb counts)). fold n.
  split; [|split].
  - intros ->. reflexivity.
  - intro O. assert (P : 0 < n) by (destruct n; [discriminate|lia]).
    replace (Nat.eqb n 0) with false by (symmetry; apply Nat.eqb_neq; lia). rewrite O.
    exists (nth (n / 2) (sort_by Nat.leb counts) 0). split; [|reflexivity].
    rewrite Nat.add_1_r. apply sorted_nth_kth. apply Nat.div_lt; lia.
  - intros P E.
    replace (Nat.eqb n 0) with false by (symmetry; apply Nat.eqb_neq; lia). rewrite E.
    assert (T : 2 <= n).
    { destruct n as [|[|m]]; [lia|discriminate|lia]. }
    assert (D : 1 <= n / 2) by (apply Nat.div_le_lower_bound; lia).
    assert (U : n / 2 < n) by (apply Nat.div_lt; lia).
    exists (nth (n / 2 - 1) (sort_by Nat.leb counts) 0),
           (nth (n / 2) (sort_by Nat.leb counts) 0).
    split; [|split; [|reflexivity]].
    + replace (n / 2) with (S (n / 2 - 1)) at 1 by lia. apply sorted_nth_kth. lia.
    + rewrite Nat.add_1_r. now apply sorted_nth_kth.
Qed.

(** C10. Median observation count: the medians [preprocess_labs] reports
    are computed from the table it returns: one count per pair (case,
    label) present, the number of rows of the pair; and for each label
    present the median of the counts of its pairs, the median of counts
    being the middle one of them in ascending order (the one with fewer
    than half of the counts below it and more than half at most it), or
    the mean of the two middle ones when their number is even.  With two
    rows of a variable for one case and one row of it for another, the
    median reported for the variable is 1.5. *)
Theorem median_observation_count
    (nfkd : string -> string) (to_numeric : string -> float)
    (equivalent_labels : list (list string)) (dosage_units : list (string * list string))
    (possible_value_ranges : list (string * float * float))
    (selected_variables material_to_include : list string)
    (lab_df : list input_row) (out : table) (log : audit) :
  preprocess_labs nfkd to_numeric equivalent_labels dosage_units possible_value_ranges
    selected_variables material_to_include lab_df = Ok (out, log) ->
  median_observations_per_case_admission_id log
  = median_per_dosage_label (observations_per_case_admission_id out)
  /\ NoDup (map fst (observations_per_case_admission_id out))
  /\ (forall c l n,
        In (c, l, n) (observations_per_case_admission_id out)
        <-> (exists r, In r out /\ case_admission_id r = c /\ dosage_label r = l)
            /\ n = List.length
                     (filter (fun r => String.eqb (case_admission_id r) c
                                       && String.eqb (dosage_label r) l
                                       && negb (isna (value r))) out))
  /\ (forall l m,
        In (l, m) (median_observations_per_case_admission_id log)
        <-> In l (map (fun c => snd (fst c)) (observations_per_case_admission_id out))
            /\ m = median (map snd (filter (fun c => String.eqb (snd (fst c)) l)
                                           (observations_per_case_admission_id out))))
  /\ (forall l m,
        In (l, m) (median_observations_per_case_admission_id log) ->
        let counts := map snd (filter (fun c => String.eqb (snd (fst c)) l)
                                      (observations_per_case_admission_id out)) in
        let n := List.length counts in
        0 < n
        /\ (Nat.odd n = true ->
            exists x, kth_smallest counts (n / 2 + 1) x /\ m = float_of_nat x)
        /\ (Nat.odd n = false ->
            exists lo hi,
              kth_smallest counts (n / 2) lo /\ kth_smallest counts (n / 2 + 1) hi
              /\ m = ((float_of_nat lo + float_of_nat hi) / 2)%float))
  /\ (forall counts k x y,
        kth_smallest counts k x -> kth_smallest counts k y -> x = y)
  /\ (forall A B L,
        A <> B ->
        List.length out = 3 ->
        (forall r, In r out -> dosage_label r = L) ->
        List.length (filter (fun r => String.eqb (case_admission_id r) A) out) = 2 ->
        List.length (filter (fun r => String.eqb (case_admission_id r) B) out) = 1 ->
        median_observations_per_case_admission_id log = [(L, 1.5%float)]).
Proof.
  intro H. destruct (run_stages _ _ _ _ _ _ _ _ _ _ H) as [df0 df1 df2 df3 _ _ _ _ E4 M].
  split; [exact M|]. split; [apply observations_keys|]. split; [apply observations_keys|].
  split; [rewrite M; apply medians_per_label|].
  split; [|split; [exact kth_smallest_unique|]].
  - intros l m Hm. rewrite M in Hm. apply medians_per_label in Hm.
    destruct Hm as [Hl ->]. intros counts n.
    assert (P : 0 < n).
    { unfold n, counts. apply in_map_iff in Hl. destruct Hl as [c [El Hc]].
      assert (I : In (snd c) (map snd (filter (fun c => String.eqb (snd (fst c)) l)
                                              (observations_per_case_admission_id out)))).
      { apply in_map, filter_In. split; [exact Hc|]. rewrite El. apply String.eqb_refl. }
      destruct (map snd _); [destruct I|cbn [List.length]; lia]. }
    destruct (median_is_the_median counts) as [_ [O E]]. fold n in O, E.
    split; [exact P|]. split; [exact O|exact (E P)].
  - intros A B L HAB Hlen HL HA HB. rewrite M.
    apply median_two_and_one with (A := A) (B := B); auto.
    intros r Hr. split; [now apply HL|].
    pose proof (restrict_to_possible_value_ranges_filter possible_value_ranges
                  (fst (correct_negative_values df3))) as R.
    rewrite E4 in R. injection R as Eo _. rewrite Eo in Hr.
    apply filter_In in Hr. destruct Hr as [_ Hr]. apply andb_true_iff in Hr.
    now apply negb_true_iff.
Qed.

(** The run of the repository's test. *)
Lemma median_observation_count_witness :
  exists out log,
    run_plain [] ["albumine"] ["any_blood"] albumine_rows = Ok (out, log)
    /\ median_observations_per_case_admission_id log = [("albumine", 1.5%float)].
Proof.
  exists [ long "1_1234" "albumine" "any_blood" "g/l" (Num 10);
           long "1_1234" "albumine" "any_blood" "g/l" (Num 20);
           long "2_9999" "albumine" "any_blood" "g/l" (Num 30) ].
  exists (mk_audit ["albumine"] [] [] false 0 [("albumine", 1.5%float)]).
  assert (H : run_plain [] ["albumine"] ["any_blood"] albumine_rows
              = Ok ([ long "1_1234" "albumine" "any_blood" "g/l" (Num 10);
                      long "1_1234" "albumine" "any_blood" "g/l" (Num 20);
                      long "2_9999" "albumine" "any_blood" "g/l" (Num 30) ],
                    mk_audit ["albumine"] [] [] false 0 [("albumine", 1.5%float)]))
    by (vm_compute; reflexivity).
  split; [exact H|].
  refine (proj2 (proj2 (proj2 (proj2 (proj2 (proj2
            (median_observation_count _ _ _ _ _ _ _ _ _ _ H))))))
            "1_1234" "2_9999" "albumine" _ _ _ _ _).
  - discriminate.
  - reflexivity.
  - intros r [<-|[<-|[<-|[]]]]; reflexivity.
  - reflexivity.
  - reflexivity.
Defined.

(** ** C9: the wide-to-long reshape *)

Section ReshapeFacts.

Import Reshape.

Lemma nth_map_position (g : string -> cell) (c : string) (names : list string) (i : nat) :
  position c names = Some i -> nth i (map g names) NaN = g c.
Proof.
  revert i; induction names as [|d t IH]; intro i; simpl; [discriminate|].
  destruct (String.eqb_spec c d) as [->|N].
  - intro H. injection H as <-. reflexivity.
  - destruct (position c t) as [j|]; [|discriminate].
    intro H. injection H as <-. now apply IH.
Qed.

Lemma position_In (c : string) (cols : list string) :
  In c cols -> exists i, position c cols = Some i.
Proof.
  induction cols as [|d t IH]; simpl; [intros []|].
  destruct (String.eqb_spec c d) as [->|N]; [eauto|].
  intros [E|H]; [congruence|]. destruct (IH H) as [i ->]. simpl. eauto.
Qed.

Lemma position_lt (c : string) (cols : list string) (i : nat) :
  position c cols = Some i -> i < List.length cols.
Proof.
  revert i; induction cols as [|d t IH]; intro i; simpl; [discriminate|].
  destruct (String.eqb c d).
  - intro H. injection H as <-. lia.
  - destruct (position c t) as [j|]; [|discriminate].
    intro H. injection H as <-. specialize (IH j eq_refl). lia.
Qed.

Lemma position_app_new (c : string) (cols : list string) :
  position c cols = None -> position c (cols ++ [c]) = Some (List.length cols).
Proof.
  induction cols as [|d t IH]; simpl.
  - now rewrite String.eqb_refl.
  - destruct (String.eqb c d); [discriminate|].
    destruct (position c t); [discriminate|]. intros _. now rewrite IH.
Qed.

Lemma nth_replace_nth (i : nat) (v : cell) (row : list cell) :
  i < List.length row -> nth i (replace_nth i v row) NaN = v.
Proof.
  revert i; induction row as [|x t IH]; intro i; simpl; [lia|].
  destruct i; simpl; auto. intro H. apply IH. lia.
Qed.

Lemma length_replace_nth (i : nat) (v : cell) (row : list cell) :
  List.length (replace_nth i v row) = List.length row.
Proof.
  revert i; induction row as [|x t IH]; intros [|i]; simpl; auto.
Qed.

(** A table whose rows have one cell per column. *)
Definition rectangular (df : frame) : Prop :=
  forall row, In row (frame_rows df) -> List.length row = List.length (frame_columns df).

(** After [df['lab_name'] = lab_name] every row carries the name. *)
Lemma assign_cell (c : string) (v : cell) (df : frame) :
  rectangular df ->
  forall row, In row (frame_rows (assign c v df)) ->
              cell_at (frame_columns (assign c v df)) row c = v.
Proof.
  intros W row. unfold assign, cell_at.
  destruct (position c (frame_columns df)) as [i|] eqn:P; simpl.
  - rewrite P. intro H. apply in_map_iff in H. destruct H as [r [<- Hr]].
    apply nth_replace_nth. rewrite (W r Hr). eapply position_lt; eauto.
  - rewrite (position_app_new _ _ P). intro H.
    apply in_map_iff in H. destruct H as [r [<- Hr]].
    rewrite app_nth2, (W r Hr), Nat.sub_diag; [reflexivity|]. rewrite (W r Hr). lia.
Qed.

Lemma assign_rows_length (c : string) (v : cell) (df : frame) :
  List.length (frame_rows (assign c v df)) = List.length (frame_rows df).
Proof.
  unfold assign. destruct (position c (frame_columns df)); simpl; apply length_map.
Qed.

Lemma assign_has_column (c : string) (v : cell) (df : frame) :
  In c (frame_columns (assign c v df)).
Proof.
  unfold assign. destruct (position c (frame_columns df)) as [i|] eqn:P; simpl.
  - clear v. revert i P. induction (frame_columns df) as [|d t IH]; simpl; [discriminate|].
    intros i. destruct (String.eqb_spec c d) as [->|N]; [auto|].
    destruct (position c t) as [j|]; [|discriminate]. intros _. right. eapply IH; eauto.
  - apply in_or_app. right. now left.
Qed.

(** The rows of the wide table that have a value for [lab_name], and
    the rows of a long table tagged with it. *)
Definition has_value (lab_name : string) (lab_df : frame) (row : list cell) : bool :=
  negb (isna (cell_at (frame_columns lab_df) row (lab_name ++ "_value")%string)).

Definition tagged (lab_name : string) (cols : list string) (row : list cell) : bool :=
  cell_is (cell_at cols row "lab_name") lab_name.

Lemma filter_map_length {X Y : Type} (p : Y -> bool) (h : X -> Y) (l : list X) :
  List.length (filter p (map h l)) = List.length (filter (fun x => p (h x)) l).
Proof.
  induction l as [|x t IH]; simpl; auto. destruct (p (h x)); simpl; auto.
Qed.

(** One block of the loop: as many rows as the wide table has rows with
    a value for the name, all tagged with the name, under the
    identification columns and the field names without the prefix. *)
Lemma individual_lab_df_block (lab_df : frame) (lab_name : string) (b : frame) :
  individual_lab_df lab_df lab_name = Ok b ->
  (forall row, In row (frame_rows b) -> cell_at (frame_columns b) row "lab_name" = Str lab_name)
  /\ List.length (frame_rows b)
     = List.length (filter (has_value lab_name lab_df) (frame_rows lab_df))
  /\ In "lab_name" (frame_columns b)
  /\ exists df, b = assign "lab_name" (Str lab_name) df
                /\ frame_columns df
                   = identification_columns
                     ++ map field_of
                          (filter (PyStr.startswith lab_name)
                             (identification_columns
                              ++ filter (fun c => String.eqb (lab_of c) lab_name)
                                        (frame_columns lab_df))).
Proof.
  unfold individual_lab_df, bind, select.
  set (names := identification_columns
                ++ filter (fun c => String.eqb (lab_of c) lab_name) (frame_columns lab_df)).
  destruct (find _ names); [discriminate|].
  unfold dropna_subset. cbn [frame_columns frame_rows].
  destruct (position (lab_name ++ "_value") names) as [i|] eqn:P; [|discriminate].
  unfold set_columns. cbn [frame_columns frame_rows].
  destruct (Nat.eqb _ _) eqn:L; [|discriminate].
  apply Nat.eqb_eq in L. intro H. injection H as <-.
  set (rows := filter (fun row => negb (isna (nth i row NaN)))
                 (map (fun row => map (cell_at (frame_columns lab_df) row) names)
                      (frame_rows lab_df))) in *.
  set (cols := identification_columns
               ++ map field_of (filter (PyStr.startswith lab_name) names)) in *.
  assert (W : rectangular (mk_frame cols rows)).
  { intros row Hr. cbn [frame_rows frame_columns] in *. unfold rows in Hr.
    apply filter_In in Hr. destruct Hr as [Hr _].
    apply in_map_iff in Hr. destruct Hr as [r [<- _]]. rewrite length_map. now rewrite L. }
  split; [now apply assign_cell|]. split.
  - rewrite assign_rows_length. cbn [frame_rows]. unfold rows.
    rewrite filter_map_length. f_equal. apply filter_ext. intro row.
    unfold has_value. do 2 f_equal.
    exact (nth_map_position (cell_at (frame_columns lab_df) row) _ names i P).
  - split; [apply assign_has_column|]. exists (mk_frame cols rows). split; reflexivity.
Qed.

Lemma split_by_lab_name_blocks (lab_df : frame) (names : list string) (dfs : list frame) :
  split_by_lab_name lab_df names = Ok dfs ->
  Forall2 (fun n b => individual_lab_df lab_df n = Ok b) names dfs.
Proof.
  revert dfs; induction names as [|n ns IH]; intro dfs; simpl.
  - intro H. injection H as <-. constructor.
  - unfold bind.
    destruct (individual_lab_df lab_df n) as [b|] eqn:B; [|discriminate].
    destruct (split_by_lab_name lab_df ns) as [bs|]; [|discriminate].
    intro H. injection H as <-. constructor; auto.
Qed.

(** In the concatenation, a row keeps its cell under a column that its
    own table has. *)
Lemma concat_rows (dfs : list frame) (long : frame) :
  Reshape.concat dfs = Ok long ->
  frame_columns long = PyStr.unique (flat_map frame_columns dfs)
  /\ frame_rows long
     = flat_map (fun df => map (fun row => map (cell_at (frame_columns df) row)
                                               (frame_columns long))
                               (frame_rows df)) dfs.
Proof.
  unfold Reshape.concat. destruct dfs as [|d ds]; [discriminate|].
  intro H. injection H as <-. split; reflexivity.
Qed.

Lemma reindexed_cell (cols own : list string) (row : list cell) (c : string) :
  In c cols -> cell_at cols (map (cell_at own row) cols) c = cell_at own row c.
Proof.
  intro H. destruct (position_In c cols H) as [i P].
  unfold cell_at at 1. rewrite P. now apply nth_map_position.
Qed.

Lemma tagged_count (lab_df : frame) (cols : list string) (lab_name : string)
    (names : list string) (dfs : list frame) :
  Forall2 (fun n b => individual_lab_df lab_df n = Ok b) names dfs ->
  In "lab_name" cols ->
  NoDup names ->
  List.length
    (filter (tagged lab_name cols)
       (flat_map (fun df => map (fun row => map (cell_at (frame_columns df) row) cols)
                                (frame_rows df)) dfs))
  = if PyStr.isin lab_name names
    then List.length (filter (has_value lab_name lab_df) (frame_rows lab_df))
    else 0.
Proof.
  intros F Hc. induction F as [|n b ns bs B F IH]; intro ND; [reflexivity|].
  inversion ND as [|? ? Hn ND']; subst.
  destruct (individual_lab_df_block _ _ _ B) as [T [Len _]].
  cbn [flat_map]. rewrite filter_app, length_app, (IH ND'). cbn [PyStr.isin existsb].
  fold (PyStr.isin lab_name ns).
  assert (Tg : forall row, In row (frame_rows b) ->
                 tagged lab_name cols (map (cell_at (frame_columns b) row) cols)
                 = String.eqb n lab_name).
  { intros row Hr. unfold tagged. rewrite reindexed_cell by exact Hc.
    rewrite (T row Hr). reflexivity. }
  rewrite filter_map_length.
  destruct (String.eqb_spec lab_name n) as [->|N].
  - assert (E : PyStr.isin n ns = false).
    { destruct (PyStr.isin n ns) eqn:I; auto. apply isin_In in I. contradiction. }
    rewrite E, Nat.add_0_r. cbn [orb].
    rewrite (filter_ext_in _ (fun _ => true)).
    + rewrite <- Len. f_equal. clear. induction (frame_rows b); simpl; congruence.
    + intros row Hr. rewrite (Tg row Hr). apply String.eqb_refl.
  - cbn [orb]. rewrite (filter_ext_in _ (fun _ => false)).
    + clear. induction (frame_rows b); simpl; auto.
    + intros row Hr. rewrite (Tg row Hr). apply String.eqb_neq. congruence.
Qed.

End ReshapeFacts.

Lemma Forall2_In_left {X Y : Type} (R : X -> Y -> Prop) (xs : list X) (ys : list Y) (x : X) :
  Forall2 R xs ys -> In x xs -> exists y, In y ys /\ R x y.
Proof.
  induction 1 as [|a b xs ys Hab F IH]; simpl; [intros []|].
  intros [<-|H]; [eauto|]. destruct (IH H) as [y [Hy Ry]]. eauto.
Qed.

(** A wide table with the identification columns and the two glucose
    columns, row by row, and its long form. *)
Definition wide_row (x : cell * cell * cell * cell) : list cell :=
  let '(c, d, v, u) := x in [c; d; v; u].

Definition long_row (lab_name : string) (x : cell * cell * cell * cell) : list cell :=
  let '(c, d, v, u) := x in [c; d; v; u; Str lab_name].

Lemma glucose_table (rows : list (cell * cell * cell * cell)) :
  Reshape.reorganised_lab_df ["glucose"]
    (Reshape.mk_frame ["case_admission_id"; "sample_date"; "glucose_value"; "glucose_unit"]
                      (map wide_row rows))
  = Ok (Reshape.mk_frame ["case_admission_id"; "sample_date"; "value"; "unit"; "lab_name"]
          (map (long_row "glucose")
               (filter (fun x => negb (isna (snd (fst x)))) rows))).
Proof.
  unfold Reshape.reorganised_lab_df. cbn [Reshape.frame_columns].
  replace (forallb _ Reshape.target_structure_columns) with false
    by (vm_compute; reflexivity).
  unfold Reshape.split_by_lab_name, Reshape.individual_lab_df, bind, Reshape.select.
  cbn [Reshape.frame_columns Reshape.frame_rows].
  replace (find _ _) with (@None string) by (vm_compute; reflexivity).
  unfold Reshape.dropna_subset. cbn [Reshape.frame_columns Reshape.frame_rows].
  replace (Reshape.position _ _) with (Some 2) by (vm_compute; reflexivity).
  unfold Reshape.set_columns. cbn [Reshape.frame_columns Reshape.frame_rows].
  replace (Nat.eqb _ _) with true by (vm_compute; reflexivity).
  unfold Reshape.assign. cbn [Reshape.frame_columns Reshape.frame_rows].
  replace (Reshape.position "lab_name" _) with (@None nat) by (vm_compute; reflexivity).
  unfold Reshape.concat. cbn [Reshape.frame_columns Reshape.frame_rows flat_map].
  rewrite !app_nil_r. apply f_equal. apply f_equal2.
  - vm_compute. reflexivity.
  - replace (PyStr.unique _)
      with ["case_admission_id"; "sample_date"; "value"; "unit"; "lab_name"]
      by (vm_compute; reflexivity).
    induction rows as [|[[[c d] v] u] rows IH]; [reflexivity|].
    cbn [map filter wide_row fst snd].
    replace (nth 2 _ NaN) with v by reflexivity.
    destruct (negb (isna v)); cbn [map long_row]; rewrite <- IH; [|reflexivity].
    f_equal.
Qed.

(** C9. Wide-to-long reshape.  For a wide table that is not in the long
    shape and has the columns 'glucose_value' and 'glucose_unit', and
    for any order in which the loop visits the analyte names: when the
    reshape returns, the long table has the columns 'value', 'unit' and
    'lab_name', and its rows tagged 'glucose' are as many as the rows
    of the wide table whose 'glucose_value' is not missing.  For the
    table with just the identification columns and the two glucose
    columns the reshape returns, with one row per wide row that has a
    value, under the field names without the prefix. *)
Theorem wide_to_long_reshape :
  (forall (lab_df long : Reshape.frame) (names : list string),
      forallb (fun c => PyStr.isin c (Reshape.frame_columns lab_df))
              Reshape.target_structure_columns = false ->
      In "glucose_value" (Reshape.frame_columns lab_df) ->
      In "glucose_unit" (Reshape.frame_columns lab_df) ->
      Permutation names (Reshape.lab_names lab_df) ->
      Reshape.reorganised_lab_df names lab_df = Ok long ->
      List.length (filter (tagged "glucose" (Reshape.frame_columns long))
                          (Reshape.frame_rows long))
      = List.length (filter (has_value "glucose" lab_df) (Reshape.frame_rows lab_df))
      /\ In "value" (Reshape.frame_columns long)
      /\ In "unit" (Reshape.frame_columns long)
      /\ In "lab_name" (Reshape.frame_columns long))
  /\ (forall rows : list (cell * cell * cell * cell),
        Reshape.reorganised_lab_df ["glucose"]
          (Reshape.mk_frame
             ["case_admission_id"; "sample_date"; "glucose_value"; "glucose_unit"]
             (map wide_row rows))
        = Ok (Reshape.mk_frame
                ["case_admission_id"; "sample_date"; "value"; "unit"; "lab_name"]
                (map (long_row "glucose")
                     (filter (fun x => negb (isna (snd (fst x)))) rows)))).
Proof.
  split; [|exact glucose_table].
  intros lab_df long names Wide Hv Hu Perm.
  unfold Reshape.reorganised_lab_df. rewrite Wide. unfold bind.
  destruct (Reshape.split_by_lab_name lab_df names) as [dfs|] eqn:S; [|discriminate].
  intro C. apply concat_rows in C. destruct C as [Cols Rows].
  apply split_by_lab_name_blocks in S.
  assert (ND : NoDup names).
  { apply (Permutation_NoDup (Permutation_sym Perm)).
    apply (NoDup_unique_by String.eqb String.eqb_eq). }
  assert (G : In "glucose" names).
  { apply (Permutation_in _ (Permutation_sym Perm)). unfold Reshape.lab_names.
    apply In_unique. apply (in_map Reshape.lab_of _ "glucose_value").
    apply filter_In. split; [exact Hv|reflexivity]. }
  destruct (Forall2_In_left _ _ _ _ S G) as [b [Hb B]].
  destruct (individual_lab_df_block _ _ _ B) as [_ [_ [Ln [df [Eb Ec]]]]].
  assert (Sub : forall c, In c (Reshape.frame_columns b) ->
                          In c (Reshape.frame_columns long)).
  { intros c Hc. rewrite Cols. apply In_unique. apply in_flat_map. eauto. }
  assert (Core : forall c, In c (Reshape.frame_columns df) ->
                           In c (Reshape.frame_columns b)).
  { intros c Hc. rewrite Eb. unfold Reshape.assign.
    destruct (Reshape.position _ _); simpl; auto. apply in_or_app. now left. }
  assert (Field : forall c, In c (Reshape.frame_columns lab_df) ->
                            Reshape.lab_of c = "glucose" ->
                            PyStr.startswith "glucose" c = true ->
                            In (Reshape.field_of c) (Reshape.frame_columns long)).
  { intros c Hc Lc Sc. apply Sub, Core. rewrite Ec. apply in_or_app. right.
    apply in_map, filter_In. split; [|exact Sc].
    apply in_or_app. right. apply filter_In. split; [exact Hc|].
    rewrite Lc. reflexivity. }
  split; [|split; [|split]].
  - rewrite Rows, (tagged_count lab_df _ "glucose" names dfs S (Sub _ Ln) ND).
    assert (I : PyStr.isin "glucose" names = true) by now apply isin_In.
    now rewrite I.
  - exact (Field "glucose_value" Hv eq_refl eq_refl).
  - exact (Field "glucose_unit" Hu eq_refl eq_refl).
  - exact (Sub _ Ln).
Qed.

(** A wide table with glucose and sodium columns: one row with a glucose
    value only, one with a sodium value only. *)
Definition glucose_sodium : Reshape.frame :=
  Reshape.mk_frame
    ["sample_date"; "glucose_value"; "glucose_unit"; "sodium_value"; "case_admission_id"]
    [ [Str "01.01.2020 12:00"; Str "5.5"; Str "mmol/l"; NaN; Str "1_0001"];
      [Str "02.01.2020 12:00"; NaN; Str "mmol/l"; Str "140"; Str "1_0001"] ].

Lemma wide_to_long_reshape_witness :
  List.length
    (filter (tagged "glucose" ["case_admission_id"; "sample_date"; "value"; "lab_name"; "unit"])
       [ [Str "1_0001"; Str "02.01.2020 12:00"; Str "140"; Str "sodium"; NaN];
         [Str "1_0001"; Str "01.01.2020 12:00"; Str "5.5"; Str "glucose"; Str "mmol/l"] ])
  = 1.
Proof.
  refine (proj1 (proj1 wide_to_long_reshape glucose_sodium
                   (Reshape.mk_frame
                      ["case_admission_id"; "sample_date"; "value"; "lab_name"; "unit"]
                      [ [Str "1_0001"; Str "02.01.2020 12:00"; Str "140"; Str "sodium"; NaN];
                        [Str "1_0001"; Str "01.01.2020 12:00"; Str "5.5"; Str "glucose";
                         Str "mmol/l"] ])
                   ["sodium"; "glucose"] _ _ _ _ _)).
  - vm_compute. reflexivity.
  - right. left. reflexivity.
  - right. right. left. reflexivity.
  - apply perm_swap.
  - vm_compute. reflexivity.
Defined.

(** ** C7: texts without a number in the alternate source *)

Section MimicFacts.

Import Mimic.

Variable py_float : string -> option float.

Local Abbreviation convert := (convert_non_numerical_values py_float).

(** The three assignments as they act on one row. *)
Definition estimate_all (r : mimic_row) : result mimic_row :=
  r <- estimate py_float ">" ">" 1 r ;;
  r <- estimate py_float "greater than " "GREATER THAN " 1 r ;;
  estimate py_float "IS HIGHEST MEASURED " "IS HIGHEST MEASURED " 0 r.

(** The row after the three assignments, when none of them raises. *)
Definition estimated (r : mimic_row) : mimic_row :=
  match estimate_all r with
  | Ok r' => r'
  | Raise _ => r
  end.


(** The row after one assignment, when it does not raise. *)
Definition estimated_by (pat sep : string) (part : nat) (r : mimic_row) : mimic_row :=
  match estimate py_float pat sep part r with
  | Ok q => q
  | Raise _ => r
  end.

Lemma estimate_rows_ok (pat sep : string) (part : nat) (df : list mimic_row)
    (f : mimic_row -> mimic_row) :
  (forall r, In r df -> estimate py_float pat sep part r = Ok (f r)) ->
  estimate_rows py_float pat sep part df = Ok (map f df).
Proof.
  induction df as [|r t IH]; intro H; simpl; [reflexivity|].
  rewrite (H r) by now left. unfold bind. rewrite IH; [reflexivity|].
  intros q Hq. apply H. now right.
Qed.

Lemma estimate_rows_raise (pat sep : string) (part : nat) (df : list mimic_row) :
  (exists r e, In r df /\ estimate py_float pat sep part r = Raise e) ->
  exists e, estimate_rows py_float pat sep part df = Raise e.
Proof.
  induction df as [|r t IH]; simpl; [intros [? [? [[] _]]]|].
  intros [q [e [[<-|Hq] E]]].
  - rewrite E. simpl. eauto.
  - destruct (estimate py_float pat sep part r); simpl; [|eauto].
    destruct IH as [e' ->]; eauto. simpl. eauto.
Qed.

Lemma estimate_rows_inv (pat sep : string) (part : nat) (df df' : list mimic_row) :
  estimate_rows py_float pat sep part df = Ok df' ->
  df' = map (estimated_by pat sep part) df
  /\ forall r, In r df -> estimate py_float pat sep part r = Ok (estimated_by pat sep part r).
Proof.
  revert df'; induction df as [|q t IH]; intros df' E.
  - cbn [estimate_rows] in E. injection E as <-. split; [reflexivity|intros r []].
  - cbn [estimate_rows] in E. unfold bind in E.
    destruct (estimate py_float pat sep part q) as [q'|] eqn:Q; [|discriminate].
    destruct (estimate_rows py_float pat sep part t) as [t'|]; [|discriminate].
    injection E as <-. destruct (IH t' eq_refl) as [-> H].
    assert (Q' : estimated_by pat sep part q = q') by (unfold estimated_by; now rewrite Q).
    split; [cbn [map]; now rewrite Q'|].
    intros r [<-|Hr]; [now rewrite Q'|now apply H].
Qed.

Lemma estimate_no_marker (pat sep : string) (part : nat) (r : mimic_row) :
  value_contains pat r = false -> estimate py_float pat sep part r = Ok r.
Proof. unfold estimate. now intros ->. Qed.

Lemma estimated_by_no_marker (pat sep : string) (part : nat) (r : mimic_row) :
  value_contains pat r = false -> estimated_by pat sep part r = r.
Proof. intro H. unfold estimated_by. now rewrite estimate_no_marker. Qed.


Lemma str_accessor_text (df : list mimic_row) (r : mimic_row) :
  In r df -> is_text r = true -> str_accessor df = Ok tt.
Proof.
  intros Hr T. unfold str_accessor.
  assert (E : existsb is_text df = true) by (apply existsb_exists; eauto).
  now rewrite E.
Qed.

Lemma str_accessor_cases (df : list mimic_row) :
  str_accessor df = Ok tt \/ str_accessor df = Raise AttributeError_str_accessor.
Proof. unfold str_accessor. destruct (_ || _); auto. Qed.

(** The rows after the first and after the second assignment. *)
Local Abbreviation after_first := (estimated_by ">" ">" 1).
Local Abbreviation after_second :=
  (fun r => estimated_by "greater than " "GREATER THAN " 1 (after_first r)).

(** When the conversion returns and when it does not. *)
Lemma convert_iff (df : list mimic_row) (out : list mimic_row) (n : nat) :
  convert df = Ok (out, n)
  <-> str_accessor df = Ok tt
      /\ str_accessor (map after_first df) = Ok tt
      /\ str_accessor (map after_second df) = Ok tt
      /\ (forall r, In r df -> estimate_all r = Ok (estimated r))
      /\ out = filter (fun r => negb (no_numeric_estimate r)) (map estimated df)
      /\ n = List.length (filter no_numeric_estimate (map estimated df)).
Proof.
  unfold convert_non_numerical_values, assign_estimates. split.
  - intro H.
    destruct (str_accessor_cases df) as [A1|A1]; rewrite A1 in H; [|discriminate].
    cbn [bind] in H.
    destruct (estimate_rows py_float ">" ">" 1 df) as [df1|] eqn:R1; [|discriminate].
    cbn [bind] in H. destruct (estimate_rows_inv _ _ _ _ _ R1) as [-> S1].
    destruct (str_accessor_cases (map after_first df)) as [A2|A2]; rewrite A2 in H;
      [|discriminate].
    cbn [bind] in H.
    destruct (estimate_rows py_float "greater than " "GREATER THAN " 1 (map after_first df))
      as [df2|] eqn:R2; [|discriminate].
    cbn [bind] in H. destruct (estimate_rows_inv _ _ _ _ _ R2) as [-> S2].
    rewrite map_map in H.
    destruct (str_accessor_cases (map after_second df)) as [A3|A3]; rewrite A3 in H;
      [|discriminate].
    cbn [bind] in H.
    destruct (estimate_rows py_float "IS HIGHEST MEASURED " "IS HIGHEST MEASURED " 0
                (map after_second df)) as [df3|] eqn:R3; [|discriminate].
    cbn [bind] in H. destruct (estimate_rows_inv _ _ _ _ _ R3) as [-> S3].
    rewrite map_map in H.
    assert (P : forall r, In r df ->
                  estimate_all r
                  = Ok (estimated_by "IS HIGHEST MEASURED " "IS HIGHEST MEASURED " 0
                          (after_second r))).
    { intros r Hr. unfold estimate_all. rewrite (S1 r Hr). cbn [bind].
      rewrite (S2 (after_first r)) by (apply in_map; exact Hr). cbn [bind].
      apply S3. exact (in_map after_second df r Hr). }
    assert (M : map (fun r => estimated_by "IS HIGHEST MEASURED " "IS HIGHEST MEASURED " 0
                                 (after_second r)) df
                = map estimated df).
    { apply map_ext_in. intros r Hr. unfold estimated. now rewrite (P r Hr). }
    rewrite M in H. injection H as <- <-.
    repeat split; auto.
    intros r Hr. unfold estimated. rewrite (P r Hr). reflexivity.
  - intros [A1 [A2 [A3 [P [-> ->]]]]].
    assert (S : forall r, In r df ->
                  estimate py_float ">" ">" 1 r = Ok (after_first r)
                  /\ estimate py_float "greater than " "GREATER THAN " 1 (after_first r)
                     = Ok (after_second r)
                  /\ estimate py_float "IS HIGHEST MEASURED " "IS HIGHEST MEASURED " 0
                       (after_second r) = Ok (estimated r)).
    { intros r Hr. pose proof (P r Hr) as E. unfold estimate_all, bind in E.
      unfold estimated_by.
      destruct (estimate py_float ">" ">" 1 r) as [r1|]; [|discriminate].
      destruct (estimate py_float "greater than " "GREATER THAN " 1 r1) as [r2|];
        [|discriminate].
      auto. }
    rewrite A1. cbn [bind].
    rewrite (estimate_rows_ok _ _ _ df after_first) by (intros r Hr; apply (S r Hr)).
    cbn [bind]. rewrite A2. cbn [bind].
    rewrite (estimate_rows_ok _ _ _ (map after_first df)
               (estimated_by "greater than " "GREATER THAN " 1)).
    2:{ intros q Hq. apply in_map_iff in Hq. destruct Hq as [r [<- Hr]]. apply (S r Hr). }
    cbn [bind]. rewrite map_map, A3. cbn [bind].
    assert (R3 : estimate_rows py_float "IS HIGHEST MEASURED " "IS HIGHEST MEASURED " 0
                   (map after_second df) = Ok (map estimated df)).
    { clear A1 A2 A3 P. induction df as [|r t IH]; [reflexivity|].
      cbn [map estimate_rows].
      destruct (S r (or_introl eq_refl)) as [_ [_ ->]]. cbn [bind].
      rewrite IH by (intros q Hq; apply S; now right). reflexivity. }
    rewrite R3. reflexivity.
Qed.




End MimicFacts.

Definition mimic (text : cell) (number : float) : Mimic.mimic_row :=
  Mimic.mk_mimic "20001" "2150-01-01 08:00:00" "glucose" text number "mg/dL".



(** * Further properties of the pipeline *)

(** ** What a run of [preprocess_labs] returns and raises *)

Lemma process_materials_rows (material_to_include : list string) (df df' : table)
    (excluded : list string) :
  process_materials material_to_include df = Ok (df', excluded) ->
  stems_from (fun r => r) df'
    (filter (is_included_material material_to_include) (merge_blood_materials df))
  /\ excluded = filter (fun m => negb (PyStr.isin m material_to_include))
                       (PyStr.unique (map material_label (merge_blood_materials df))).
Proof.
  unfold process_materials.
  destruct (blood_gas_loop_returns blood_gas_labels
              (filter (is_included_material material_to_include)
                      (merge_blood_materials df))) as [t [E [S _]]].
  rewrite E. unfold bind. intro H. injection H as <- <-. split; [exact S|reflexivity].
Qed.

Lemma merged_material_not_blood (df : table) (r : lab_row) :
  In r (merge_blood_materials df) -> ~ In (material_label r) blood_material_equivalents.
Proof.
  unfold merge_blood_materials. rewrite in_map_iff. intros [q [<- _]].
  destruct (PyStr.isin (material_label q) blood_material_equivalents) eqn:E.
  - cbn [material_label set_material_label]. intro H. apply isin_In in H.
    vm_compute in H. discriminate.
  - intro H. apply isin_In in H. congruence.
Qed.

Lemma merged_label (df : table) (r : lab_row) :
  In r (merge_blood_materials df) -> exists q, In q df /\ dosage_label q = dosage_label r.
Proof.
  unfold merge_blood_materials. rewrite in_map_iff. intros [q [<- Hq]].
  exists q. split; [exact Hq|]. destruct (PyStr.isin _ _); reflexivity.
Qed.

Section Returned.

Variable nfkd : string -> string.
Variable to_numeric : string -> float.
Variable equivalent_labels : list (list string).
Variable dosage_units : list (string * list string).
Variable possible_value_ranges : list (string * float * float).
Variable selected_variables : list string.
Variable material_to_include : list string.

Local Abbreviation run := (preprocess_labs nfkd to_numeric equivalent_labels dosage_units
                             possible_value_ranges selected_variables material_to_include).

(** The rows returned stem from the rows the material filter let through. *)
Lemma out_stems_from_materials {K} (keys : lab_row -> K) (lab_df : list input_row)
    (out : table) (log : audit) :
  (forall v r, keys (set_value v r) = keys r) ->
  (forall u r, keys (set_unit_of_measure u r) = keys r) ->
  run lab_df = Ok (out, log) ->
  exists df0 df1,
    process_labels nfkd equivalent_labels selected_variables lab_df
    = Ok (df0, included_dosage_labels log, dropped_dosage_labels log)
    /\ process_materials material_to_include df0 = Ok (df1, excluded_material log)
    /\ stems_from keys out df1.
Proof.
  intros Hv Hu H.
  destruct (run_stages _ _ _ _ _ _ _ _ _ _ H) as [df0 df1 df2 df3 E0 E1 E2 E3 E4 _].
  exists df0, df1. split; [exact E0|]. split; [exact E1|].
  replace out with (fst (restrict_to_possible_value_ranges possible_value_ranges
                           (fst (correct_negative_values df3)))) by now rewrite E4.
  eapply stems_from_trans; [now apply restrict_to_possible_value_ranges_stems|].
  eapply stems_from_trans; [now apply correct_negative_values_stems|].
  eapply stems_from_trans; [eapply process_values_stems; eauto|].
  eapply process_units_stems; eauto.
Qed.

(** X1. Label restriction: every row [preprocess_labs] returns has a
    dosage label of [selected_variables], and that label is among the
    included labels of the log; the labels logged as included are
    selected ones, the labels logged as dropped are not. *)
Theorem label_restriction (lab_df : list input_row) (out : table) (log : audit) :
  run lab_df = Ok (out, log) ->
  (forall r, In r out ->
             In (dosage_label r) selected_variables
             /\ In (dosage_label r) (included_dosage_labels log))
  /\ (forall l, In l (included_dosage_labels log) -> In l selected_variables)
  /\ (forall l, In l (dropped_dosage_labels log) -> ~ In l selected_variables).
Proof.
  intro H.
  destruct (out_stems_from_materials dosage_label lab_df out log
              (fun _ _ => eq_refl) (fun _ _ => eq_refl) H) as [df0 [df1 [E0 [E1 S]]]].
  unfold process_labels, bind in E0.
  destruct (replace_all_equivalents _ _ _ _) as [t|]; [|discriminate].
  set (clean := remove_french_accents_and_cedillas_from_dataframe nfkd t) in *.
  assert (D0 : df0 = filter (is_selected selected_variables) clean) by congruence.
  assert (Inc : included_dosage_labels log
                = PyStr.unique (map dosage_label
                                    (filter (is_selected selected_variables) clean)))
    by congruence.
  assert (Drp : dropped_dosage_labels log
                = PyStr.unique (map dosage_label
                     (filter (fun r => negb (is_selected selected_variables r)) clean)))
    by congruence.
  clear E0.
  assert (L0 : forall r, In r out -> exists q, In q df0 /\ dosage_label q = dosage_label r).
  { intros r Hr. destruct (S r Hr) as [p [Hp Ep]].
    destruct (process_materials_rows _ _ _ _ E1) as [S1 _].
    destruct (S1 p Hp) as [p' [Hp' <-]]. apply filter_In in Hp'. destruct Hp' as [Hp' _].
    destruct (merged_label _ _ Hp') as [q [Hq Eq]]. exists q. split; [exact Hq|]. congruence. }
  split; [|split].
  - intros r Hr. destruct (L0 r Hr) as [q [Hq <-]]. split.
    + rewrite D0 in Hq. apply filter_In in Hq. destruct Hq as [_ Hq]. now apply isin_In.
    + rewrite Inc, <- D0. apply In_unique. now apply in_map.
  - intros l Hl. rewrite Inc in Hl. apply (proj1 (In_unique _ _)) in Hl.
    apply in_map_iff in Hl. destruct Hl as [q [<- Hq]].
    apply filter_In in Hq. destruct Hq as [_ Hq]. now apply isin_In.
  - intros l Hl Hs. rewrite Drp in Hl. apply (proj1 (In_unique _ _)) in Hl.
    apply in_map_iff in Hl. destruct Hl as [q [<- Hq]].
    apply filter_In in Hq. destruct Hq as [_ Hq]. apply negb_true_iff in Hq.
    unfold is_selected in Hq. apply isin_In in Hs. congruence.
Qed.

(** X2. Numeric invariant: every row returned holds a number that is not
    NaN; no text and no missing value is returned. *)
Theorem returned_values_are_numbers (lab_df : list input_row) (out : table) (log : audit) :
  run lab_df = Ok (out, log) ->
  forall r, In r out ->
            exists x, value r = Num x /\ PrimFloat.is_nan x = false.
Proof.
  intros H r Hr.
  destruct (run_stages _ _ _ _ _ _ _ _ _ _ H) as [df0 df1 df2 df3 _ _ _ E3 E4 _].
  pose proof (restrict_to_possible_value_ranges_filter possible_value_ranges
                (fst (correct_negative_values df3))) as R.
  rewrite E4 in R. assert (Eo : out = filter (fun r => in_range possible_value_ranges r
                                                       && negb (isna (value r)))
                                         (fst (correct_negative_values df3))) by congruence.
  rewrite Eo in Hr. apply filter_In in Hr. destruct Hr as [Hr _].
  eapply correct_negative_values_numbers; [|exact Hr].
  eapply process_values_numbers; eauto.
Qed.

(** X3. Material restriction: every row returned has a material of
    [material_to_include] that is none of the blood materials merged
    into 'any_blood'; and no material logged as excluded is included. *)
Theorem material_restriction (lab_df : list input_row) (out : table) (log : audit) :
  run lab_df = Ok (out, log) ->
  (forall r, In r out ->
             In (material_label r) material_to_include
             /\ ~ In (material_label r) blood_material_equivalents)
  /\ (forall m, In m (excluded_material log) -> ~ In m material_to_include).
Proof.
  intro H.
  destruct (out_stems_from_materials material_label lab_df out log
              (fun _ _ => eq_refl) (fun _ _ => eq_refl) H) as [df0 [df1 [_ [E1 S]]]].
  destruct (process_materials_rows _ _ _ _ E1) as [S1 Ex]. split.
  - intros r Hr. destruct (S r Hr) as [p [Hp ->]].
    destruct (S1 p Hp) as [p' [Hp' <-]]. apply filter_In in Hp'. destruct Hp' as [Hm I].
    split; [now apply isin_In|]. eapply merged_material_not_blood; eauto.
  - intros m Hm I. rewrite Ex in Hm. apply filter_In in Hm. destruct Hm as [_ Hm].
    apply negb_true_iff in Hm. apply isin_In in I. congruence.
Qed.

End Returned.

(** A table with labels and materials that are filtered out, and a
    negative glucose value. *)
Definition mixed_rows : list input_row :=
  [ lab "1" "1234" "albumine" "sga" "g/l" "10";
    lab "1" "1234" "sodium" "sgv" "mmol/l" "140";
    lab "2" "9999" "albumine" "urine" "g/l" "30";
    lab "2" "9999" "glucose" "sgv" "mmol/l" "-5";
    lab "2" "9999" "glucose" "sgv" "mmol/l" "5.5" ].

Definition mixed_out : table :=
  [ long "1_1234" "albumine" "any_blood" "g/l" (Num 10);
    long "2_9999" "glucose" "any_blood" "mmol/l" (Num 5.5) ].

Definition mixed_log : audit :=
  mk_audit ["albumine"; "glucose"] ["sodium"] ["urine"] false 0
           [("albumine", 1%float); ("glucose", 1%float)].

Lemma mixed_run :
  run_plain [] ["albumine"; "glucose"] ["any_blood"] mixed_rows = Ok (mixed_out, mixed_log).
Proof. vm_compute. reflexivity. Qed.

Lemma label_restriction_witness :
  In "glucose" ["albumine"; "glucose"] /\ In "glucose" ["albumine"; "glucose"].
Proof.
  refine (proj1 (label_restriction _ _ _ _ _ _ _ _ _ _ mixed_run)
            (long "2_9999" "glucose" "any_blood" "mmol/l" (Num 5.5)) _).
  right. left. reflexivity.
Defined.

Lemma returned_values_are_numbers_witness :
  exists x, Num 5.5 = Num x /\ PrimFloat.is_nan x = false.
Proof.
  refine (returned_values_are_numbers _ _ _ _ _ _ _ _ _ _ mixed_run
            (long "2_9999" "glucose" "any_blood" "mmol/l" (Num 5.5)) _).
  right. left. reflexivity.
Defined.

Lemma material_restriction_witness :
  In "any_blood" ["any_blood"] /\ ~ In "any_blood" blood_material_equivalents.
Proof.
  refine (proj1 (material_restriction _ _ _ _ _ _ _ _ _ _ mixed_run)
            (long "1_1234" "albumine" "any_blood" "g/l" (Num 10)) _).
  left. reflexivity.
Defined.

(** ** Negative values *)

Section Negative.

Variable nfkd : string -> string.
Variable to_numeric : string -> float.
Variable equivalent_labels : list (list string).
Variable dosage_units : list (string * list string).
Variable possible_value_ranges : list (string * float * float).
Variable selected_variables : list string.
Variable material_to_include : list string.

Local Abbreviation run := (preprocess_labs nfkd to_numeric equivalent_labels dosage_units
                             possible_value_ranges selected_variables material_to_include).

(** X4. Negative values: no row returned for glucose or hemoglobin has
    a number below zero; and when a row returned has a number below
    zero under a label that does not contain 'cBase', the warning for
    negative values was given. *)
Theorem negative_values (lab_df : list input_row) (out : table) (log : audit) :
  run lab_df = Ok (out, log) ->
  forall r, In r out ->
    (dosage_label r = "glucose" \/ dosage_label r = "hemoglobine"
     \/ dosage_label r = "hémoglobine" ->
     PrimFloat.ltb (as_float (value r)) 0 = false)
    /\ (PrimFloat.ltb (as_float (value r)) 0 = true ->
        PyStr.contains "cBase" (dosage_label r) = false ->
        negative_values_warning log = true).
Proof.
  intros H r Hr.
  assert (W : exists df3,
             negative_values_warning log = snd (correct_negative_values df3)
             /\ In r (fst (correct_negative_values df3))).
  { revert H. unfold preprocess_labs, bind.
    destruct (process_labels _ _ _ lab_df) as [[[df0 inc] drp]|]; [|discriminate].
    destruct (process_materials _ df0) as [[df1 exc]|]; [|discriminate].
    destruct (process_units _ df1) as [df2|]; [|discriminate].
    destruct (process_values _ df2) as [df3|]; [|discriminate].
    destruct (correct_negative_values df3) as [df4 w] eqn:E4.
    pose proof (restrict_to_possible_value_ranges_filter possible_value_ranges df4) as R.
    destruct (restrict_to_possible_value_ranges _ df4) as [df5 n].
    intro H. exists df3. rewrite E4. cbn [fst snd].
    assert (Eo : df5 = out) by congruence.
    assert (El : log = mk_audit inc drp exc w n
                       (median_per_dosage_label (observations_per_case_admission_id df5)))
      by congruence.
    split; [now rewrite El|].
    rewrite <- Eo in Hr. assert (E5 : df5 = filter (fun r => in_range possible_value_ranges r
                                                              && negb (isna (value r))) df4)
      by congruence.
    rewrite E5 in Hr. apply filter_In in Hr. tauto. }
  destruct W as [df3 [Ew Hr4]]. split.
  - intro L. destruct (correct_negative_values_rows _ _ Hr4) as [_ [_ Ng]].
    apply Ng. destruct L as [L|[L|L]]; rewrite L; [right|left|left]; reflexivity.
  - intros Neg B. rewrite Ew. unfold correct_negative_values. cbn [snd].
    apply Nat.ltb_lt.
    match goal with |- 0 < List.length (filter ?p ?l) =>
      assert (I : In r (filter p l)) end.
    { apply filter_In. split; [exact Hr4|]. unfold is_negative. now rewrite Neg, B. }
    destruct (filter _ _); [destruct I|simpl; lia].
Qed.

End Negative.

Lemma negative_values_witness :
  (dosage_label (long "2_9999" "glucose" "any_blood" "mmol/l" (Num 5.5)) = "glucose"
   \/ dosage_label (long "2_9999" "glucose" "any_blood" "mmol/l" (Num 5.5)) = "hemoglobine"
   \/ dosage_label (long "2_9999" "glucose" "any_blood" "mmol/l" (Num 5.5)) = "hémoglobine" ->
   PrimFloat.ltb 5.5 0 = false)
  /\ (PrimFloat.ltb 5.5 0 = true ->
      PyStr.contains "cBase" "glucose" = false ->
      negative_values_warning mixed_log = true).
Proof.
  refine (negative_values _ _ _ _ _ _ _ _ _ _ mixed_run
            (long "2_9999" "glucose" "any_blood" "mmol/l" (Num 5.5)) _).
  right. left. reflexivity.
Defined.

(** ** Equivalent labels and the errors of a run *)

Lemma replace_all_equivalents_empty (get : lab_row -> string)
    (set : string -> lab_row -> lab_row) (groups : list (list string)) (df : table) :
  In [] groups -> replace_all_equivalents get set groups df = Raise IndexError.
Proof.
  revert df; induction groups as [|g gs IH]; intros df; simpl; [intros []|].
  destruct g as [|c others]; simpl; [reflexivity|].
  intros [H|H]; [discriminate|]. now apply IH.
Qed.

Lemma replace_all_equivalents_nonempty (get : lab_row -> string)
    (set : string -> lab_row -> lab_row) (groups : list (list string)) (df : table) :
  ~ In [] groups -> exists df', replace_all_equivalents get set groups df = Ok df'.
Proof.
  revert df; induction groups as [|g gs IH]; intros df H; simpl; [eauto|].
  destruct g as [|c others]; simpl.
  - exfalso. apply H. now left.
  - apply IH. intro I. apply H. now right.
Qed.

(** After the rewriting for the groups, no member of a group other than
    its first entry is left in the column, when no first entry of a
    group is itself a later member of a group. *)
Lemma replace_all_equivalents_canonical (get : lab_row -> string)
    (set : string -> lab_row -> lab_row) (groups : list (list string)) (df df' : table) :
  (forall x r, get (set x r) = x) ->
  (forall g g', In g groups -> In g' groups -> ~ In (hd EmptyString g) (tl g')) ->
  replace_all_equivalents get set groups df = Ok df' ->
  forall r g, In r df' -> In g groups -> ~ In (get r) (tl g).
Proof.
  intros Hgs. revert df.
  assert (Keep : forall gs (P : string -> Prop) df df',
             (forall g, In g gs -> P (hd EmptyString g)) ->
             replace_all_equivalents get set gs df = Ok df' ->
             (forall r, In r df -> P (get r)) -> forall r, In r df' -> P (get r)).
  { induction gs as [|g gs IH]; intros P df0 df1 Hc; simpl.
    - intros E. injection E as <-. auto.
    - destruct g as [|c others]; simpl; [discriminate|].
      intros E Hd. eapply IH; [intros g' Hg'; apply Hc; now right|exact E|].
      intros r Hr. apply in_map_iff in Hr. destruct Hr as [q [<- Hq]].
      destruct (PyStr.isin (get q) others); auto.
      rewrite Hgs. apply (Hc (c :: others)). now left. }
  induction groups as [|g gs IH]; intros df Hc; simpl; [intros _ ? ? _ []|].
  destruct g as [|c others]; simpl; [discriminate|].
  intros E r g' Hr [<-|Hg'].
  - cbn [tl].
    eapply (Keep gs (fun x => ~ In x others)); [|exact E| |exact Hr].
    + intros g' Hg'. apply (Hc g' (c :: others)); [now right|now left].
    + intros q Hq. apply in_map_iff in Hq. destruct Hq as [p [<- Hp]].
      destruct (PyStr.isin (get p) others) eqn:I.
      * rewrite Hgs. apply (Hc (c :: others) (c :: others)); now left.
      * intro J. apply isin_In in J. congruence.
  - eapply IH; [|exact E|exact Hr|exact Hg'].
    intros a b Ha Hb. apply Hc; now right.
Qed.

Section Errors.

Variable nfkd : string -> string.
Variable to_numeric : string -> float.
Variable equivalent_labels : list (list string).
Variable dosage_units : list (string * list string).
Variable possible_value_ranges : list (string * float * float).
Variable selected_variables : list string.
Variable material_to_include : list string.

Local Abbreviation run := (preprocess_labs nfkd to_numeric equivalent_labels dosage_units
                             possible_value_ranges selected_variables material_to_include).

(** X5. IndexError in [preprocess_labs], on a table of measurements
    that has the identification columns and the nine target columns
    (the table is not reshaped): the run raises IndexError exactly when
    a column of the table of equivalent labels has no entry.  The error
    then comes from the rewriting of the equivalent labels; when no
    column is empty, that stage returns. *)
Theorem errors_of_a_run (lab_df : list input_row) :
  (run lab_df = Raise IndexError <-> In [] equivalent_labels)
  /\ (In [] equivalent_labels ->
      process_labels nfkd equivalent_labels selected_variables lab_df = Raise IndexError)
  /\ (~ In [] equivalent_labels ->
      exists df included dropped,
        process_labels nfkd equivalent_labels selected_variables lab_df
        = Ok (df, included, dropped)).
Proof.
  assert (Cls : forall e, run lab_df = Raise e ->
            (e = IndexError /\ In [] equivalent_labels)
            \/ (exists label units, e = ValueError_units label units
                                    /\ 1 < List.length units)
            \/ (exists values, e = ValueError_non_numerical values /\ values <> [])).
  { intro e. unfold preprocess_labs, bind.
    destruct (process_labels _ _ _ lab_df) as [[[df0 inc] drp]|e0] eqn:E0.
    - destruct (process_materials_returns material_to_include df0) as [df1 [exc [E1 _]]].
      rewrite E1.
      destruct (process_units dosage_units df1) as [df2|e2] eqn:E2.
      + destruct (process_values to_numeric df2) as [df3|e3] eqn:E3.
        * destruct (correct_negative_values df3), (restrict_to_possible_value_ranges _ _).
          discriminate.
        * intro H. injection H as <-. right. right. unfold process_values in E3.
          destruct (Nat.ltb _ _) eqn:L; [|discriminate]. injection E3 as <-.
          eexists. split; [reflexivity|]. apply Nat.ltb_lt in L.
          intro N. rewrite N in L. simpl in L. lia.
      + intro H. injection H as <-. right. left. unfold process_units, bind in E2.
        destruct (reconcile_units_returns dosage_units df1) as [t Et]. rewrite Et in E2.
        destruct (check_units _ t) as [|e'] eqn:C; [discriminate|]. injection E2 as <-.
        clear - C. induction (PyStr.unique (map dosage_label t)) as [|l ls IH];
          simpl in C; [discriminate|].
        destruct (Nat.ltb _ _) eqn:L; [|auto].
        injection C as <-. apply Nat.ltb_lt in L. eauto.
    - intro H. injection H as <-. left. unfold process_labels, bind in E0.
      destruct (replace_all_equivalents _ _ _ _) eqn:R; [discriminate|].
      injection E0 as <-. split; [eapply replace_all_equivalents_raises; eauto|].
      destruct (in_dec (list_eq_dec string_dec) [] equivalent_labels) as [I|N]; [exact I|].
      destruct (replace_all_equivalents_nonempty dosage_label set_dosage_label
                  equivalent_labels (identified lab_df) N) as [t Et].
      rewrite Et in R. discriminate. }
  split; [|split].
  - split.
    + intro H. destruct (Cls _ H) as [[_ I]|[[l [u [E _]]]|[v [E _]]]];
        [exact I|discriminate|discriminate].
    + intro I. unfold preprocess_labs, process_labels, bind.
      now rewrite replace_all_equivalents_empty.
  - intro I. unfold process_labels, bind. now rewrite replace_all_equivalents_empty.
  - intro N. unfold process_labels, bind.
    destruct (replace_all_equivalents_nonempty dosage_label set_dosage_label
                equivalent_labels (identified lab_df) N) as [t ->].
    eauto.
Qed.

End Errors.

Lemma errors_of_a_run_witness :
  run_plain [] ["albumine"] ["any_blood"] albumine_rows <> Raise IndexError
  /\ preprocess_labs (fun s => s) Literal.to_numeric [["albumine"; "Albumine"]; []] [] []
       ["albumine"] ["any_blood"] albumine_rows = Raise IndexError.
Proof.
  split.
  - intro H.
    apply (proj1 (proj1 (errors_of_a_run (fun s => s) Literal.to_numeric [] [] []
                           ["albumine"] ["any_blood"] albumine_rows))) in H.
    destruct H.
  - apply (proj2 (proj1 (errors_of_a_run (fun s => s) Literal.to_numeric
                           [["albumine"; "Albumine"]; []] [] []
                           ["albumine"] ["any_blood"] albumine_rows))).
    right. left. reflexivity.
Defined.

Lemma replace_all_equivalents_length (get : lab_row -> string)
    (set : string -> lab_row -> lab_row) (groups : list (list string)) (df df' : table) :
  replace_all_equivalents get set groups df = Ok df' -> List.length df' = List.length df.
Proof.
  revert df; induction groups as [|g gs IH]; intro df; simpl.
  - intro H. now injection H as <-.
  - destruct g as [|c others]; simpl; [discriminate|].
    intro H. rewrite (IH _ H). apply length_map.
Qed.

Lemma replace_all_equivalents_fixed (get : lab_row -> string)
    (set : string -> lab_row -> lab_row) (groups : list (list string)) (df df' : table)
    (r : lab_row) :
  replace_all_equivalents get set groups df = Ok df' ->
  In r df -> (forall g, In g groups -> ~ In (get r) (tl g)) -> In r df'.
Proof.
  revert df; induction groups as [|g gs IH]; intro df; simpl.
  - intro H. now injection H as <-.
  - destruct g as [|c others]; simpl; [discriminate|].
    intros H Hr N. eapply IH; [exact H| |intros g Hg; apply N; now right].
    apply in_map_iff. exists r. split; [|exact Hr].
    destruct (PyStr.isin (get r) others) eqn:I; [|reflexivity].
    exfalso. apply (N (c :: others)); [now left|]. now apply isin_In.
Qed.

(** X6. Equivalent labels: when no first entry of a column of the table
    of equivalent labels is a later entry of a column, the rewriting
    leaves no later entry of any column as a dosage label; it keeps the
    number of rows, and a row whose label is no later entry of a column
    is kept as it is. *)
Theorem equivalent_labels_are_resolved (groups : list (list string)) (df df' : table) :
  (forall g g', In g groups -> In g' groups -> ~ In (hd EmptyString g) (tl g')) ->
  replace_all_equivalents dosage_label set_dosage_label groups df = Ok df' ->
  List.length df' = List.length df
  /\ (forall r g, In r df' -> In g groups -> ~ In (dosage_label r) (tl g))
  /\ (forall r, In r df -> (forall g, In g groups -> ~ In (dosage_label r) (tl g)) ->
                In r df').
Proof.
  intros D E. split; [eapply replace_all_equivalents_length; eauto|]. split.
  - exact (replace_all_equivalents_canonical dosage_label set_dosage_label groups df df'
             (fun _ _ => eq_refl) D E).
  - intros r Hr N. eapply replace_all_equivalents_fixed; eauto.
Qed.

Lemma equivalent_labels_are_resolved_witness :
  ~ In "hemoglobine" (tl ["hemoglobine"; "Hb"; "Hemoglobin"]).
Proof.
  refine (proj1 (proj2 (equivalent_labels_are_resolved
                          [["hemoglobine"; "Hb"; "Hemoglobin"]; ["glucose"; "Glc"]]
                          [ long "1_0001" "Hb" "sga" "g/l" (Str "120");
                            long "1_0001" "Glc" "sga" "mmol/l" (Str "5") ]
                          [ long "1_0001" "hemoglobine" "sga" "g/l" (Str "120");
                            long "1_0001" "glucose" "sga" "mmol/l" (Str "5") ] _ _))
            (long "1_0001" "hemoglobine" "sga" "g/l" (Str "120"))
            ["hemoglobine"; "Hb"; "Hemoglobin"] _ _).
  - intros g g' [<-|[<-|[]]] [<-|[<-|[]]]; simpl; intuition discriminate.
  - vm_compute. reflexivity.
  - left. reflexivity.
  - left. reflexivity.
Defined.

(** ** Units of the rows returned *)

Lemma retain_units_allowed (dosage_units : list (string * list string)) (df : table)
    (r : lab_row) :
  In r (fold_left retain_units dosage_units df) ->
  In r df
  /\ forall column, In column dosage_units -> fst column = dosage_label r ->
                    In (unit_of_measure r) (snd column).
Proof.
  revert df; induction dosage_units as [|c cs IH]; intros df; simpl.
  - intro H. split; [exact H|]. intros ? [].
  - intro H. destruct (IH _ H) as [Hr A]. unfold retain_units in Hr.
    apply filter_In in Hr. destruct Hr as [Hr K]. split; [exact Hr|].
    intros column [<-|Hc] E; [|now apply A].
    rewrite E, String.eqb_refl in K. cbn [andb] in K.
    rewrite negb_involutive in K. now apply isin_In.
Qed.

Section Units.

Variable nfkd : string -> string.
Variable to_numeric : string -> float.
Variable equivalent_labels : list (list string).
Variable dosage_units : list (string * list string).
Variable possible_value_ranges : list (string * float * float).
Variable selected_variables : list string.
Variable material_to_include : list string.

Local Abbreviation run := (preprocess_labs nfkd to_numeric equivalent_labels dosage_units
                             possible_value_ranges selected_variables material_to_include).

(** X7. Units of the rows returned: no row returned has the unit 'U/ml'
    (it is rewritten to 'UI/ml'), and a row whose label heads a column
    of the table of dosage units has a unit listed in that column. *)
Theorem returned_units_are_allowed (lab_df : list input_row) (out : table) (log : audit) :
  run lab_df = Ok (out, log) ->
  forall r, In r out ->
    unit_of_measure r <> "U/ml"
    /\ forall column, In column dosage_units -> fst column = dosage_label r ->
                      In (unit_of_measure r) (snd column).
Proof.
  intros H r Hr.
  destruct (out_stems_from_units _ _ _ _ _ _ _ label_unit _ _ _ (fun _ _ => eq_refl) H)
    as [df0 [df1 [df2 [inc [drp [exc [_ [_ [E2 S]]]]]]]]].
  destruct (S r Hr) as [q [Hq Eq]]. unfold label_unit in Eq. injection Eq as El Eu.
  unfold process_units, reconcile_units, unit_of_measure_equivalents in E2.
  cbn [replace_all_equivalents replace_equivalents bind] in E2.
  destruct (check_units _ _); [|discriminate]. cbn [bind] in E2.
  match type of E2 with Ok ?t = _ => assert (E : df2 = t) by congruence end.
  rewrite E in Hq. apply retain_units_allowed in Hq. destruct Hq as [Hq A].
  rewrite El, Eu. split; [|exact A].
  apply in_map_iff in Hq. destruct Hq as [p [<- _]].
  destruct (PyStr.isin (unit_of_measure p) ["U/ml"]) eqn:I.
  - cbn [unit_of_measure set_unit_of_measure]. discriminate.
  - intro U. rewrite U in I. vm_compute in I. discriminate.
Qed.

End Units.

Definition units_rows : list input_row :=
  [ lab "1" "1234" "anti-Xa" "sgv" "U/ml" "0.4";
    lab "1" "1234" "creatinine" "sgv" "umol/l" "80";
    lab "1" "1234" "creatinine" "sgv" "mg/dl" "0.9" ].

Lemma returned_units_are_allowed_witness :
  "UI/ml" <> "U/ml"
  /\ forall column, In column [("creatinine", ["umol/l"])] ->
                    fst column = "anti-Xa" -> In "UI/ml" (snd column).
Proof.
  refine (returned_units_are_allowed (fun s => s) Literal.to_numeric []
            [("creatinine", ["umol/l"])] [] ["anti-Xa"; "creatinine"] ["any_blood"]
            units_rows
            [ long "1_1234" "anti-Xa" "any_blood" "UI/ml" (Num 0.4);
              long "1_1234" "creatinine" "any_blood" "umol/l" (Num 80) ]
            (mk_audit ["anti-Xa"; "creatinine"] [] [] false 0
                      [("anti-Xa", 1%float); ("creatinine", 1%float)]) _
            (long "1_1234" "anti-Xa" "any_blood" "UI/ml" (Num 0.4)) _).
  - vm_compute. reflexivity.
  - left. reflexivity.
Defined.

(** ** Text normalisation (utils.py) *)

Fixpoint is_ascii (s : string) : bool :=
  match s with
  | EmptyString => true
  | String c t => Nat.ltb (nat_of_ascii c) 128 && is_ascii t
  end.

Definition is_ascii_cell (c : cell) : bool :=
  match c with
  | Str s => is_ascii s
  | Num _ => true
  end.

Lemma ascii_only_is_ascii (s : string) : is_ascii (PyStr.ascii_only s) = true.
Proof.
  induction s as [|c t IH]; simpl; auto.
  destruct (Nat.ltb (nat_of_ascii c) 128) eqn:E; simpl; auto. now rewrite E.
Qed.

Lemma ascii_only_fixed (s : string) : is_ascii s = true -> PyStr.ascii_only s = s.
Proof.
  induction s as [|c t IH]; simpl; auto.
  intro H. apply andb_true_iff in H. destruct H as [E H]. rewrite E. now rewrite IH.
Qed.

(** The decomposition of the accented letters of French, as NFKD gives
    it on their UTF-8 bytes: the base letter and a combining mark. *)
Definition decompose (b : ascii) : option (ascii * ascii * ascii) :=
  match nat_of_ascii b with
  | 160 => Some ("a", "204", "128")   (* a grave *)
  | 162 => Some ("a", "204", "130")   (* a circumflex *)
  | 167 => Some ("c", "204", "167")   (* c cedilla *)
  | 168 => Some ("e", "204", "128")   (* e grave *)
  | 169 => Some ("e", "204", "129")   (* e acute *)
  | 170 => Some ("e", "204", "130")   (* e circumflex *)
  | 171 => Some ("e", "204", "136")   (* e diaeresis *)
  | 174 => Some ("i", "204", "130")   (* i circumflex *)
  | 175 => Some ("i", "204", "136")   (* i diaeresis *)
  | 180 => Some ("o", "204", "130")   (* o circumflex *)
  | 185 => Some ("u", "204", "128")   (* u grave *)
  | 187 => Some ("u", "204", "130")   (* u circumflex *)
  | _ => None
  end%char.

Fixpoint nfkd_french (s : string) : string :=
  match s with
  | EmptyString => EmptyString
  | String c t =>
      match t with
      | String b t' =>
          if Nat.eqb (nat_of_ascii c) 195 then
            match decompose b with
            | Some (base, m1, m2) => String base (String m1 (String m2 (nfkd_french t')))
            | None => String c (nfkd_french t)
            end
          else String c (nfkd_french t)
      | EmptyString => String c EmptyString
      end
  end.

Lemma nfkd_french_ascii (s : string) : is_ascii s = true -> nfkd_french s = s.
Proof.
  induction s as [|c t IH]; simpl; auto.
  intro H. apply andb_true_iff in H. destruct H as [E H].
  destruct t as [|b t']; auto.
  destruct (Nat.eqb (nat_of_ascii c) 195) eqn:C.
  - apply Nat.eqb_eq in C. rewrite C in E. discriminate.
  - now rewrite (IH H).
Qed.

Section Accents.

Variable nfkd : string -> string.

(** NFKD leaves a text of ASCII characters as it is. *)
Hypothesis nfkd_ascii : forall s, is_ascii s = true -> nfkd s = s.

Lemma remove_accents_idempotent (s : string) :
  remove_accents nfkd (remove_accents nfkd s) = remove_accents nfkd s.
Proof.
  unfold remove_accents.
  rewrite (nfkd_ascii (PyStr.ascii_only (nfkd s))) by apply ascii_only_is_ascii.
  apply ascii_only_fixed, ascii_only_is_ascii.
Qed.

Lemma remove_accents_cell_idempotent (c : cell) :
  remove_accents_cell nfkd (remove_accents_cell nfkd c) = remove_accents_cell nfkd c.
Proof.
  destruct c as [s|x]; simpl; [|reflexivity]. now rewrite remove_accents_idempotent.
Qed.

(** X8. Text normalisation: after
    [remove_french_accents_and_cedillas_from_dataframe] every text of
    the table consists of ASCII characters, the table has as many rows
    as before, and applying the function again changes nothing. *)
Theorem accents_are_removed_once (df : table) :
  let clean := remove_french_accents_and_cedillas_from_dataframe nfkd df in
  remove_french_accents_and_cedillas_from_dataframe nfkd clean = clean
  /\ List.length clean = List.length df
  /\ forall r, In r clean ->
       is_ascii (case_admission_id r) = true /\ is_ascii (sample_date r) = true
       /\ is_ascii (analyse_label r) = true /\ is_ascii (dosage_label r) = true
       /\ is_ascii (material_label r) = true /\ is_ascii (unit_of_measure r) = true
       /\ is_ascii_cell (value r) = true /\ is_ascii_cell (lower_limit r) = true
       /\ is_ascii_cell (upper_limit r) = true.
Proof.
  cbv zeta. unfold remove_french_accents_and_cedillas_from_dataframe.
  split; [|split].
  - rewrite map_map. apply map_ext. intro r. cbn [case_admission_id sample_date
      analyse_label dosage_label material_label unit_of_measure value lower_limit
      upper_limit].
    now rewrite !remove_accents_idempotent, !remove_accents_cell_idempotent.
  - apply length_map.
  - intros r Hr. apply in_map_iff in Hr. destruct Hr as [q [<- _]].
    cbn [case_admission_id sample_date analyse_label dosage_label material_label
         unit_of_measure value lower_limit upper_limit].
    unfold remove_accents.
    repeat split; try apply ascii_only_is_ascii;
      match goal with |- is_ascii_cell (remove_accents_cell _ ?c) = true =>
        destruct c; simpl; auto; apply ascii_only_is_ascii end.
Qed.

End Accents.

Lemma accents_are_removed_once_witness :
  remove_french_accents_and_cedillas_from_dataframe nfkd_french
    [ long "1_0001" "hemoglobine" "sgv catheter" "g/l" (Str "Hemolyse") ]
  = [ long "1_0001" "hemoglobine" "sgv catheter" "g/l" (Str "Hemolyse") ].
Proof.
  refine (proj1 (accents_are_removed_once nfkd_french nfkd_french_ascii
                   [ long "1_0001" "hémoglobine" "sgv cathéter" "g/l" (Str "Hémolysé") ])).
Defined.

(** ** Case identifiers (utils.py) *)

Fixpoint has_char (c : ascii) (s : string) : bool :=
  match s with
  | EmptyString => false
  | String d t => Ascii.eqb c d || has_char c t
  end.

Lemma length_repeat_char (c : ascii) (n : nat) : String.length (PyStr.repeat_char c n) = n.
Proof. induction n; simpl; auto. Qed.

Lemma string_length_append (s t : string) :
  String.length (s ++ t) = String.length s + String.length t.
Proof. induction s; simpl; auto. Qed.

Lemma repeat_char_snoc (c : ascii) (n : nat) (s : string) :
  (PyStr.repeat_char c n ++ String c s = PyStr.repeat_char c (S n) ++ s)%string.
Proof. induction n; simpl; auto. now rewrite IHn. Qed.

Lemma zfill_long (width : nat) (s : string) :
  width <= String.length s -> PyStr.zfill width s = s.
Proof.
  intro H. unfold PyStr.zfill.
  replace (width - String.length s) with 0 by lia.
  destruct s as [|c t]; [reflexivity|]. cbn [PyStr.repeat_char String.append].
  destruct (Ascii.eqb c "+" || Ascii.eqb c "-"); reflexivity.
Qed.

(** A text made of the digits 0 to 9. *)
Definition is_digit (c : ascii) : bool :=
  Nat.leb 48 (nat_of_ascii c) && Nat.leb (nat_of_ascii c) 57.

Fixpoint all_digits (s : string) : bool :=
  match s with
  | EmptyString => true
  | String c t => is_digit c && all_digits t
  end.

Lemma digit_no_sign (c : ascii) :
  is_digit c = true -> Ascii.eqb c "+" || Ascii.eqb c "-" = false.
Proof.
  intro D. destruct (Ascii.eqb_spec c "+") as [->|_]; [discriminate D|].
  destruct (Ascii.eqb_spec c "-") as [->|_]; [discriminate D|]. reflexivity.
Qed.

(** On digits, [zfill] puts the zeros in front. *)
Lemma zfill_digits (width : nat) (s : string) :
  all_digits s = true ->
  PyStr.zfill width s = (PyStr.repeat_char "0" (width - String.length s) ++ s)%string.
Proof.
  unfold PyStr.zfill. destruct s as [|c t]; [reflexivity|]. cbn [all_digits].
  intro D. apply andb_true_iff in D. now rewrite (digit_no_sign c (proj1 D)).
Qed.

Lemma all_digits_append (s t : string) :
  all_digits (s ++ t) = all_digits s && all_digits t.
Proof.
  induction s as [|c s IH]; [reflexivity|]. cbn [String.append all_digits].
  now rewrite IH, andb_assoc.
Qed.

Lemma all_digits_zeros (n : nat) : all_digits (PyStr.repeat_char "0" n) = true.
Proof. induction n; [reflexivity|]. cbn [PyStr.repeat_char all_digits]. now rewrite IHn. Qed.

Lemma zfill_digits_length (width : nat) (s : string) :
  all_digits s = true ->
  String.length (PyStr.zfill width s) = Nat.max width (String.length s)
  /\ all_digits (PyStr.zfill width s) = true.
Proof.
  intro D. rewrite (zfill_digits width s D). split.
  - rewrite string_length_append, length_repeat_char. lia.
  - now rewrite all_digits_append, all_digits_zeros, D.
Qed.

Lemma zfill_leading_zero (width : nat) (s : string) :
  all_digits s = true ->
  String.length s < width ->
  PyStr.zfill width (String "0" s) = PyStr.zfill width s.
Proof.
  intros D H. rewrite (zfill_digits width s D), (zfill_digits width (String "0" s)) by exact D.
  cbn [String.length].
  replace (width - String.length s) with (S (width - S (String.length s))) by lia.
  now rewrite repeat_char_snoc.
Qed.

Lemma identifier_parts (p1 p2 z1 z2 : string) :
  has_char "_" p1 = false -> has_char "_" p2 = false ->
  (p1 ++ "_" ++ z1 = p2 ++ "_" ++ z2)%string -> p1 = p2 /\ z1 = z2.
Proof.
  revert p2; induction p1 as [|c p1 IH]; intros [|d p2]; cbn [has_char String.append];
    intros H1 H2 E.
  - injection E as <-. auto.
  - injection E as <- _. rewrite Ascii.eqb_refl in H2. discriminate.
  - injection E as -> _. rewrite Ascii.eqb_refl in H1. discriminate.
  - injection E as <- E. apply orb_false_iff in H1, H2.
    destruct (IH p2 (proj2 H1) (proj2 H2) E) as [-> ->]. auto.
Qed.

(** X9. Case identifiers: [create_ehr_case_identification_column] gives
    one identifier per row.  For a row whose [eds_end_4digit] is made of
    digits, the identifier is the patient identifier, an underscore and
    these digits with zeros in front up to four characters (the digits
    themselves when they are four or more).  For such rows and patient
    identifiers without underscore, two rows get the same identifier
    exactly when they have the same patient identifier and the same
    padded digits; digits that differ by a leading zero are padded
    alike. *)
Theorem case_identifiers (df : list input_row) :
  List.length (create_ehr_case_identification_column df) = List.length df
  /\ (forall i x,
        nth_error df i = Some x ->
        all_digits (eds_end_4digit x) = true ->
        exists suffix,
          nth_error (create_ehr_case_identification_column df) i
          = Some (patient_id x ++ "_" ++ suffix)%string
          /\ suffix = (PyStr.repeat_char "0" (4 - String.length (eds_end_4digit x))
                       ++ eds_end_4digit x)%string
          /\ String.length suffix = Nat.max 4 (String.length (eds_end_4digit x))
          /\ all_digits suffix = true
          /\ (4 <= String.length (eds_end_4digit x) -> suffix = eds_end_4digit x))
  /\ (forall i j x y,
        nth_error df i = Some x -> nth_error df j = Some y ->
        all_digits (eds_end_4digit x) = true -> all_digits (eds_end_4digit y) = true ->
        has_char "_" (patient_id x) = false -> has_char "_" (patient_id y) = false ->
        (nth_error (create_ehr_case_identification_column df) i
         = nth_error (create_ehr_case_identification_column df) j
         <-> patient_id x = patient_id y
             /\ (PyStr.repeat_char "0" (4 - String.length (eds_end_4digit x))
                 ++ eds_end_4digit x
                 = PyStr.repeat_char "0" (4 - String.length (eds_end_4digit y))
                   ++ eds_end_4digit y)%string))
  /\ (forall s, all_digits s = true -> String.length s < 4 ->
                PyStr.zfill 4 (String "0" s) = PyStr.zfill 4 s).
Proof.
  unfold create_ehr_case_identification_column.
  split; [apply length_map|]. split; [|split].
  - intros i x H D. exists (PyStr.zfill 4 (eds_end_4digit x)).
    rewrite nth_error_map, H. split; [reflexivity|].
    destruct (zfill_digits_length 4 _ D) as [L A].
    split; [now apply zfill_digits|]. split; [exact L|]. split; [exact A|].
    apply zfill_long.
  - intros i j x y Hx Hy Dx Dy Ux Uy. rewrite !nth_error_map, Hx, Hy. cbn [option_map].
    rewrite <- (zfill_digits 4 _ Dx), <- (zfill_digits 4 _ Dy). split.
    + intro E. injection E as E. now apply identifier_parts.
    + intros [-> ->]. reflexivity.
  - intros s D H. now apply zfill_leading_zero.
Qed.

Lemma case_identifiers_witness :
  nth_error (create_ehr_case_identification_column albumine_rows) 0
  = nth_error (create_ehr_case_identification_column albumine_rows) 1
  <-> "1" = "1" /\ "1234" = "1234".
Proof.
  refine (proj1 (proj2 (proj2 (case_identifiers albumine_rows))) 0 1
            (lab "1" "1234" "albumine" "sga" "g/l" "10")
            (lab "1" "1234" "albumine" "sga" "g/l" "20") _ _ _ _ _ _); reflexivity.
Defined.

(** ** Every row is counted once *)

Lemma count_of_key (k0 : string * string) (ks : list (string * string)) :
  NoDup ks -> In k0 ks ->
  list_sum (map (fun k => if key_eqb k0 k then 1 else 0) ks) = 1.
Proof.
  induction ks as [|k ks IH]; simpl; [intros _ []|].
  intros ND H. inversion ND as [|? ? Hk ND']; subst.
  destruct (key_eqb k0 k) eqn:E.
  - apply key_eqb_eq in E. subst k0.
    assert (Z : list_sum (map (fun k' => if key_eqb k k' then 1 else 0) ks) = 0).
    { clear - Hk. induction ks as [|a ks IH]; simpl; auto.
      destruct (key_eqb k a) eqn:E.
      - apply key_eqb_eq in E. subst. exfalso. apply Hk. now left.
      - apply IH. intro. apply Hk. now right. }
    rewrite Z. reflexivity.
  - destruct H as [->|H].
    + assert (T : key_eqb k0 k0 = true) by now apply key_eqb_eq. congruence.
    + rewrite (IH ND' H). reflexivity.
Qed.

Lemma list_sum_map_add {X : Type} (f g : X -> nat) (l : list X) :
  list_sum (map (fun x => f x + g x) l) = list_sum (map f l) + list_sum (map g l).
Proof. induction l as [|x t IH]; simpl; auto. rewrite IH. lia. Qed.

Lemma group_counts_total (ks : list (string * string)) (df : table) :
  NoDup ks ->
  (forall r, In r df -> In (case_admission_id r, dosage_label r) ks) ->
  list_sum (map (group_count df) ks)
  = List.length (filter (fun r => negb (isna (value r))) df).
Proof.
  intros ND. induction df as [|r df IH]; intro H.
  - unfold group_count. simpl. induction ks; simpl; auto. now apply IHks; inversion ND.
  - assert (E : forall k, group_count (r :: df) k
                          = (if negb (isna (value r))
                             then (if key_eqb (case_admission_id r, dosage_label r) k
                                   then 1 else 0)
                             else 0)
                            + group_count df k).
    { intro k. unfold group_count. cbn [filter].
      destruct (key_eqb _ k), (negb (isna (value r))); reflexivity. }
    rewrite (map_ext _ _ E), list_sum_map_add, IH by (intros q Hq; apply H; now right).
    cbn [filter]. destruct (negb (isna (value r))).
    + rewrite count_of_key; [reflexivity|exact ND|apply H; now left].
    + clear. induction ks; simpl; auto.
Qed.

Lemma observations_total (df : table) :
  list_sum (map snd (observations_per_case_admission_id df))
  = List.length (filter (fun r => negb (isna (value r))) df).
Proof.
  unfold observations_per_case_admission_id. rewrite map_map. cbn [snd].
  apply group_counts_total.
  - apply (Permutation_NoDup (Permutation_sym (sort_by_perm _ _))).
    apply (NoDup_unique_by key_eqb key_eqb_eq).
  - intros r Hr. apply (Permutation_in _ (Permutation_sym (sort_by_perm _ _))).
    apply (proj2 (In_unique_by key_eqb key_eqb_eq _ _)).
    now apply (in_map (fun r => (case_admission_id r, dosage_label r))).
Qed.

Lemma list_sum_filter_zero {X : Type} (f : X -> nat) (p : X -> bool) (l : list X) :
  (forall x, In x l -> p x = false -> f x = 0) ->
  list_sum (map f (filter p l)) = list_sum (map f l).
Proof.
  induction l as [|x t IH]; intro H; simpl; auto.
  destruct (p x) eqn:E; simpl; rewrite IH by (intros y Hy; apply H; now right); auto.
  rewrite (H x) by (auto; now left). reflexivity.
Qed.

Lemma filter_twice {X : Type} (p q : X -> bool) (l : list X) :
  filter p (filter q l) = filter (fun x => q x && p x) l.
Proof.
  induction l as [|x t IH]; simpl; auto.
  destruct (q x); simpl; [destruct (p x)|]; now rewrite IH.
Qed.

Lemma group_count_of_label (df : table) (l : string) (k : string * string) :
  group_count (filter (fun r => String.eqb (dosage_label r) l) df) k
  = if String.eqb (snd k) l then group_count df k else 0.
Proof.
  unfold group_count. rewrite filter_twice.
  destruct (String.eqb_spec (snd k) l) as [E|N].
  - f_equal. apply filter_ext. intro r.
    destruct (key_eqb (case_admission_id r, dosage_label r) k) eqn:K; cbn [andb].
    + apply key_eqb_eq in K. subst k. cbn [snd] in E. rewrite E, String.eqb_refl.
      reflexivity.
    + apply andb_false_r.
  - rewrite (filter_ext _ (fun _ => false)).
    + clear. induction df; simpl; auto.
    + intro r.
      destruct (key_eqb (case_admission_id r, dosage_label r) k) eqn:K; cbn [andb].
      * apply key_eqb_eq in K. subst k. cbn [snd] in N.
        apply String.eqb_neq in N. rewrite N. reflexivity.
      * apply andb_false_r.
Qed.

Section Counted.

Variable nfkd : string -> string.
Variable to_numeric : string -> float.
Variable equivalent_labels : list (list string).
Variable dosage_units : list (string * list string).
Variable possible_value_ranges : list (string * float * float).
Variable selected_variables : list string.
Variable material_to_include : list string.

Local Abbreviation run := (preprocess_labs nfkd to_numeric equivalent_labels dosage_units
                             possible_value_ranges selected_variables material_to_include).

Lemma returned_not_missing (lab_df : list input_row) (out : table) (log : audit) :
  run lab_df = Ok (out, log) -> forall r, In r out -> isna (value r) = false.
Proof.
  intros H r Hr.
  destruct (run_stages _ _ _ _ _ _ _ _ _ _ H) as [df0 df1 df2 df3 _ _ _ _ E4 _].
  pose proof (restrict_to_possible_value_ranges_filter possible_value_ranges
                (fst (correct_negative_values df3))) as R.
  rewrite E4 in R.
  assert (Eo : out = filter (fun r => in_range possible_value_ranges r
                                      && negb (isna (value r)))
                            (fst (correct_negative_values df3))) by congruence.
  rewrite Eo in Hr. apply filter_In in Hr. destruct Hr as [_ Hr].
  apply andb_true_iff in Hr. now apply negb_true_iff.
Qed.

(** X10. Every row returned is counted once: the observation counts of
    the groups (case, label) of the table returned add up to its number
    of rows, and the counts of the groups of one label add up to the
    number of its rows with that label. *)
Theorem every_row_is_counted_once (lab_df : list input_row) (out : table) (log : audit) :
  run lab_df = Ok (out, log) ->
  list_sum (map snd (observations_per_case_admission_id out)) = List.length out
  /\ forall l,
       list_sum (map snd (filter (fun c => String.eqb (snd (fst c)) l)
                                 (observations_per_case_admission_id out)))
       = List.length (filter (fun r => String.eqb (dosage_label r) l) out).
Proof.
  intro H. pose proof (returned_not_missing lab_df out log H) as N.
  assert (F : forall df : table, (forall r, In r df -> isna (value r) = false) ->
                filter (fun r => negb (isna (value r))) df = df).
  { intros df Hd. induction df as [|r df IH]; simpl; auto.
    rewrite (Hd r) by now left. simpl. rewrite IH; auto.
    intros q Hq. apply Hd. now right. }
  split; [rewrite observations_total; now rewrite F|].
  intro l. unfold observations_per_case_admission_id.
  set (ks := sort_by key_leb _).
  assert (ND : NoDup ks).
  { apply (Permutation_NoDup (Permutation_sym (sort_by_perm _ _))).
    apply (NoDup_unique_by key_eqb key_eqb_eq). }
  assert (In_ks : forall r, In r out -> In (case_admission_id r, dosage_label r) ks).
  { intros r Hr. apply (Permutation_in _ (Permutation_sym (sort_by_perm _ _))).
    apply (proj2 (In_unique_by key_eqb key_eqb_eq _ _)).
    now apply (in_map (fun r => (case_admission_id r, dosage_label r))). }
  set (outl := filter (fun r => String.eqb (dosage_label r) l) out).
  transitivity (list_sum (map (group_count outl) ks)).
  - clear In_ks ND. unfold list_sum. induction ks as [|k ks IH]; [reflexivity|].
    cbn [map filter fst snd].
    pose proof (group_count_of_label out l k) as G. fold outl in G.
    destruct (String.eqb (snd k) l) eqn:E; cbn [map fold_right snd]; rewrite G, IH;
      reflexivity.
  - rewrite group_counts_total; [|exact ND|].
    + apply f_equal. apply F. intros r Hr. apply N. unfold outl in Hr.
      apply filter_In in Hr. tauto.
    + intros r Hr. apply In_ks. unfold outl in Hr. apply filter_In in Hr. tauto.
Qed.

End Counted.

Lemma every_row_is_counted_once_witness :
  list_sum (map snd (observations_per_case_admission_id mixed_out)) = List.length mixed_out.
Proof.
  exact (proj1 (every_row_is_counted_once _ _ _ _ _ _ _ _ _ _ mixed_run)).
Defined.

(** ** The range table, row by row *)

Lemma SFcompare_same (f : SpecFloat.spec_float) :
  SpecFloat.SFcompare f f = Some Eq \/ f = SpecFloat.S754_nan.
Proof.
  destruct f as [s|s| |s m e]; simpl; auto.
  - left. now destruct s.
  - left. destruct s; rewrite Z.compare_refl, Pos.compare_cont_refl; reflexivity.
Qed.

Lemma float_leb_nan (x y : float) :
  PrimFloat.is_nan x = true \/ PrimFloat.is_nan y = true -> PrimFloat.leb x y = false.
Proof.
  unfold PrimFloat.is_nan. rewrite !negb_true_iff, !FloatAxioms.eqb_spec, FloatAxioms.leb_spec.
  unfold SpecFloat.SFeqb, SpecFloat.SFleb.
  intros [H|H].
  - destruct (SFcompare_same (Prim2SF x)) as [E|E]; [rewrite E in H; discriminate|].
    rewrite E. reflexivity.
  - destruct (SFcompare_same (Prim2SF y)) as [E|E]; [rewrite E in H; discriminate|].
    rewrite E. now destruct (Prim2SF x).
Qed.

Lemma restrict_by_range_of (t1 t2 : list (string * float * float)) (df : table) :
  (forall v, range_of t1 v = range_of t2 v) ->
  restrict_to_possible_value_ranges t1 df = restrict_to_possible_value_ranges t2 df.
Proof.
  intro H. rewrite !restrict_to_possible_value_ranges_filter.
  assert (E : filter (fun r => in_range t1 r && negb (isna (value r))) df
              = filter (fun r => in_range t2 r && negb (isna (value r))) df).
  { apply filter_ext. intro r. unfold in_range. now rewrite H. }
  now rewrite E.
Qed.

Lemma find_app {X : Type} (f : X -> bool) (l l' : list X) :
  find f (l ++ l') = match find f l with Some x => Some x | None => find f l' end.
Proof. induction l as [|x t IH]; simpl; auto. now destruct (f x). Qed.

(** X11. The range table is read by the first row of each variable: a
    further row for a variable that has one changes nothing; a variable
    whose first row has a missing Min or Max loses all its rows; a row
    of a variable without a row in the table, with a number, is kept. *)
Theorem range_table_first_row :
  (forall t v lo hi lo' hi' df,
      range_of t v = Some (lo, hi) ->
      restrict_to_possible_value_ranges (t ++ [(v, lo', hi')]) df
      = restrict_to_possible_value_ranges t df)
  /\ (forall t v lo hi df r,
        range_of t v = Some (lo, hi) ->
        PrimFloat.is_nan lo = true \/ PrimFloat.is_nan hi = true ->
        In r (fst (restrict_to_possible_value_ranges t df)) -> dosage_label r <> v)
  /\ (forall t df r,
        In r df -> range_of t (dosage_label r) = None -> isna (value r) = false ->
        In r (fst (restrict_to_possible_value_ranges t df))).
Proof.
  split; [|split].
  - intros t v lo hi lo' hi' df R. apply restrict_by_range_of. intro v'.
    unfold range_of at 1 2. rewrite find_app.
    destruct (find (fun row => String.eqb (fst (fst row)) v') t) as [[[a b] c]|] eqn:F;
      [reflexivity|].
    cbn [find fst]. destruct (String.eqb_spec v v') as [<-|N]; [|reflexivity].
    unfold range_of in R. rewrite F in R. discriminate.
  - intros t v lo hi df r R N Hr E.
    rewrite restrict_to_possible_value_ranges_filter in Hr. cbn [fst] in Hr.
    apply filter_In in Hr. destruct Hr as [_ Hr]. apply andb_true_iff in Hr.
    destruct Hr as [I _]. unfold in_range in I. rewrite E, R in I. unfold between in I.
    apply andb_true_iff in I. destruct I as [I1 I2]. destruct N as [N|N].
    + rewrite float_leb_nan in I1 by (left; exact N). discriminate.
    + rewrite float_leb_nan in I2 by (right; exact N). discriminate.
  - intros t df r Hr R N.
    rewrite restrict_to_possible_value_ranges_filter. cbn [fst].
    apply filter_In. split; [exact Hr|]. unfold in_range. now rewrite R, N.
Qed.

Lemma range_table_first_row_witness :
  restrict_to_possible_value_ranges [("albumine", 10, 25); ("albumine", 0, 100)]%float mixed_out
  = restrict_to_possible_value_ranges [("albumine", 10, 25)]%float mixed_out.
Proof.
  refine (proj1 range_table_first_row [("albumine", 10, 25)]%float "albumine"
            10%float 25%float 0%float 100%float mixed_out _).
  reflexivity.
Defined.

(** ** Failures and blocks of the wide-to-long reshape *)

Section ReshapeErrors.

Import Reshape.

(** The text before the first underscore. *)
Fixpoint until_underscore (s : string) : string :=
  match s with
  | EmptyString => EmptyString
  | String c t => if String.prefix "_" s then EmptyString else String c (until_underscore t)
  end.

Lemma string_append_nil (s : string) : (s ++ "")%string = s.
Proof. induction s; simpl; congruence. Qed.

Lemma string_append_assoc (a b c : string) : ((a ++ b) ++ c = a ++ (b ++ c))%string.
Proof. induction a; simpl; congruence. Qed.

Lemma split_aux_first (s cur : string) :
  exists rest, PyStr.split_aux "_" 0 cur s = (cur ++ until_underscore s)%string :: rest.
Proof.
  revert cur; induction s as [|c t IH]; intro cur.
  - exists []. simpl. now rewrite string_append_nil.
  - cbn [PyStr.split_aux until_underscore].
    destruct (String.prefix "_" (String c t)).
    + eexists. rewrite string_append_nil. reflexivity.
    + destruct (IH (cur ++ String c "")%string) as [rest E]. exists rest.
      rewrite E, string_append_assoc. reflexivity.
Qed.

Lemma lab_of_until_underscore (c : string) : lab_of c = until_underscore c.
Proof.
  unfold lab_of, PyStr.split. destruct (split_aux_first c "") as [rest E].
  rewrite E. reflexivity.
Qed.

Lemma until_underscore_prefix (s : string) : String.prefix (until_underscore s) s = true.
Proof.
  induction s as [|c t IH]; [reflexivity|].
  cbn [until_underscore]. destruct (String.prefix "_" (String c t)); [reflexivity|].
  cbn [String.prefix]. destruct (Ascii.ascii_dec c c); [exact IH|congruence].
Qed.

Lemma lab_of_startswith (c n : string) : lab_of c = n -> PyStr.startswith n c = true.
Proof.
  intros <-. unfold PyStr.startswith. rewrite lab_of_until_underscore.
  apply until_underscore_prefix.
Qed.

Lemma select_identified (lab_df : frame) (labcols : list string) :
  In "case_admission_id" (frame_columns lab_df) ->
  In "sample_date" (frame_columns lab_df) ->
  (forall c, In c labcols -> In c (frame_columns lab_df)) ->
  select (identification_columns ++ labcols) lab_df
  = Ok (mk_frame (identification_columns ++ labcols)
          (map (fun row => map (cell_at (frame_columns lab_df) row)
                               (identification_columns ++ labcols))
               (frame_rows lab_df))).
Proof.
  intros Hc Hs Hl. unfold select.
  destruct (find _ _) as [m|] eqn:F; [|reflexivity].
  apply find_some in F. destruct F as [Hm N]. apply negb_true_iff in N.
  assert (I : In m (frame_columns lab_df)).
  { apply in_app_or in Hm. destruct Hm as [[<-|[<-|[]]]|Hm]; auto. }
  apply isin_In in I. congruence.
Qed.

Lemma value_column_not_identification (name : string) :
  ~ In (name ++ "_value")%string identification_columns.
Proof.
  intros [E|[E|[]]]; symmetry in E.
  - do 18 (destruct name as [|? name]; [discriminate E|]). discriminate E.
  - do 12 (destruct name as [|? name]; [discriminate E|]). discriminate E.
Qed.

(** X12. Failures of the reshape, for a table not in the long shape and
    any order of visiting the analyte names: a table whose columns are
    all identification columns raises "No objects to concatenate"; and
    when the table has its two identification columns, an analyte name
    visited whose column [name_value] is not in the table makes the
    reshape raise, the body of the loop raising KeyError for that
    column. *)
Theorem reshape_failures (lab_df : frame) (names : list string) :
  forallb (fun c => PyStr.isin c (frame_columns lab_df)) target_structure_columns = false ->
  Permutation names (lab_names lab_df) ->
  ((forall c, In c (frame_columns lab_df) -> In c identification_columns) ->
   reorganised_lab_df names lab_df = Raise ValueError_no_objects_to_concatenate)
  /\ (In "case_admission_id" (frame_columns lab_df) ->
      In "sample_date" (frame_columns lab_df) ->
      forall name,
        In name names ->
        ~ In (name ++ "_value")%string (frame_columns lab_df) ->
        individual_lab_df lab_df name = Raise (KeyError (name ++ "_value")%string)
        /\ exists e, reorganised_lab_df names lab_df = Raise e).
Proof.
  intros Wide Perm. unfold reorganised_lab_df. rewrite Wide. split.
  - intro Id.
    assert (E : lab_names lab_df = []).
    { unfold lab_names.
      replace (filter _ (frame_columns lab_df)) with (@nil string); [reflexivity|].
      symmetry. revert Id. generalize (frame_columns lab_df).
      induction l as [|c t IH]; intro Id; [reflexivity|].
      cbn [filter]. assert (I : PyStr.isin c identification_columns = true)
        by (apply isin_In, Id; now left).
      rewrite I. apply IH. intros d Hd. apply Id. now right. }
    rewrite E in Perm. apply Permutation_sym, Permutation_nil in Perm. subst names.
    reflexivity.
  - intros Hc Hs name Hn Hv.
    assert (B : individual_lab_df lab_df name = Raise (KeyError (name ++ "_value")%string)).
    { unfold individual_lab_df.
      rewrite select_identified; auto;
        [|intros c Hcl; apply filter_In in Hcl; tauto].
      unfold bind, dropna_subset. cbn [frame_columns].
      destruct (position _ _) as [i|] eqn:P; [|reflexivity].
      exfalso.
      assert (I : In (name ++ "_value")%string
                     (identification_columns
                      ++ filter (fun c => String.eqb (lab_of c) name)
                                (frame_columns lab_df))).
      { clear - P. revert i P. induction (identification_columns ++ _) as [|d t IH];
          simpl; [discriminate|].
        intro i. destruct (String.eqb_spec (name ++ "_value") d) as [->|N]; [auto|].
        destruct (position _ t) as [j|]; [|discriminate]. intros _. right. eapply IH; eauto. }
      apply in_app_or in I. destruct I as [I|I].
      - exact (value_column_not_identification name I).
      - apply filter_In in I. tauto. }
    split; [exact B|].
    assert (S : exists e, split_by_lab_name lab_df names = Raise e).
    { clear - B Hn. induction names as [|n ns IH]; [destruct Hn|].
      cbn [split_by_lab_name]. unfold bind.
      destruct Hn as [->|Hn]; [rewrite B; eauto|].
      destruct (individual_lab_df lab_df n); [|eauto].
      destruct (IH Hn) as [e E]. rewrite E. eauto. }
    destruct S as [e E]. rewrite E. cbn [bind]. eauto.
Qed.

Lemma reshape_failures_witness :
  reorganised_lab_df [] (mk_frame ["sample_date"; "case_admission_id"]
                                  [[Str "01.01.2020 12:00"; Str "1_0001"]])
  = Raise ValueError_no_objects_to_concatenate
  /\ individual_lab_df glucose_sodium "sodium" <> Raise (KeyError "sodium_value")
  /\ individual_lab_df
       (mk_frame ["case_admission_id"; "sample_date"; "glucose_value"; "sodium_unit"] [])
       "sodium"
     = Raise (KeyError "sodium_value").
Proof.
  split; [|split].
  - refine (proj1 (reshape_failures
                     (mk_frame ["sample_date"; "case_admission_id"]
                               [[Str "01.01.2020 12:00"; Str "1_0001"]]) [] eq_refl _) _).
    + vm_compute. constructor.
    + simpl. tauto.
  - vm_compute. discriminate.
  - refine (proj1 (proj2 (reshape_failures
                     (mk_frame ["case_admission_id"; "sample_date"; "glucose_value";
                                "sodium_unit"] [])
                     ["sodium"; "glucose"] eq_refl _) _ _ "sodium" _ _)).
    + vm_compute. apply perm_swap.
    + simpl. tauto.
    + simpl. tauto.
    + simpl. tauto.
    + simpl. intuition discriminate.
Defined.

Lemma prefix_underscore_head (a : ascii) (x y : string) :
  String.prefix "_" (String a x) = String.prefix "_" (String a y).
Proof.
  cbn [String.prefix]. destruct (Ascii.ascii_dec "_" a); [|reflexivity].
  now destruct x, y.
Qed.

Lemma until_underscore_suffix (c t : string) :
  until_underscore (until_underscore c ++ String "_" t) = until_underscore c.
Proof.
  assert (U : until_underscore (String "_" t) = "").
  { cbn [until_underscore String.prefix].
    destruct (Ascii.ascii_dec "_" "_"); [now destruct t|congruence]. }
  induction c as [|a r IH]; [exact U|].
  cbn [until_underscore]. destruct (String.prefix "_" (String a r)) eqn:P; [exact U|].
  cbn [String.append until_underscore].
  rewrite (prefix_underscore_head a _ r), P, IH. reflexivity.
Qed.

Lemma lab_names_lab_of (lab_df : frame) (name : string) :
  In name (lab_names lab_df) -> exists c, name = lab_of c.
Proof.
  unfold lab_names. intro H. apply (proj1 (In_unique _ _)) in H. apply in_map_iff in H.
  destruct H as [c [E _]]. eauto.
Qed.

Lemma filter_all {X : Type} (p : X -> bool) (l : list X) :
  (forall x, In x l -> p x = true) -> filter p l = l.
Proof.
  induction l as [|x t IH]; intro H; [reflexivity|]. simpl.
  rewrite (H x (or_introl eq_refl)), IH; auto. intros y Hy. apply H. now right.
Qed.

(** X13. One analyte of the reshape, in a table that has its two
    identification columns and the column [name_value] for an analyte
    name of the table: when the name is the beginning of
    'case_admission_id' or of 'sample_date' (as for an analyte called
    'case' or 'sample'), the identification column is taken for a
    column of the analyte, the new column names are too many and the
    loop raises the length mismatch; for every other name the loop body
    returns its block. *)
Theorem analyte_named_like_identification_column (lab_df : frame) (name : string) :
  In "case_admission_id" (frame_columns lab_df) ->
  In "sample_date" (frame_columns lab_df) ->
  In name (lab_names lab_df) ->
  In (name ++ "_value")%string (frame_columns lab_df) ->
  if PyStr.startswith name "case_admission_id" || PyStr.startswith name "sample_date"
  then individual_lab_df lab_df name = Raise ValueError_length_mismatch
  else exists b, individual_lab_df lab_df name = Ok b.
Proof.
  intros Hc Hs Hn Hv.
  set (labcols := filter (fun c => String.eqb (lab_of c) name) (frame_columns lab_df)).
  assert (L : lab_of (name ++ "_value")%string = name).
  { destruct (lab_names_lab_of _ _ Hn) as [c ->].
    rewrite !lab_of_until_underscore. apply until_underscore_suffix. }
  assert (V : In (name ++ "_value")%string labcols).
  { apply filter_In. split; [exact Hv|]. rewrite L. apply String.eqb_refl. }
  assert (A : filter (PyStr.startswith name) labcols = labcols).
  { apply filter_all. intros c Hcl. apply filter_In in Hcl. destruct Hcl as [_ E].
    apply String.eqb_eq in E. now apply lab_of_startswith. }
  unfold individual_lab_df. fold labcols.
  rewrite select_identified; auto; [|intros c Hcl; apply filter_In in Hcl; tauto].
  cbn [bind]. unfold dropna_subset. cbn [frame_columns frame_rows].
  destruct (position_In (name ++ "_value")%string (identification_columns ++ labcols)
              (in_or_app _ _ _ (or_intror V))) as [i P].
  rewrite P. cbn [bind]. unfold set_columns. cbn [frame_columns frame_rows].
  rewrite filter_app, A. unfold identification_columns. cbn [filter].
  destruct (PyStr.startswith name "case_admission_id");
    destruct (PyStr.startswith name "sample_date"); cbn [orb app map];
    rewrite ?length_app, ?length_map; cbn [List.length];
    rewrite ?length_app, ?length_map; cbn [List.length].
  - replace (Nat.eqb _ _) with false; [reflexivity|]. symmetry. apply Nat.eqb_neq. lia.
  - replace (Nat.eqb _ _) with false; [reflexivity|]. symmetry. apply Nat.eqb_neq. lia.
  - replace (Nat.eqb _ _) with false; [reflexivity|]. symmetry. apply Nat.eqb_neq. lia.
  - rewrite Nat.eqb_refl. cbn [bind]. eauto.
Qed.

Lemma analyte_named_like_identification_column_witness :
  individual_lab_df
    (mk_frame ["case_admission_id"; "sample_date"; "case_value"; "glucose_value"]
       [[Str "1_0001"; Str "01.01.2020 12:00"; Str "3"; Str "5.5"]])
    "case"
  = Raise ValueError_length_mismatch
  /\ exists b, individual_lab_df
                 (mk_frame ["case_admission_id"; "sample_date"; "case_value"; "glucose_value"]
                    [[Str "1_0001"; Str "01.01.2020 12:00"; Str "3"; Str "5.5"]])
                 "glucose"
               = Ok b.
Proof.
  split.
  - refine (analyte_named_like_identification_column
              (mk_frame ["case_admission_id"; "sample_date"; "case_value"; "glucose_value"]
                 [[Str "1_0001"; Str "01.01.2020 12:00"; Str "3"; Str "5.5"]])
              "case" _ _ _ _).
    + simpl. tauto.
    + simpl. tauto.
    + vm_compute. tauto.
    + simpl. tauto.
  - refine (analyte_named_like_identification_column
              (mk_frame ["case_admission_id"; "sample_date"; "case_value"; "glucose_value"]
                 [[Str "1_0001"; Str "01.01.2020 12:00"; Str "3"; Str "5.5"]])
              "glucose" _ _ _ _).
    + simpl. tauto.
    + simpl. tauto.
    + vm_compute. tauto.
    + simpl. tauto.
Defined.

Lemma blocks_total (lab_df : frame) (cols : list string) (names : list string)
    (dfs : list frame) :
  Forall2 (fun n b => individual_lab_df lab_df n = Ok b) names dfs ->
  List.length
    (flat_map (fun df => map (fun row => map (cell_at (frame_columns df) row) cols)
                             (frame_rows df)) dfs)
  = list_sum (map (fun n => List.length (filter (has_value n lab_df) (frame_rows lab_df)))
                  names).
Proof.
  induction 1 as [|n b ns bs B F IH]; [reflexivity|].
  destruct (individual_lab_df_block _ _ _ B) as [_ [Len _]].
  cbn [flat_map map list_sum]. rewrite length_app, length_map, IH, Len. reflexivity.
Qed.

(** X14. The long table of a successful reshape, for any order of
    visiting the analyte names: for every analyte, as many rows tagged
    with its name as the wide table has rows with a value for it; the
    number of rows is the sum of these counts, so that a wide row with
    values for k analytes gives k long rows and a wide row with no value
    gives none; every row is tagged with the name of an analyte of the
    wide table; and every row has one cell per column. *)
Theorem long_table_rows (lab_df long : frame) (names : list string) :
  forallb (fun c => PyStr.isin c (frame_columns lab_df)) target_structure_columns = false ->
  Permutation names (lab_names lab_df) ->
  reorganised_lab_df names lab_df = Ok long ->
  (forall name, In name names ->
      List.length (filter (tagged name (frame_columns long)) (frame_rows long))
      = List.length (filter (has_value name lab_df) (frame_rows lab_df)))
  /\ List.length (frame_rows long)
     = list_sum (map (fun n => List.length (filter (has_value n lab_df) (frame_rows lab_df)))
                     names)
  /\ (forall row, In row (frame_rows long) ->
        exists name, In name (lab_names lab_df)
                     /\ cell_at (frame_columns long) row "lab_name" = Str name)
  /\ rectangular long.
Proof.
  intros Wide Perm. unfold reorganised_lab_df. rewrite Wide. unfold bind.
  destruct (split_by_lab_name lab_df names) as [dfs|] eqn:S; [|discriminate].
  intro C. assert (NE : dfs <> []) by (intros ->; discriminate C).
  apply concat_rows in C. destruct C as [Cols Rows].
  apply split_by_lab_name_blocks in S.
  assert (ND : NoDup names).
  { apply (Permutation_NoDup (Permutation_sym Perm)).
    apply (NoDup_unique_by String.eqb String.eqb_eq). }
  assert (Ln : In "lab_name" (frame_columns long)).
  { rewrite Cols. apply In_unique. apply in_flat_map.
    destruct S as [|n b ns bs B F]; [congruence|]. exists b. split; [now left|].
    now destruct (individual_lab_df_block _ _ _ B) as [_ [_ [I _]]]. }
  split; [|split; [|split]].
  - intros name Hn. rewrite Rows, (tagged_count lab_df _ name names dfs S Ln ND).
    assert (I : PyStr.isin name names = true) by now apply isin_In.
    now rewrite I.
  - rewrite Rows. now apply blocks_total.
  - intros row Hr. rewrite Rows in Hr. apply in_flat_map in Hr.
    destruct Hr as [b [Hb Hr]]. apply in_map_iff in Hr. destruct Hr as [r [<- Hr]].
    rewrite reindexed_cell by exact Ln.
    assert (N : exists n, In n names /\ individual_lab_df lab_df n = Ok b).
    { clear - S Hb. induction S as [|n b' ns bs B F IH]; [destruct Hb|].
      destruct Hb as [->|Hb]; [exists n; split; [now left|exact B]|].
      destruct (IH Hb) as [m [Hm Bm]]. exists m. split; [now right|exact Bm]. }
    destruct N as [n [Hn B]]. exists n. split.
    + exact (Permutation_in _ Perm Hn).
    + now destruct (individual_lab_df_block _ _ _ B) as [T _]; apply T.
  - intros row Hr. rewrite Rows in Hr. apply in_flat_map in Hr.
    destruct Hr as [b [_ Hr]]. apply in_map_iff in Hr. destruct Hr as [r [<- _]].
    apply length_map.
Qed.

Lemma long_table_rows_witness :
  List.length
    [ [Str "1_0001"; Str "02.01.2020 12:00"; Str "140"; Str "sodium"; NaN];
      [Str "1_0001"; Str "01.01.2020 12:00"; Str "5.5"; Str "glucose"; Str "mmol/l"] ]
  = list_sum (map (fun n => List.length (filter (has_value n glucose_sodium)
                                                (frame_rows glucose_sodium)))
                  ["sodium"; "glucose"]).
Proof.
  refine (proj1 (proj2 (long_table_rows glucose_sodium
                   (mk_frame
                      ["case_admission_id"; "sample_date"; "value"; "lab_name"; "unit"]
                      [ [Str "1_0001"; Str "02.01.2020 12:00"; Str "140"; Str "sodium"; NaN];
                        [Str "1_0001"; Str "01.01.2020 12:00"; Str "5.5"; Str "glucose";
                         Str "mmol/l"] ])
                   ["sodium"; "glucose"] _ _ _))).
  - vm_compute. reflexivity.
  - apply perm_swap.
  - vm_compute. reflexivity.
Defined.

End ReshapeErrors.

(** ** The three assignments of the alternate source, taken together *)

Lemma split_without_separator (sep s cur : string) :
  PyStr.contains sep s = false -> PyStr.split_aux sep 0 cur s = [(cur ++ s)%string].
Proof.
  revert cur; induction s as [|c t IH]; intros cur H.
  - cbn [PyStr.split_aux]. now rewrite string_append_nil.
  - cbn [PyStr.contains] in H. apply orb_false_iff in H. destruct H as [P C].
    cbn [PyStr.split_aux]. rewrite P, (IH _ C), string_append_assoc. reflexivity.
Qed.

Section MimicAssignments.

Import Mimic.

Variable py_float : string -> option float.

Local Abbreviation convert := (convert_non_numerical_values py_float).

(** X15. The three assignments on a table.  When the conversion
    returns, a row whose text contains '>' comes out estimated by the
    first assignment alone, from the piece that follows the first '>':
    text and number are both 1.05 times it, whatever number the row had
    and whatever else the text contains, and the row is kept.  A text
    with 'greater than ' not in capitals (and no '>') is selected by
    the second assignment, whose test ignores case, but is split at
    'GREATER THAN ' in capitals: the split gives one piece and taking
    the second raises IndexError, so the conversion of any table with
    such a row raises, and that of the row alone raises IndexError. *)
Theorem estimates_of_one_row (df : list mimic_row) (r : mimic_row) (s : string) :
  In r df -> value r = Str s ->
  (forall text x out n,
      PyStr.contains_nocase ">" s = true ->
      nth_error (PyStr.split ">" s) 1 = Some text ->
      py_float text = Some x ->
      convert df = Ok (out, n) ->
      estimated py_float r = set_estimate (x * 1.05) r
      /\ In (set_estimate (x * 1.05) r) out)
  /\ (PyStr.contains_nocase ">" s = false ->
      PyStr.contains_nocase "greater than " s = true ->
      PyStr.contains "GREATER THAN " s = false ->
      (exists e, convert df = Raise e)
      /\ convert [r] = Raise IndexError).
Proof.
  intros Hr V. split.
  - intros text x out n C S F H.
    assert (E : estimated py_float r = set_estimate (x * 1.05) r).
    { unfold estimated, estimate_all.
      assert (E : estimate py_float ">" ">" 1 r = Ok (set_estimate (x * 1.05) r)).
      { unfold estimate, value_contains, five_percent_above. rewrite V, C, S, F.
        reflexivity. }
      rewrite E. cbn [bind]. rewrite !estimate_no_marker; reflexivity. }
    split; [exact E|].
    apply convert_iff in H. destruct H as [_ [_ [_ [_ [-> _]]]]].
    apply filter_In. split.
    + rewrite <- E. apply in_map. exact Hr.
    + unfold no_numeric_estimate. cbn [set_estimate valuenum value isna].
      now destruct (PrimFloat.is_nan (x * 1.05)).
  - intros C1 C2 S.
    assert (T : is_text r = true) by (unfold is_text; now rewrite V).
    assert (E1 : estimated_by py_float ">" ">" 1 r = r).
    { apply estimated_by_no_marker. unfold value_contains. now rewrite V. }
    assert (E2 : estimate py_float "greater than " "GREATER THAN " 1 r = Raise IndexError).
    { unfold estimate, value_contains. rewrite V, C2. unfold PyStr.split.
      rewrite (split_without_separator _ _ _ S). reflexivity. }
    assert (G : forall t, In r t -> exists e, convert t = Raise e).
    { intros t Ht. unfold convert_non_numerical_values, assign_estimates.
      rewrite (str_accessor_text t r Ht T). cbn [bind].
      destruct (estimate_rows py_float ">" ">" 1 t) as [t1|e] eqn:R1; [|cbn [bind]; eauto].
      cbn [bind]. destruct (estimate_rows_inv _ _ _ _ _ _ R1) as [-> _].
      assert (I : In r (map (estimated_by py_float ">" ">" 1) t)).
      { rewrite <- E1. apply in_map. exact Ht. }
      rewrite (str_accessor_text _ r I T). cbn [bind].
      destruct (estimate_rows_raise py_float "greater than " "GREATER THAN " 1
                  (map (estimated_by py_float ">" ">" 1) t)) as [e ->];
        [exists r, IndexError; split; [exact I|exact E2]|].
      cbn [bind]. eauto. }
    split; [exact (G df Hr)|].
    unfold convert_non_numerical_values, assign_estimates.
    rewrite (str_accessor_text [r] r (or_introl eq_refl) T). cbn [bind estimate_rows].
    rewrite estimate_no_marker by (unfold value_contains; now rewrite V).
    cbn [bind]. rewrite (str_accessor_text [r] r (or_introl eq_refl) T).
    cbn [bind estimate_rows]. rewrite E2. reflexivity.
Qed.

End MimicAssignments.

Lemma estimates_of_one_row_witness :
  In (mimic (Num 525) 525) [ mimic (Num 525) 525; mimic (Str "12") 12 ]
  /\ Mimic.convert_non_numerical_values Literal.parse_decimal
       [ mimic (Str "Greater than 500") nan ] = Raise IndexError.
Proof.
  split.
  - refine (proj2 (proj1 (estimates_of_one_row Literal.parse_decimal
                            [ mimic (Str "GREATER THAN >500") 480; mimic (Str "12") 12 ]
                            (mimic (Str "GREATER THAN >500") 480) "GREATER THAN >500"
                            (or_introl eq_refl) eq_refl)
                         "500" 500%float [ mimic (Num 525) 525; mimic (Str "12") 12 ] 0
                         _ _ _ _)); vm_compute; reflexivity.
  - refine (proj2 (proj2 (estimates_of_one_row Literal.parse_decimal
                            [ mimic (Str "Greater than 500") nan ]
                            (mimic (Str "Greater than 500") nan) "Greater than 500"
                            (or_introl eq_refl) eq_refl)
                         _ _ _)); vm_compute; reflexivity.
Defined.

(** ** The stages of [mimic_preprocess_labs] around the conversion *)

Lemma Forall2_map_left {X Y Z : Type} (R : Y -> Z -> Prop) (h : X -> Y) (l : list X)
    (m : list Z) :
  Forall2 R (map h l) m -> Forall2 (fun x z => R (h x) z) l m.
Proof.
  revert m; induction l as [|x t IH]; intros m H; inversion H; subst; constructor; auto.
Qed.

Lemma Forall2_same_length {X Y : Type} (R : X -> Y -> Prop) (l : list X) (m : list Y) :
  Forall2 R l m -> List.length l = List.length m.
Proof. induction 1; simpl; congruence. Qed.

Lemma Forall2_In_right {X Y : Type} (R : X -> Y -> Prop) (xs : list X) (ys : list Y) (y : Y) :
  Forall2 R xs ys -> In y ys -> exists x, In x xs /\ R x y.
Proof.
  induction 1 as [|a b xs ys Hab F IH]; simpl; [intros []|].
  intros [<-|H]; [eauto|]. destruct (IH H) as [x [Hx Rx]]. eauto.
Qed.

Section MimicStagesFacts.

Import MimicStages.

(** A reference row that stops the alignment. *)
Definition lacks_equivalent (row : reference_row) : bool :=
  match MIMIC_equivalent_name row with
  | None => negb (String.eqb (DPI_name row) "calcium corrige")
  | Some _ => false
  end.

(** [r'] is [r] under another label (or the same). *)
Definition relabelled (refs : list reference_row) (r r' : lab) : Prop :=
  r' = set_label (label r') r
  /\ (label r' = label r \/ In (label r') (map DPI_name refs))
  /\ ((forall row, In row refs -> ~ In (label r) (equivalence_list row)) -> label r' = label r).

Lemma align_relabels (refs : list reference_row) (df : list lab) :
  match find lacks_equivalent refs with
  | Some row => align refs df = Raises (ValueError_no_MIMIC_equivalent (DPI_name row))
  | None => exists out, align refs df = Returns out /\ Forall2 (relabelled refs) df out
  end.
Proof.
  revert df; induction refs as [|row rest IH]; intro df.
  - cbn [find align]. exists df. split; [reflexivity|].
    induction df as [|r t IHt]; constructor; auto.
    split; [now destruct r|]. split; [now left|reflexivity].
  - cbn [find align]. unfold lacks_equivalent at 1.
    destruct (MIMIC_equivalent_name row) as [m|] eqn:M.
    + set (f := fun r => if PyStr.isin (label r) (equivalence_list row)
                         then set_label (DPI_name row) r else r).
      specialize (IH (map f df)).
      destruct (find lacks_equivalent rest) as [bad|]; [exact IH|].
      destruct IH as [out [E F]]. exists out. split; [exact E|].
      apply Forall2_map_left in F. revert F. apply Forall2_impl.
      intros r r' [S [L U]]. unfold f in *.
      destruct (PyStr.isin (label r) (equivalence_list row)) eqn:I.
      * split; [rewrite S; reflexivity|]. split.
        -- right. destruct L as [L|L]; [left; rewrite L; reflexivity|right; exact L].
        -- intro N. exfalso. apply (N row (or_introl eq_refl)). now apply isin_In.
      * split; [exact S|]. split.
        -- destruct L as [L|L]; [now left|right; now right].
        -- intro N. apply U. intros row' Hr. apply N. now right.
    + destruct (String.eqb (DPI_name row) "calcium corrige"); cbn [negb].
      * specialize (IH df). destruct (find lacks_equivalent rest) as [bad|]; [exact IH|].
        destruct IH as [out [E F]]. exists out. split; [exact E|].
        revert F. apply Forall2_impl. intros r r' [S [L U]].
        split; [exact S|]. split.
        -- destruct L as [L|L]; [now left|right; now right].
        -- intro N. apply U. intros row' Hr. apply N. now right.
      * reflexivity.
Qed.

(** X16. The alignment of labels and the restriction that follows.
    The first reference row without an equivalent name, other than the
    row of 'calcium corrige', stops the run with the error that names
    it.  When there is none the alignment returns a table with a row
    for each row of the input, in order, that differs from it at most
    by its label; the new label is the old one or a reference name,
    and a label that no reference row lists as an equivalent is never
    changed.  Every row of the aligned table that the restriction keeps
    carries a reference name. *)
Theorem labels_are_aligned (refs : list reference_row) (df : list lab) :
  match find lacks_equivalent refs with
  | Some row => align refs df = Raises (ValueError_no_MIMIC_equivalent (DPI_name row))
  | None =>
      exists out,
        align refs df = Returns out
        /\ List.length out = List.length df
        /\ Forall2 (relabelled refs) df out
        /\ forall r', In r' (restrict refs out) ->
                      In (label r') (map DPI_name refs)
                      /\ exists r, In r df /\ r' = set_label (label r') r
  end.
Proof.
  pose proof (align_relabels refs df) as A.
  destruct (find lacks_equivalent refs) as [row|]; [exact A|].
  destruct A as [out [E F]]. exists out. split; [exact E|].
  split; [symmetry; eapply Forall2_same_length; eauto|]. split; [exact F|].
  intros r' Hr. unfold restrict in Hr. apply filter_In in Hr. destruct Hr as [Hr I].
  split; [now apply isin_In|].
  destruct (Forall2_In_right _ _ _ _ F Hr) as [r [Hin [S _]]]. eauto.
Qed.

Definition reference (name : string) (mimic_name : option string) (units : option string)
    (needed factor : float) : reference_row :=
  mk_reference name mimic_name None units needed factor.

Definition observation (name : string) (x : float) (unit_ : cell) : lab :=
  mk_lab "20001" "2150-01-01 08:00:00" name (Num x) x unit_.

Lemma labels_are_aligned_witness :
  (exists out,
      align [reference "glucose" (Some "Glucose") (Some "mmol/l") 1 0.0555;
             reference "calcium corrige" None (Some "mmol/l") 0 1]
            [observation "Glucose" 90 (Str "mg/dL"); observation "Lactate" 1 (Str "mmol/L")]
      = Returns out
      /\ List.length out = 2)
  /\ align [reference "glucose" (Some "Glucose") (Some "mmol/l") 1 0.0555;
            reference "lactate" None (Some "mmol/l") 0 1]
           [observation "Glucose" 90 (Str "mg/dL")]
     = Raises (ValueError_no_MIMIC_equivalent "lactate").
Proof.
  split.
  - destruct (labels_are_aligned
                [reference "glucose" (Some "Glucose") (Some "mmol/l") 1 0.0555;
                 reference "calcium corrige" None (Some "mmol/l") 0 1]
                [observation "Glucose" 90 (Str "mg/dL");
                 observation "Lactate" 1 (Str "mmol/L")]) as [out [E [L _]]].
    exists out. split; [exact E|exact L].
  - exact (labels_are_aligned
             [reference "glucose" (Some "Glucose") (Some "mmol/l") 1 0.0555;
              reference "lactate" None (Some "mmol/l") 0 1]
             [observation "Glucose" 90 (Str "mg/dL")]).
Defined.

(** One row through one round of the conversion loop, and through the
    steps that follow the loop. *)
Definition convert_row (X : lab) (row : reference_row) : lab :=
  if String.eqb (label X) (DPI_name row)
  then set_valueuom (unit_cell (DPI_units row))
         (set_valuenum (valuenum X * multiplicative_factor row)%float X)
  else X.

Definition replaced (from to : string) (r : lab) : lab :=
  if cell_is (valueuom r) from then set_valueuom (Str to) r else r.

Definition finish (float_str : float -> string) (r : lab) : lab :=
  let r := if cell_is (valueuom r) "mg/dL"
           then set_valueuom (Str "mg/l") (set_valuenum (valuenum r * 10)%float r) else r in
  let r := set_value (Str (float_str (valuenum r))) r in
  let r := if PyStr.isin (label r) ["chlore"; "sodium"; "potassium"]
              && cell_is (valueuom r) "mEq/L"
           then set_valueuom (Str "mmol/l") r else r in
  replaced "mg/L" "mg/l"
    (replaced "pg/mL" "ng/l"
       (replaced "K/uL" "G/l"
          (replaced "m/uL" "T/l" (replaced "IU/L" "U/l" (replaced "mmol/L" "mmol/l" r))))).

Lemma fold_convert_units_of (rows : list reference_row) (df : list lab) :
  fold_left convert_units_of rows df = map (fun r => fold_left convert_row rows r) df.
Proof.
  revert df; induction rows as [|row rest IH]; intro df; cbn [fold_left].
  - now rewrite map_id.
  - rewrite IH. unfold convert_units_of. rewrite map_map. reflexivity.
Qed.

Lemma convert_units_rows (float_str : float -> string) (refs : list reference_row)
    (df : list lab) :
  convert_units float_str refs df
  = map (fun r => finish float_str (fold_left convert_row (conversions refs) r)) df.
Proof.
  unfold convert_units, replace_equivalent_units, replace_unit, mg_dL_to_mg_l.
  rewrite fold_convert_units_of, !map_map. reflexivity.
Qed.

Lemma fold_convert_row_label (rows : list reference_row) (r : lab) :
  label (fold_left convert_row rows r) = label r
  /\ hadm_id (fold_left convert_row rows r) = hadm_id r
  /\ charttime (fold_left convert_row rows r) = charttime r.
Proof.
  revert r; induction rows as [|row rest IH]; intro r; cbn [fold_left]; [auto|].
  destruct (IH (convert_row r row)) as [L [H C]]. rewrite L, H, C.
  unfold convert_row. destruct (String.eqb _ _); auto.
Qed.

Lemma fold_convert_row_other (rows : list reference_row) (r : lab) :
  (forall row, In row rows -> DPI_name row <> label r) ->
  fold_left convert_row rows r = r.
Proof.
  revert r; induction rows as [|row rest IH]; intros r N; cbn [fold_left]; [reflexivity|].
  assert (E : convert_row r row = r).
  { unfold convert_row. destruct (String.eqb_spec (label r) (DPI_name row)) as [E|]; auto.
    exfalso. apply (N row (or_introl eq_refl)). congruence. }
  rewrite E. apply IH. intros row' H. apply N. now right.
Qed.

(** The unit of a row after the steps that follow the loop;
    [electrolyte] tells whether its label is chlore, sodium or
    potassium. *)
Definition step (from to : string) (u : cell) : cell :=
  if cell_is u from then Str to else u.

Definition final_unit (electrolyte : bool) (u : cell) : cell :=
  let u := step "mg/dL" "mg/l" u in
  let u := if electrolyte && cell_is u "mEq/L" then Str "mmol/l" else u in
  step "mg/L" "mg/l"
    (step "pg/mL" "ng/l"
       (step "K/uL" "G/l" (step "m/uL" "T/l" (step "IU/L" "U/l" (step "mmol/L" "mmol/l" u))))).

Ltac lab_fields :=
  cbn [cell_is valueuom valuenum label value set_valueuom set_value set_valuenum
       hadm_id charttime andb String.eqb Ascii.eqb Bool.eqb].

Lemma finish_fields (float_str : float -> string) (r : lab) :
  finish float_str r
  = let x := (if cell_is (valueuom r) "mg/dL" then valuenum r * 10 else valuenum r)%float in
    mk_lab (hadm_id r) (charttime r) (label r) (Str (float_str x)) x
           (final_unit (PyStr.isin (label r) ["chlore"; "sodium"; "potassium"]) (valueuom r)).
Proof.
  destruct r as [h c l v x u]. unfold finish, replaced, final_unit, step. lab_fields.
  destruct (cell_is u "mg/dL"); lab_fields;
    destruct (PyStr.isin l ["chlore"; "sodium"; "potassium"]); lab_fields;
    repeat match goal with
           | |- context [cell_is u ?k] => destruct (cell_is u k); lab_fields
           end;
    reflexivity.
Qed.

Ltac unit_cases s :=
  repeat match goal with
         | |- context [String.eqb s ?k] =>
             destruct (String.eqb_spec s k);
             [subst s|]; cbn [cell_is andb String.eqb Ascii.eqb Bool.eqb]
         end.

Lemma final_unit_spellings (electrolyte : bool) (u : cell) :
  ~ In (final_unit electrolyte u)
       (map Str ["mg/dL"; "mmol/L"; "IU/L"; "m/uL"; "K/uL"; "pg/mL"; "mg/L"])
  /\ (final_unit electrolyte u = Str "mEq/L" -> electrolyte = false).
Proof.
  unfold final_unit, step. destruct u as [s|y]; cbn [cell_is].
  - destruct electrolyte; cbn [andb]; unit_cases s;
      (split;
       [cbn [In map]; intros H; repeat (destruct H as [H|H]; [congruence|]); exact H
       |intros H; try reflexivity; try discriminate H; congruence]).
  - rewrite andb_false_r. split; [|destruct electrolyte; [discriminate|reflexivity]].
    cbn [In map]. intros H. repeat (destruct H as [H|H]; [discriminate H|]). exact H.
Qed.

Lemma finish_row (float_str : float -> string) (r : lab) :
  label (finish float_str r) = label r
  /\ hadm_id (finish float_str r) = hadm_id r
  /\ charttime (finish float_str r) = charttime r
  /\ value (finish float_str r) = Str (float_str (valuenum (finish float_str r)))
  /\ valuenum (finish float_str r)
     = (if cell_is (valueuom r) "mg/dL" then valuenum r * 10 else valuenum r)%float
  /\ (cell_is (valueuom r) "mg/dL" = true -> valueuom (finish float_str r) = Str "mg/l").
Proof.
  rewrite finish_fields. cbn [label hadm_id charttime value valuenum valueuom].
  repeat split. intro E. unfold final_unit, step. rewrite E. lab_fields.
  rewrite andb_false_r. reflexivity.
Qed.

Lemma finish_units (float_str : float -> string) (r : lab) :
  ~ In (valueuom (finish float_str r))
       (map Str ["mg/dL"; "mmol/L"; "IU/L"; "m/uL"; "K/uL"; "pg/mL"; "mg/L"])
  /\ (valueuom (finish float_str r) = Str "mEq/L" ->
      ~ In (label r) ["chlore"; "sodium"; "potassium"]).
Proof.
  rewrite finish_fields. cbn [valueuom].
  destruct (final_unit_spellings (PyStr.isin (label r) ["chlore"; "sodium"; "potassium"])
              (valueuom r)) as [B M].
  split; [exact B|]. intros E J. apply isin_In in J. rewrite (M E) in J. discriminate.
Qed.

(** X17. The units after CONVERT UNITS, for a table with rows.  The
    table keeps its rows and their labels in order.  No returned row
    has one of the spellings 'mg/dL', 'mmol/L', 'IU/L', 'm/uL',
    'K/uL', 'pg/mL' or 'mg/L' as its unit; 'mEq/L' is left only on
    rows of labels other than chlore, sodium and potassium; and the
    text value of every row has been overwritten by the text of its
    number, so that it is never missing. *)
Theorem units_after_conversion (float_str : float -> string) (refs : list reference_row)
    (df : list lab) :
  df <> [] ->
  map label (convert_units float_str refs df) = map label df
  /\ forall r, In r (convert_units float_str refs df) ->
       ~ In (valueuom r) (map Str ["mg/dL"; "mmol/L"; "IU/L"; "m/uL"; "K/uL"; "pg/mL"; "mg/L"])
       /\ (valueuom r = Str "mEq/L" -> ~ In (label r) ["chlore"; "sodium"; "potassium"])
       /\ value r = Str (float_str (valuenum r))
       /\ isna (value r) = false.
Proof.
  intros _. rewrite convert_units_rows. split.
  - rewrite map_map. apply map_ext. intro r.
    destruct (finish_row float_str (fold_left convert_row (conversions refs) r)) as [L _].
    rewrite L. apply fold_convert_row_label.
  - intros r Hr. apply in_map_iff in Hr. destruct Hr as [q [<- _]].
    set (q' := fold_left convert_row (conversions refs) q).
    destruct (finish_units float_str q') as [B M].
    destruct (finish_row float_str q') as [L [_ [_ [V _]]]].
    split; [exact B|]. split; [rewrite L; exact M|]. split; [exact V|].
    rewrite V. reflexivity.
Qed.

Lemma units_after_conversion_witness :
  map label (convert_units (fun _ => "") [reference "glucose" (Some "Glucose") (Some "mmol/l") 1 0.0555]
               [observation "glucose" 90 (Str "mg/dL"); observation "sodium" 140 (Str "mEq/L")])
  = ["glucose"; "sodium"].
Proof.
  refine (proj1 (units_after_conversion (fun _ => "")
                   [reference "glucose" (Some "Glucose") (Some "mmol/l") 1 0.0555]
                   [observation "glucose" 90 (Str "mg/dL");
                    observation "sodium" 140 (Str "mEq/L")] _)).
  discriminate.
Defined.

(** X18. The numbers after CONVERT UNITS, row by row.  The row at a
    position of the table is returned at the same position, for the
    same admission, time and label.  When no conversion row of the
    reference table has its label, a row in 'mg/dL' comes out in
    'mg/l' with ten times its number, whatever its label, and any other
    row keeps its number.  When one conversion row has its label, the
    number is multiplied by the factor of that row, and by ten on top
    of it when the units of that row are themselves 'mg/dL'. *)
Theorem numbers_after_conversion (float_str : float -> string) (refs : list reference_row)
    (df : list lab) (i : nat) (r : lab) :
  nth_error df i = Some r ->
  exists r',
    nth_error (convert_units float_str refs df) i = Some r'
    /\ label r' = label r /\ hadm_id r' = hadm_id r /\ charttime r' = charttime r
    /\ (~ In (label r) (map DPI_name (conversions refs)) ->
        valuenum r'
        = (if cell_is (valueuom r) "mg/dL" then valuenum r * 10 else valuenum r)%float
        /\ (valueuom r = Str "mg/dL" -> valueuom r' = Str "mg/l"))
    /\ (forall pre row post,
           conversions refs = pre ++ row :: post ->
           DPI_name row = label r ->
           (forall row', In row' (pre ++ post) -> DPI_name row' <> label r) ->
           valuenum r'
           = (if cell_is (unit_cell (DPI_units row)) "mg/dL"
              then valuenum r * multiplicative_factor row * 10
              else valuenum r * multiplicative_factor row)%float).
Proof.
  intro N. rewrite convert_units_rows.
  exists (finish float_str (fold_left convert_row (conversions refs) r)).
  split.
  { exact (map_nth_error
             (fun r => finish float_str (fold_left convert_row (conversions refs) r)) _ _ N). }
  set (q := fold_left convert_row (conversions refs) r).
  destruct (finish_row float_str q) as [L [H [C [_ [X U]]]]].
  destruct (fold_convert_row_label (conversions refs) r) as [L' [H' C']]. fold q in L', H', C'.
  split; [congruence|]. split; [congruence|]. split; [congruence|]. split.
  - intro Other.
    assert (E : q = r).
    { apply fold_convert_row_other. intros row Hr E. apply Other.
      rewrite <- E. now apply in_map. }
    rewrite X, E. split; [reflexivity|]. intro V. rewrite <- E at 1. apply U.
    rewrite E, V. reflexivity.
  - intros pre row post Conv Name Others.
    assert (E : q = convert_row r row).
    { unfold q. rewrite Conv, fold_left_app. cbn [fold_left].
      rewrite (fold_convert_row_other pre r)
        by (intros row' Hr; apply Others, in_or_app; now left).
      apply fold_convert_row_other. intros row' Hr.
      replace (label (convert_row r row)) with (label r)
        by (unfold convert_row; destruct (String.eqb _ _); reflexivity).
      apply Others, in_or_app. now right. }
    rewrite X, E. unfold convert_row. rewrite <- Name, String.eqb_refl. reflexivity.
Qed.

Lemma numbers_after_conversion_witness :
  exists r',
    nth_error (convert_units (fun _ => "")
                 [reference "glucose" (Some "Glucose") (Some "mmol/l") 1 0.0555]
                 [observation "glucose" 90 (Str "mg/dL");
                  observation "creatinine" 1 (Str "mg/dL")]) 1
    = Some r'
    /\ label r' = "creatinine".
Proof.
  destruct (numbers_after_conversion (fun _ => "")
              [reference "glucose" (Some "Glucose") (Some "mmol/l") 1 0.0555]
              [observation "glucose" 90 (Str "mg/dL");
               observation "creatinine" 1 (Str "mg/dL")]
              1 (observation "creatinine" 1 (Str "mg/dL")) eq_refl) as [r' [E [L _]]].
  exists r'. split; [exact E|exact L].
Defined.

(** The unit of the first row of the table that carries a label. *)
Definition first_unit (name : string) (df : list lab) : option cell :=
  option_map valueuom (find (fun r => String.eqb (label r) name) df).

Lemma first_unique_unit (name : string) (df : list lab) :
  match unique_cells (map valueuom (filter (fun r => String.eqb (label r) name) df)) with
  | [] => first_unit name df = None
  | observed :: _ => first_unit name df = Some observed
  end.
Proof.
  unfold first_unit. induction df as [|r t IH]; [reflexivity|].
  cbn [filter find]. destruct (String.eqb (label r) name); [reflexivity|exact IH].
Qed.

Lemma cell_is_Str (c : cell) (s : string) : cell_is c s = true <-> c = Str s.
Proof.
  destruct c as [t|x]; cbn [cell_is].
  - rewrite String.eqb_eq. split; congruence.
  - split; discriminate.
Qed.

(** X19. The verification of units looks at one row per reference
    variable.  It passes exactly when, for every reference row that
    has units, the first row of the table carrying its name has these
    units; the units of the later rows of that name are not compared.
    A reference row with units whose name no row of the table carries
    raises IndexError rather than passing, and a first row with other
    units, or with none, raises the error that reports them. *)
Theorem units_are_verified_on_first_rows (refs : list reference_row) (df : list lab) :
  (verify_units refs df = Returns tt
   <-> forall row units, In row refs -> DPI_units row = Some units ->
                         first_unit (DPI_name row) df = Some (Str units))
  /\ (forall row rest units,
         DPI_units row = Some units ->
         first_unit (DPI_name row) df = None ->
         verify_units (row :: rest) df = Raises IndexError_index_0)
  /\ (forall row rest units observed,
         DPI_units row = Some units ->
         first_unit (DPI_name row) df = Some observed ->
         observed <> Str units ->
         verify_units (row :: rest) df
         = Raises (ValueError_units_do_not_correspond (DPI_name row) units observed)).
Proof.
  split; [|split].
  - induction refs as [|row rest IH]; cbn [verify_units].
    + split; [intros _ row units []|reflexivity].
    + pose proof (first_unique_unit (DPI_name row) df) as F.
      destruct (DPI_units row) as [units|] eqn:U.
      * destruct (unique_cells _) as [|observed more].
        -- split; [discriminate|]. intro H.
           specialize (H row units (or_introl eq_refl) U). congruence.
        -- destruct (cell_is observed units) eqn:C.
           ++ apply cell_is_Str in C. subst observed. rewrite IH. split.
              ** intros H row' units' [<-|Hr] U'; [congruence|eauto].
              ** intros H row' units' Hr. apply H. now right.
           ++ split; [discriminate|]. intro H.
              specialize (H row units (or_introl eq_refl) U).
              assert (E : observed = Str units) by congruence.
              apply cell_is_Str in E. congruence.
      * rewrite IH. split.
        -- intros H row' units' [<-|Hr] U'; [congruence|eauto].
        -- intros H row' units' Hr. apply H. now right.
  - intros row rest units U F. cbn [verify_units]. rewrite U.
    pose proof (first_unique_unit (DPI_name row) df) as G.
    destruct (unique_cells _); [reflexivity|congruence].
  - intros row rest units observed U F N. cbn [verify_units]. rewrite U.
    pose proof (first_unique_unit (DPI_name row) df) as G.
    destruct (unique_cells _) as [|o more]; [congruence|].
    assert (E : o = observed) by congruence. subst o.
    destruct (cell_is observed units) eqn:C; [|reflexivity].
    apply cell_is_Str in C. contradiction.
Qed.

Lemma units_are_verified_on_first_rows_witness :
  verify_units [reference "glucose" (Some "Glucose") (Some "mmol/l") 1 0.0555]
               [observation "glucose" 5 (Str "mmol/l"); observation "glucose" 90 (Str "mg/l")]
  = Returns tt
  /\ verify_units [reference "lactate" (Some "Lactate") (Some "mmol/l") 0 1]
                  [observation "glucose" 5 (Str "mmol/l")]
     = Raises IndexError_index_0.
Proof.
  split.
  - apply (proj2 (proj1 (units_are_verified_on_first_rows
                           [reference "glucose" (Some "Glucose") (Some "mmol/l") 1 0.0555]
                           [observation "glucose" 5 (Str "mmol/l");
                            observation "glucose" 90 (Str "mg/l")]))).
    intros row units [<-|[]] U. injection U as <-. reflexivity.
  - exact (proj1 (proj2 (units_are_verified_on_first_rows [] [observation "glucose" 5 (Str "mmol/l")]))
             (reference "lactate" (Some "Lactate") (Some "mmol/l") 0 1) [] "mmol/l"
             eq_refl eq_refl).
Defined.

Section PlausibleRange.

Variable possible_value_ranges : list (string * float * float).

(** A row is plausible when its label has no configured range, or its
    number lies between the bounds, bounds included. *)
Definition plausible (r : lab) : bool :=
  match range_of possible_value_ranges (label r) with
  | Some (lo, hi) => between (valuenum r) lo hi
  | None => true
  end.

Definition has_number (r : lab) : bool := negb (PrimFloat.is_nan (valuenum r)).

Definition flagged_by (variable : string) (r : lab) : bool :=
  match range_of possible_value_ranges variable with
  | Some (lo, hi) => String.eqb (label r) variable && negb (between (valuenum r) lo hi)
  | None => false
  end.

Lemma fold_flag_out_of_range (variables : list string) (df : list (lab * bool)) :
  fold_left (flag_out_of_range possible_value_ranges) variables df
  = map (fun rf => (fst rf, snd rf || existsb (fun v => flagged_by v (fst rf)) variables)) df.
Proof.
  revert df; induction variables as [|v vs IH]; intro df; cbn [fold_left existsb].
  - rewrite <- (map_id df) at 1. apply map_ext. intros [r f]. cbn [fst snd].
    now rewrite orb_false_r.
  - rewrite IH. unfold flag_out_of_range, flagged_by.
    destruct (range_of possible_value_ranges v) as [[lo hi]|].
    + rewrite map_map. apply map_ext. intros [r f]. cbn [fst snd].
      destruct (String.eqb (label r) v && negb (between (valuenum r) lo hi));
        cbn [fst snd orb]; [now rewrite orb_true_r|reflexivity].
    + apply map_ext. intros [r f]. reflexivity.
Qed.

Lemma some_variable_flags (r : lab) :
  existsb (fun v => flagged_by v r) (range_variables possible_value_ranges)
  = negb (plausible r).
Proof.
  apply eq_true_iff_eq. rewrite existsb_exists, negb_true_iff. unfold plausible. split.
  - intros [v [_ H]]. unfold flagged_by in H.
    destruct (range_of possible_value_ranges v) as [[lo hi]|] eqn:R; [|discriminate].
    apply andb_true_iff in H. destruct H as [E B].
    apply String.eqb_eq in E. rewrite E, R. now apply negb_true_iff.
  - destruct (range_of possible_value_ranges (label r)) as [[lo hi]|] eqn:R; [|discriminate].
    intro B. exists (label r). split; [eapply range_of_variable; eauto|].
    unfold flagged_by. rewrite R, String.eqb_refl, B. reflexivity.
Qed.

(** X20. The restriction to the plausible range.  The rows returned
    are the rows of the table, unchanged and in order, that have a
    number and are plausible: a returned row has a number, and a number
    within the bounds when its label has a range.  The count reported
    is the number of rows with a number outside the bounds; the rows
    without a number are dropped without being counted, so that the
    rows returned, the rows counted and the rows without a number make
    up the table. *)
Theorem plausible_range (df : list lab) :
  restrict_to_plausible_range possible_value_ranges df
  = (filter (fun r => plausible r && has_number r) df,
     List.length (filter (fun r => negb (plausible r) && has_number r) df))
  /\ List.length (fst (restrict_to_plausible_range possible_value_ranges df))
     + snd (restrict_to_plausible_range possible_value_ranges df)
     + List.length (filter (fun r => negb (has_number r)) df)
     = List.length df
  /\ forall r, In r (fst (restrict_to_plausible_range possible_value_ranges df)) ->
       In r df
       /\ PrimFloat.is_nan (valuenum r) = false
       /\ forall lo hi, range_of possible_value_ranges (label r) = Some (lo, hi) ->
                        between (valuenum r) lo hi = true.
Proof.
  assert (E : restrict_to_plausible_range possible_value_ranges df
              = (filter (fun r => plausible r && has_number r) df,
                 List.length (filter (fun r => negb (plausible r) && has_number r) df))).
  { unfold restrict_to_plausible_range. rewrite fold_flag_out_of_range, !map_map.
    cbn [fst snd orb]. f_equal.
    - induction df as [|r t IH]; [reflexivity|]. cbn [map filter].
      rewrite some_variable_flags, IH. unfold has_number.
      destruct (plausible r); cbn [negb andb valuenum set_valuenum]; reflexivity.
    - rewrite filter_map_length. f_equal. apply filter_ext. intro r. cbn [fst snd orb].
      now rewrite some_variable_flags. }
  rewrite E. cbn [fst snd]. split; [reflexivity|]. split.
  - clear E. induction df as [|r t IH]; [reflexivity|]. cbn [filter List.length].
    destruct (plausible r), (has_number r); cbn [negb andb List.length]; lia.
  - intros r Hr. apply filter_In in Hr. destruct Hr as [Hr P].
    apply andb_true_iff in P. destruct P as [P N]. split; [exact Hr|]. split.
    + unfold has_number in N. now apply negb_true_iff in N.
    + intros lo hi R. unfold plausible in P. now rewrite R in P.
Qed.

End PlausibleRange.

Lemma plausible_range_witness :
  restrict_to_plausible_range [("glucose", 0.1%float, 180%float)]
    [observation "glucose" 5 (Str "mmol/l"); observation "glucose" 500 (Str "mmol/l");
     observation "glucose" nan (Str "mmol/l"); observation "sodium" 140 (Str "mmol/l")]
  = ([observation "glucose" 5 (Str "mmol/l"); observation "sodium" 140 (Str "mmol/l")], 1).
Proof.
  exact (proj1 (plausible_range [("glucose", 0.1%float, 180%float)]
                  [observation "glucose" 5 (Str "mmol/l");
                   observation "glucose" 500 (Str "mmol/l");
                   observation "glucose" nan (Str "mmol/l");
                   observation "sodium" 140 (Str "mmol/l")])).
Defined.

End MimicStagesFacts.

(** ** The outcomes of the registry *)

Section OutcomesFacts.

Import Outcomes.

Lemma leb_1_2 (m : float) : PrimFloat.leb m 1 = true -> PrimFloat.leb m 2 = true.
Proof.
  rewrite !FloatAxioms.leb_spec. unfold SpecFloat.SFleb.
  replace (Prim2SF 1) with (SpecFloat.S754_finite false 4503599627370496 (-52))
    by (vm_compute; reflexivity).
  replace (Prim2SF 2) with (SpecFloat.S754_finite false 4503599627370496 (-51))
    by (vm_compute; reflexivity).
  destruct (Prim2SF m) as [s|s| |s mm e]; cbn [SpecFloat.SFcompare]; auto.
  destruct s; auto.
  destruct (Z.compare_spec e (-52)) as [E|E|E]; [| |discriminate].
  - subst e. intros _. reflexivity.
  - intros _. replace (e ?= -51)%Z with Lt; [reflexivity|].
    symmetry. apply Z.compare_lt_iff. lia.
Qed.

Lemma is_nan_binarised (bound m : float) :
  PrimFloat.is_nan (binarised bound m) = PrimFloat.is_nan m.
Proof.
  unfold binarised. destruct (PrimFloat.is_nan m) eqn:N; [reflexivity|].
  destruct (PrimFloat.leb m bound); reflexivity.
Qed.

Lemma value_counts_same {X : Type} (f g : X -> float) (l : list X) :
  (forall x, PrimFloat.is_nan (f x) = PrimFloat.is_nan (g x)) ->
  value_counts_sum (map f l) = value_counts_sum (map g l).
Proof.
  intro H. unfold value_counts_sum. rewrite !filter_map_length. f_equal.
  apply filter_ext. intro x. now rewrite H.
Qed.

(** The columns of a returned row, in terms of the row of the registry. *)
Definition binary (c : cell) : cell :=
  let c := if cell_is c "yes" then Num 1 else c in
  if cell_is c "no" then Num 0 else c.

Definition final_mRS (r : outcome_row) : float :=
  let m := (if cell_is (death_in_hospital r) "yes" then 6 else mRS_3M r)%float in
  (if cell_is (death_3M r) "yes" && PrimFloat.is_nan m then 6 else m)%float.

Definition final_death (r : outcome_row) : cell :=
  let d := if cell_is (death_in_hospital r) "yes" then Str "yes" else death_3M r in
  let d := if PrimFloat.eqb (final_mRS r) 6 then Str "yes" else d in
  let d := if negb (PrimFloat.eqb (final_mRS r) 6)
              && negb (PrimFloat.is_nan (final_mRS r)) && isna d
           then Str "no" else d in
  binary d.

Definition floor_0 (x : float) : float := if PrimFloat.ltb x 0 then 0%float else x.

Definition at_most_365 (x : float) : float := if PrimFloat.ltb 365 x then nan else x.

Lemma outcome_of_fields (r : outcome_row) :
  outcome_of r
  = mk_outcome (binary (death_in_hospital r)) (final_death r) (final_mRS r)
               (prestroke_disability r) (at_most_365 (duration_of_hospital_stay r))
               (floor_0 (final_mRS r - prestroke_disability r))
               (binarised 1 (final_mRS r)) (binarised 2 (final_mRS r)).
Proof. destruct r as [a b m p d x y z]. vm_compute. reflexivity. Qed.

(** X21. [preprocess_outcomes] returns for every table: neither of its
    two assertions can fail, because each binarised column is missing
    exactly where '3M mRS' is.  It returns one row per row of the
    registry; in every row the change of mRS is not negative and the
    duration of stay not above 365 (each may be missing), and a row
    counted as mRS 0-1 is counted as mRS 0-2. *)
Theorem outcomes_are_returned (df : list outcome_row) :
  preprocess_outcomes df = Returns (map outcome_of df)
  /\ forall o, In o (map outcome_of df) ->
       PrimFloat.ltb (delta_mRS o) 0 = false
       /\ PrimFloat.ltb 365 (duration_of_hospital_stay o) = false
       /\ PrimFloat.is_nan (mRS_0_1 o) = PrimFloat.is_nan (mRS_3M o)
       /\ PrimFloat.is_nan (mRS_0_2 o) = PrimFloat.is_nan (mRS_3M o)
       /\ (PrimFloat.eqb (mRS_0_1 o) 1 = true -> PrimFloat.eqb (mRS_0_2 o) 1 = true).
Proof.
  assert (B : forall r,
             PrimFloat.is_nan (mRS_0_1 (outcome_of r)) = PrimFloat.is_nan (mRS_3M (outcome_of r))
             /\ PrimFloat.is_nan (mRS_0_2 (outcome_of r))
                = PrimFloat.is_nan (mRS_3M (outcome_of r))).
  { intro r. rewrite outcome_of_fields. cbn [mRS_0_1 mRS_0_2 mRS_3M].
    split; apply is_nan_binarised. }
  split.
  - assert (E2 : value_counts_sum (map mRS_0_2 (map outcome_of df))
                 = value_counts_sum (map mRS_3M (map outcome_of df))).
    { rewrite !map_map.
      exact (value_counts_same (fun r => mRS_0_2 (outcome_of r))
                               (fun r => mRS_3M (outcome_of r)) df
                               (fun r => proj2 (B r))). }
    assert (E1 : value_counts_sum (map mRS_0_1 (map outcome_of df))
                 = value_counts_sum (map mRS_3M (map outcome_of df))).
    { rewrite !map_map.
      exact (value_counts_same (fun r => mRS_0_1 (outcome_of r))
                               (fun r => mRS_3M (outcome_of r)) df
                               (fun r => proj1 (B r))). }
    unfold preprocess_outcomes. rewrite E2, E1, Nat.eqb_refl. reflexivity.
  - intros o Ho. apply in_map_iff in Ho. destruct Ho as [r [<- _]].
    destruct (B r) as [B1 B2]. split; [|split; [|split; [exact B1|split; [exact B2|]]]].
    + rewrite outcome_of_fields. cbn [delta_mRS]. unfold floor_0.
      destruct (PrimFloat.ltb (final_mRS r - prestroke_disability r) 0) eqn:L;
        [reflexivity|exact L].
    + rewrite outcome_of_fields. cbn [duration_of_hospital_stay]. unfold at_most_365.
      destruct (PrimFloat.ltb 365 (duration_of_hospital_stay r)) eqn:L;
        [reflexivity|exact L].
    + rewrite outcome_of_fields. cbn [mRS_0_1 mRS_0_2]. unfold binarised.
      destruct (PrimFloat.is_nan (final_mRS r)); [discriminate|].
      destruct (PrimFloat.leb (final_mRS r) 1) eqn:L; [|discriminate].
      now rewrite (leb_1_2 _ L).
Qed.

(** X22. Death and mRS agree in what [preprocess_outcomes] returns.  A
    patient who died in hospital comes out with mRS 6, '3M Death' 1 and
    'Death in hospital' 1, whatever the registry held.  Any row with
    mRS 6 comes out with '3M Death' 1.  A patient recorded dead at
    three months has an mRS (6 when it was missing).  And whenever the
    mRS of a row is known, its '3M Death' is not missing. *)
Theorem death_and_mRS_agree (r : outcome_row) :
  (cell_is (death_in_hospital r) "yes" = true ->
   mRS_3M (outcome_of r) = 6%float
   /\ death_3M (outcome_of r) = Num 1
   /\ death_in_hospital (outcome_of r) = Num 1)
  /\ (PrimFloat.eqb (mRS_3M (outcome_of r)) 6 = true -> death_3M (outcome_of r) = Num 1)
  /\ (cell_is (death_3M r) "yes" = true -> PrimFloat.is_nan (mRS_3M (outcome_of r)) = false)
  /\ (PrimFloat.is_nan (mRS_3M (outcome_of r)) = false -> isna (death_3M (outcome_of r)) = false).
Proof.
  rewrite outcome_of_fields. cbn [mRS_3M death_3M death_in_hospital].
  split; [|split; [|split]].
  - intro Y.
    assert (M : final_mRS r = 6%float).
    { unfold final_mRS. rewrite Y. destruct (cell_is (death_3M r) "yes"); reflexivity. }
    split; [exact M|]. split.
    + unfold final_death. rewrite M. reflexivity.
    + unfold binary. rewrite Y. reflexivity.
  - intro E. unfold final_death. rewrite E. reflexivity.
  - intro Y. unfold final_mRS. rewrite Y. cbn [andb].
    destruct (cell_is (death_in_hospital r) "yes"); [reflexivity|].
    destruct (PrimFloat.is_nan (mRS_3M r)) eqn:N; [reflexivity|exact N].
  - intro N. unfold final_death. rewrite N.
    destruct (PrimFloat.eqb (final_mRS r) 6); cbn [negb andb]; [reflexivity|].
    set (d := if cell_is (death_in_hospital r) "yes" then Str "yes" else death_3M r).
    destruct (isna d) eqn:I; [reflexivity|].
    unfold binary. destruct d as [s|v]; cbn [cell_is].
    + destruct (String.eqb s "yes"); [reflexivity|].
      cbn [cell_is]. destruct (String.eqb s "no"); reflexivity.
    + exact I.
Qed.

Definition patient (died now : cell) (mRS prestroke stay : float) : outcome_row :=
  mk_outcome died now mRS prestroke stay nan nan nan.

Lemma outcomes_are_returned_witness :
  preprocess_outcomes [patient (Str "yes") NaN nan 2 12; patient (Str "no") NaN 1 3 400]
  = Returns [mk_outcome (Num 1) (Num 1) 6 2 12 4 0 0; mk_outcome (Num 0) (Num 0) 1 3 nan 0 1 1].
Proof.
  exact (proj1 (outcomes_are_returned
                  [patient (Str "yes") NaN nan 2 12; patient (Str "no") NaN 1 3 400])).
Defined.

Lemma death_and_mRS_agree_witness :
  mRS_3M (outcome_of (patient (Str "yes") (Str "no") 3 1 12)) = 6%float
  /\ death_3M (outcome_of (patient (Str "yes") (Str "no") 3 1 12)) = Num 1
  /\ death_in_hospital (outcome_of (patient (Str "yes") (Str "no") 3 1 12)) = Num 1.
Proof.
  exact (proj1 (death_and_mRS_agree (patient (Str "yes") (Str "no") 3 1 12)) eq_refl).
Defined.

End OutcomesFacts.

(** ** The case identifier of the registry *)

Section RegistryFacts.

Import Registry.

Lemma substring_skip (p s : string) (m : nat) :
  substring (String.length p) m (p ++ s) = substring 0 m s.
Proof. induction p as [|c p IH]; [reflexivity|exact IH]. Qed.

Lemma substring_take (a b : string) : substring 0 (String.length a) (a ++ b) = a.
Proof.
  induction a as [|c a IH]; cbn [String.length String.append substring].
  - now destruct b.
  - now rewrite IH.
Qed.

Lemma substring_all (s : string) : substring 0 (String.length s) s = s.
Proof. induction s as [|c s IH]; cbn [String.length substring]; congruence. Qed.

Lemma substring_nothing (s : string) (n : nat) : substring n 0 s = "".
Proof. revert n; induction s as [|c s IH]; intros [|n]; cbn [substring]; auto. Qed.

(** X23. The case identifier of the registry.  For a 'Case ID' made of
    eight characters, a patient identifier and four digits, in a table
    without the columns 'patient_id' and 'EDS_last_4_digits', the
    identifier is the patient identifier, an underscore and the four
    digits: the identifier that [create_ehr_case_identification_column]
    gives the records of that patient and stay, so that the two
    sources meet on it.  A 'Case ID' of twelve characters or fewer
    leaves the patient identifier empty, and the identifier begins with
    the underscore. *)
Theorem registry_case_identifiers :
  (forall prefix pid digits cols,
      String.length prefix = 8 -> String.length digits = 4 ->
      create_registry_case_identification_column
        [mk_registry (prefix ++ pid ++ digits) None None]
      = [(pid ++ "_" ++ digits)%string]
      /\ create_ehr_case_identification_column [mk_input pid digits cols]
         = create_registry_case_identification_column
             [mk_registry (prefix ++ pid ++ digits) None None])
  /\ (forall id digits,
         String.length id <= 12 ->
         create_registry_case_identification_column [mk_registry id None digits]
         = [("_" ++ PyStr.zfill 4 match digits with
                                  | Some d => d
                                  | None => slice_last 4 id
                                  end)%string]).
Proof.
  split.
  - intros prefix pid digits cols P D.
    assert (A : substring 0 4 digits = digits) by (rewrite <- D; apply substring_all).
    assert (E : create_registry_case_identification_column
                  [mk_registry (prefix ++ pid ++ digits) None None]
                = [(pid ++ "_" ++ digits)%string]).
    { unfold create_registry_case_identification_column.
      cbn [map Case_ID Registry.patient_id EDS_last_4_digits].
      unfold slice_to_back, slice_last.
      rewrite !string_length_append, P, D.
      replace (8 + (String.length pid + 4) - 4 - 8) with (String.length pid) by lia.
      replace (8 + (String.length pid + 4) - 4) with (String.length (prefix ++ pid))
        by (rewrite string_length_append; lia).
      replace 8 with (String.length prefix) by exact P.
      rewrite substring_skip, substring_take.
      rewrite <- (string_append_assoc prefix pid digits), substring_skip, A.
      rewrite zfill_long by lia. reflexivity. }
    split; [exact E|]. rewrite E. unfold create_ehr_case_identification_column.
    cbn [map patient_id eds_end_4digit]. rewrite zfill_long by lia. reflexivity.
  - intros id digits L. unfold create_registry_case_identification_column.
    cbn [map Case_ID Registry.patient_id EDS_last_4_digits].
    unfold slice_to_back.
    replace (String.length id - 4 - 8) with 0 by lia.
    rewrite substring_nothing. reflexivity.
Qed.

Lemma registry_case_identifiers_witness :
  create_registry_case_identification_column [mk_registry "SSR-HUG-1234567890" None None]
  = ["123456_7890"]
  /\ create_registry_case_identification_column [mk_registry "SSR-HUG-7890" None None]
     = ["_7890"].
Proof.
  split.
  - exact (proj1 (proj1 registry_case_identifiers "SSR-HUG-" "123456" "7890"
                    (mk_row "1" "01.01.2020 12:00" "glucose" "glucose" "sga" "mmol/l"
                            (Str "5.5") NaN NaN) eq_refl eq_refl)).
  - refine (proj2 registry_case_identifiers "SSR-HUG-7890" None _). simpl. lia.
Defined.

End RegistryFacts.

(** ** The corrected calcium of the alternate source *)

Lemma filter_filter_length {X : Type} (p g : X -> bool) (l : list X) :
  List.length (filter p (filter g l)) <= List.length (filter p l).
Proof.
  induction l as [|x t IH]; [apply Nat.le_refl|]. cbn [filter].
  destruct (g x); cbn [filter]; destruct (p x); cbn [List.length]; lia.
Qed.

Lemma filter_unique_by_length {X : Type} (p : X -> bool) (eqb : X -> X -> bool)
    (l : list X) :
  List.length (filter p (unique_by eqb l)) <= List.length (filter p l).
Proof.
  induction l as [|x t IH]; [apply Nat.le_refl|]. cbn [unique_by filter].
  pose proof (filter_filter_length p (fun y => negb (eqb x y)) (unique_by eqb t)) as G.
  destruct (p x); cbn [List.length]; lia.
Qed.

Section CalciumFacts.

Import MimicStages.

Variable same_row : lab -> lab -> bool.

(** A created row: the corrected calcium of a calcium row [ca] with an
    albumin row [alb] of the same time. *)
Definition corrected_from (df : list lab) (r : lab) : Prop :=
  label r = "calcium corrige"
  /\ valueuom r = Str "mmol/l"
  /\ value r = Num (valuenum r)
  /\ exists ca alb,
       In ca df /\ In alb df
       /\ label ca = "Calcium, Total" /\ label alb = "Albumin"
       /\ hadm_id r = hadm_id ca /\ charttime r = charttime ca
       /\ charttime alb = charttime ca
       /\ valuenum r = (valuenum ca * 0.2495 + 0.02 * (40 - valuenum alb * 10))%float.

Lemma calcium_components_sub (df : list lab) (r : lab) :
  In r (calcium_components same_row df) -> In r df.
Proof.
  unfold calcium_components. intro H. apply filter_In in H. destruct H as [H _].
  apply In_unique_by_sub in H. apply filter_In in H. tauto.
Qed.

Lemma corrected_calcium_rows_spec (components rows : list lab) :
  match corrected_calcium_rows components rows with
  | Returns created =>
      List.length created = List.length rows
      /\ forall r, In r created ->
           label r = "calcium corrige" /\ valueuom r = Str "mmol/l"
           /\ value r = Num (valuenum r)
           /\ exists ca alb,
                In ca rows /\ In alb components /\ label alb = "Albumin"
                /\ hadm_id r = hadm_id ca /\ charttime r = charttime ca
                /\ charttime alb = charttime ca
                /\ valuenum r
                   = (valuenum ca * 0.2495 + 0.02 * (40 - valuenum alb * 10))%float
  | Raises e =>
      e = IndexError_index_0
      /\ exists ca, In ca rows
                    /\ forall alb, In alb components -> label alb = "Albumin" ->
                                   charttime alb <> charttime ca
  end.
Proof.
  induction rows as [|row rest IH]; cbn [corrected_calcium_rows].
  - split; [reflexivity|intros r []].
  - unfold corrected_calcium_row.
    destruct (filter _ components) as [|alb more] eqn:F.
    + split; [reflexivity|]. exists row. split; [now left|].
      intros alb Ha La Ca.
      assert (I : In alb (filter (fun q => String.eqb (label q) "Albumin"
                                           && String.eqb (charttime q) (charttime row))
                                 components)).
      { apply filter_In. split; [exact Ha|].
        rewrite La, Ca, !String.eqb_refl. reflexivity. }
      rewrite F in I. destruct I.
    + assert (A : In alb components /\ label alb = "Albumin"
                  /\ charttime alb = charttime row).
      { assert (I : In alb (filter (fun q => String.eqb (label q) "Albumin"
                                            && String.eqb (charttime q) (charttime row))
                                   components)) by (rewrite F; now left).
        apply filter_In in I. destruct I as [I E]. apply andb_true_iff in E.
        destruct E as [E1 E2]. apply String.eqb_eq in E1, E2. auto. }
      destruct (corrected_calcium_rows components rest) as [created|e].
      * destruct IH as [L P]. split; [cbn [List.length]; now rewrite L|].
        intros r [<-|Hr].
        -- cbn [label valueuom value valuenum hadm_id charttime].
           repeat split. exists row, alb. destruct A as [A1 [A2 A3]].
           repeat split; auto. now left.
        -- destruct (P r Hr) as [P1 [P2 [P3 [ca [al [Hc Q]]]]]].
           repeat split; auto. exists ca, al. split; [now right|exact Q].
      * destruct IH as [E [ca [Hc N]]]. split; [exact E|].
        exists ca. split; [now right|exact N].
Qed.

(** X24. The corrected calcium.  When 'calcium corrige' is not
    selected, or when no row is labelled 'Calcium, Total' (as when the
    alignment has given these rows another name), the table is returned
    as it is.  When the stage returns, the table comes first, unchanged,
    followed by the created rows, at most one for each calcium row;
    each of them is labelled 'calcium corrige', in 'mmol/l', with its
    text value equal to its number, for the admission and time of a
    calcium row, and its number is 0.2495 times the calcium plus 0.02
    times (40 minus ten times an albumin) of a row with the same time.
    The stage raises no error but IndexError, and this when a retained
    calcium row has no retained albumin row at its time. *)
Theorem corrected_calcium (selected_variables : list string) (df : list lab) :
  (PyStr.isin "calcium corrige" selected_variables = false ->
   create_corrected_calcium same_row selected_variables df = Returns df)
  /\ ((forall r, In r df -> label r <> "Calcium, Total") ->
      create_corrected_calcium same_row selected_variables df = Returns df)
  /\ (forall out,
         create_corrected_calcium same_row selected_variables df = Returns out ->
         exists created,
           out = df ++ created
           /\ List.length created
              <= List.length (filter (fun r => String.eqb (label r) "Calcium, Total") df)
           /\ forall r, In r created -> corrected_from df r)
  /\ (forall e,
         create_corrected_calcium same_row selected_variables df = Raises e ->
         e = IndexError_index_0
         /\ exists ca,
              In ca df /\ label ca = "Calcium, Total"
              /\ forall alb, In alb (calcium_components same_row df) ->
                             label alb = "Albumin" -> charttime alb <> charttime ca).
Proof.
  unfold create_corrected_calcium.
  set (components := calcium_components same_row df).
  set (rows := filter (fun r => String.eqb (label r) "Calcium, Total") components).
  assert (R : forall r, In r rows -> In r df /\ label r = "Calcium, Total").
  { intros r Hr. apply filter_In in Hr. destruct Hr as [Hr E].
    apply String.eqb_eq in E. split; [|exact E]. now apply calcium_components_sub. }
  pose proof (corrected_calcium_rows_spec components rows) as S.
  split; [|split; [|split]].
  - intros ->. reflexivity.
  - intro N. destruct (PyStr.isin _ _); [|reflexivity].
    assert (E : rows = []).
    { destruct rows as [|r t]; [reflexivity|].
      destruct (R r (or_introl eq_refl)) as [Hr L]. destruct (N r Hr L). }
    rewrite E. cbn [corrected_calcium_rows]. now rewrite app_nil_r.
  - intros out. destruct (PyStr.isin _ _).
    + destruct (corrected_calcium_rows components rows) as [created|e]; [|discriminate].
      intro H. injection H as <-. exists created. destruct S as [L P].
      split; [reflexivity|]. split.
      * rewrite L. unfold rows, components, calcium_components.
        eapply Nat.le_trans; [apply filter_filter_length|].
        eapply Nat.le_trans; [apply filter_unique_by_length|].
        apply filter_filter_length.
      * intros r Hr. destruct (P r Hr) as [P1 [P2 [P3 [ca [alb [Hc [Ha [La [H1 [H2 [H3 H4]]]]]]]]]]].
        destruct (R ca Hc) as [Hd Lc].
        split; [exact P1|]. split; [exact P2|]. split; [exact P3|].
        exists ca, alb. repeat split; auto. now apply calcium_components_sub.
    + intro H. injection H as <-. exists []. rewrite app_nil_r.
      split; [reflexivity|]. split; [apply Nat.le_0_l|intros r []].
  - intros e. destruct (PyStr.isin _ _); [|discriminate].
    destruct (corrected_calcium_rows components rows) as [created|e']; [discriminate|].
    intro H. injection H as <-. destruct S as [E [ca [Hc N]]].
    split; [exact E|]. exists ca. destruct (R ca Hc) as [Hd L]. auto.
Qed.

End CalciumFacts.

Definition same_observation (a b : MimicStages.lab) : bool :=
  String.eqb (MimicStages.hadm_id a) (MimicStages.hadm_id b)
  && String.eqb (MimicStages.charttime a) (MimicStages.charttime b)
  && String.eqb (MimicStages.label a) (MimicStages.label b)
  && cell_eqb (MimicStages.value a) (MimicStages.value b)
  && cell_eqb (Num (MimicStages.valuenum a)) (Num (MimicStages.valuenum b))
  && cell_eqb (MimicStages.valueuom a) (MimicStages.valueuom b).

Lemma corrected_calcium_witness :
  MimicStages.create_corrected_calcium same_observation ["calcium corrige"]
    [observation "calcium" 9 (Str "mg/dL"); observation "Albumin" 4 (Str "g/dL")]
  = MimicStages.Returns
      [observation "calcium" 9 (Str "mg/dL"); observation "Albumin" 4 (Str "g/dL")]
  /\ exists created,
       [observation "Calcium, Total" 9 (Str "mg/dL"); observation "Albumin" 4 (Str "g/dL");
        MimicStages.mk_lab "20001" "2150-01-01 08:00:00" "calcium corrige"
          (Num (9 * 0.2495 + 0.02 * (40 - 4 * 10))) (9 * 0.2495 + 0.02 * (40 - 4 * 10))
          (Str "mmol/l")]
       = [observation "Calcium, Total" 9 (Str "mg/dL"); observation "Albumin" 4 (Str "g/dL")]
         ++ created
       /\ List.length created <= 1.
Proof.
  split.
  - refine (proj1 (proj2 (corrected_calcium same_observation ["calcium corrige"]
                            [observation "calcium" 9 (Str "mg/dL");
                             observation "Albumin" 4 (Str "g/dL")])) _).
    intros r [<-|[<-|[]]]; discriminate.
  - destruct (proj1 (proj2 (proj2 (corrected_calcium same_observation ["calcium corrige"]
                            [observation "Calcium, Total" 9 (Str "mg/dL");
                             observation "Albumin" 4 (Str "g/dL")])))
                _ ltac:(vm_compute; reflexivity)) as [created [E [L _]]].
    exists created. split; [exact E|exact L].
Defined.

(** ** The selection of patients *)

Lemma NoDup_map_filter {X Y : Type} (f : X -> Y) (p : X -> bool) (l : list X) :
  NoDup (map f l) -> NoDup (map f (filter p l)).
Proof.
  induction l as [|x t IH]; cbn [map filter]; intro H; [constructor|].
  inversion H as [|? ? N ND]; subst. destruct (p x); [|auto].
  cbn [map]. constructor; [|auto].
  intro I. apply N. apply in_map_iff in I. destruct I as [y [E Hy]].
  apply filter_In in Hy. rewrite <- E. apply in_map. tauto.
Qed.

Lemma unique_NoDup (l : list string) : NoDup l -> PyStr.unique l = l.
Proof.
  induction l as [|x t IH]; intro H; [reflexivity|].
  inversion H as [|? ? N ND]; subst. unfold PyStr.unique in *. cbn [unique_by].
  rewrite (IH ND). f_equal. apply filter_all. intros y Hy.
  apply negb_true_iff. apply String.eqb_neq. intros ->. contradiction.
Qed.

Lemma NoDup_unique (l : list string) : NoDup (PyStr.unique l).
Proof. apply (NoDup_unique_by String.eqb String.eqb_eq). Qed.

Section SelectionFacts.

Import Selection.

Variable py_float : string -> option float.

Local Abbreviation rows := (list (string * registry_row)).

Lemma drop_duplicates_NoDup (df : rows) : NoDup (map case_admission_id (drop_duplicates df)).
Proof.
  unfold drop_duplicates. induction df as [|x t IH]; cbn [unique_by map]; constructor.
  - intro I. apply in_map_iff in I. destruct I as [y [E Hy]].
    apply filter_In in Hy. destruct Hy as [_ Hy]. rewrite <- E, String.eqb_refl in Hy.
    discriminate.
  - now apply NoDup_map_filter.
Qed.

Lemma without_In (cids : list string) (df : rows) (r : string * registry_row) :
  In r (without cids df) -> In r df /\ ~ In (case_admission_id r) cids.
Proof.
  unfold without. intro H. apply filter_In in H. destruct H as [H N].
  split; [exact H|]. intro I. apply isin_In in I. rewrite I in N. discriminate.
Qed.

(** Removing the rows of a list of distinct identifiers, all of them
    identifiers of the table, removes as many rows as the list is long. *)
Lemma exclusion_count (cids : list string) (df : rows) :
  NoDup (map case_admission_id df) ->
  NoDup cids ->
  (forall c, In c cids -> In c (map case_admission_id df)) ->
  List.length (without cids df) + List.length cids = List.length df.
Proof.
  intros ND NC Sub. unfold without.
  rewrite (filter_complement_length (fun r => PyStr.isin (case_admission_id r) cids)).
  assert (P : Permutation
                (map case_admission_id
                     (filter (fun r => PyStr.isin (case_admission_id r) cids) df))
                cids).
  { apply NoDup_Permutation; [now apply NoDup_map_filter|exact NC|].
    intro c. rewrite in_map_iff. split.
    - intros [r [<- Hr]]. apply filter_In in Hr. now apply isin_In.
    - intro Hc. destruct (proj1 (in_map_iff _ _ _) (Sub c Hc)) as [r [E Hr]].
      exists r. split; [exact E|]. apply filter_In. split; [exact Hr|].
      apply isin_In. now rewrite E. }
  apply Permutation_length in P. rewrite length_map in P.
  pose proof (filter_length_le (fun r => PyStr.isin (case_admission_id r) cids) df). lia.
Qed.

Lemma consent_identifiers (df : rows) (eds_df : list (string * eds_row))
    (c : string * cell * cell) :
  In c (consent_df df eds_df) -> In (fst (fst c)) (map case_admission_id df).
Proof.
  unfold consent_df. intro H. apply in_flat_map in H. destruct H as [r [Hr Hc]].
  assert (E : fst (fst c) = case_admission_id r).
  { destruct (filter _ eds_df) as [|e more].
    - destruct Hc as [<-|[]]. reflexivity.
    - apply in_map_iff in Hc. destruct Hc as [e' [<- _]]. reflexivity. }
  rewrite E. now apply in_map.
Qed.

Definition age_of (r : string * registry_row) : option float :=
  match Age_calc (snd r) with
  | Str s => py_float s
  | Num x => Some x
  end.

Lemma ages_rows (df : rows) (age : list float) :
  ages py_float df = Returns age -> Forall2 (fun r x => age_of r = Some x) df age.
Proof.
  revert age; induction df as [|r t IH]; intro age; cbn [ages].
  - intro H. injection H as <-. constructor.
  - destruct (Age_calc (snd r)) as [s|x] eqn:E.
    + destruct (py_float s) as [x|] eqn:P; [|discriminate].
      destruct (ages py_float t) as [xs|]; [|discriminate].
      intro H. injection H as <-.
      constructor; [unfold age_of; now rewrite E|now apply IH].
    + destruct (ages py_float t) as [xs|]; [|discriminate].
      intro H. injection H as <-.
      constructor; [unfold age_of; now rewrite E|now apply IH].
Qed.

Lemma Forall2_combine {X Y : Type} (R : X -> Y -> Prop) (l : list X) (m : list Y) (x : X) :
  Forall2 R l m -> In x l -> exists y, In (x, y) (combine l m) /\ R x y.
Proof.
  induction 1 as [|a b l m Hab F IH]; [intros []|].
  intros [<-|H]; [exists b; split; [now left|exact Hab]|].
  destruct (IH H) as [y [Hy Ry]]. exists y. split; [now right|exact Ry].
Qed.

Definition counted (n : option nat) : nat :=
  match n with
  | Some k => k
  | None => 0
  end.

(** The table the exclusions start from: one row per identifier among
    the events that are no duplicates. *)
Definition screened (registry : list registry_row) : rows :=
  drop_duplicates
    (filter (fun r => negb (cell_is (Type_of_event (snd r)) "duplicate"))
            (combine (Registry.create_registry_case_identification_column
                        (map identification registry))
                     registry)).

(** X25. The selection of patients accounts for every record.  When
    [patient_selection] returns, no two rows returned share a case
    identifier, and the rows returned together with the four counts of
    the log (patients refusing, not ischemic, under 18, in-hospital;
    a count of an exclusion switched off being none) make up the rows
    screened, one per identifier among the events that are no
    duplicates.  Every row returned is a row of the registry that is no
    duplicate event; it is an ischemic stroke, has no age strictly
    between 1 and 18, and is no in-hospital event, each when the
    exclusion is switched on. *)
Theorem selection_accounts_for_every_record
    (registry : list registry_row) (eds : list eds_row)
    (exclude_patients_under_18 exclude_non_ischemic_stroke exclude_intra_hospital_stroke : bool)
    (out : rows) (log : excluded_patients) :
  patient_selection py_float registry eds exclude_patients_under_18
                    exclude_non_ischemic_stroke exclude_intra_hospital_stroke
  = Returns (out, log) ->
  NoDup (map case_admission_id out)
  /\ List.length out + n_patient_refuses_research log
     + counted (n_patients_not_ischemic_stroke log) + counted (n_patients_under_18 log)
     + counted (n_patients_with_intra_hospital_stroke log)
     = List.length (screened registry)
  /\ forall r, In r out ->
       In (snd r) registry
       /\ Type_of_event (snd r) <> Str "duplicate"
       /\ (exclude_non_ischemic_stroke = true ->
           Type_of_event (snd r) = Str "Ischemic stroke")
       /\ (exclude_patients_under_18 = true ->
           exists x, age_of r = Some x
                     /\ (PrimFloat.ltb x 18 && PrimFloat.ltb 1 x) = false)
       /\ (exclude_intra_hospital_stroke = true ->
           Referral (snd r) <> Str "In-hospital event").
Proof.
  unfold patient_selection. cbv zeta. fold (screened registry).
  set (l0 := screened registry).
  set (eds_df := combine (map ehr_case_admission_id eds) eds).
  set (refusing := PyStr.unique (map _ (filter refuses_use_of_data (consent_df l0 eds_df)))).
  set (l1 := without refusing l0).
  assert (N0 : NoDup (map case_admission_id l0)) by apply drop_duplicates_NoDup.
  assert (C1 : List.length l1 + List.length refusing = List.length l0).
  { apply exclusion_count; [exact N0|apply NoDup_unique|].
    intros c Hc. apply (proj1 (In_unique _ _)) in Hc. apply in_map_iff in Hc.
    destruct Hc as [x [<- Hx]]. apply filter_In in Hx.
    apply (consent_identifiers l0 eds_df). tauto. }
  assert (N1 : NoDup (map case_admission_id l1)) by now apply NoDup_map_filter.
  assert (S0 : forall r, In r l0 -> In (snd r) registry
                                    /\ Type_of_event (snd r) <> Str "duplicate").
  { intros r Hr. unfold l0, screened, drop_duplicates in Hr.
    apply In_unique_by_sub in Hr. apply filter_In in Hr. destruct Hr as [Hr D].
    split; [destruct r as [c q]; now apply in_combine_r in Hr|].
    intro E. rewrite E in D. discriminate. }
  assert (S1 : forall r, In r l1 -> In r l0) by (intros r Hr; now apply without_In in Hr).
  set (l2 := if exclude_non_ischemic_stroke then filter is_ischemic_stroke l1 else l1).
  set (n2 := if exclude_non_ischemic_stroke
             then Some (List.length (PyStr.unique (map case_admission_id l1))
                        - List.length (PyStr.unique
                                         (map case_admission_id
                                              (filter is_ischemic_stroke l1))))
             else None).
  assert (N2 : NoDup (map case_admission_id l2)).
  { unfold l2. destruct exclude_non_ischemic_stroke; [now apply NoDup_map_filter|exact N1]. }
  assert (C2 : List.length l2 + counted n2 = List.length l1).
  { unfold l2, n2. destruct exclude_non_ischemic_stroke; cbn [counted]; [|lia].
    rewrite (unique_NoDup _ N1),
      (unique_NoDup _ (NoDup_map_filter case_admission_id is_ischemic_stroke l1 N1)),
      !length_map.
    pose proof (filter_length_le is_ischemic_stroke l1). lia. }
  assert (S2 : forall r, In r l2 ->
                 In r l1 /\ (exclude_non_ischemic_stroke = true ->
                             Type_of_event (snd r) = Str "Ischemic stroke")).
  { intros r Hr. unfold l2 in Hr. destruct exclude_non_ischemic_stroke.
    - apply filter_In in Hr. destruct Hr as [Hr I]. split; [exact Hr|]. intros _.
      unfold is_ischemic_stroke in I. now apply cell_is_Str in I.
    - split; [exact Hr|discriminate]. }
  set (third := if exclude_patients_under_18 then _ else Returns (l2, None)).
  assert (T : match third with
              | Raises _ => True
              | Returns (l3, n3) =>
                  NoDup (map case_admission_id l3)
                  /\ List.length l3 + counted n3 = List.length l2
                  /\ forall r, In r l3 ->
                       In r l2
                       /\ (exclude_patients_under_18 = true ->
                           exists x, age_of r = Some x
                                     /\ (PrimFloat.ltb x 18 && PrimFloat.ltb 1 x) = false)
              end).
  { unfold third. destruct exclude_patients_under_18.
    - destruct (ages py_float l2) as [age|] eqn:A; [|exact I].
      apply ages_rows in A.
      set (cids := PyStr.unique _).
      split; [now apply NoDup_map_filter|]. split.
      + cbn [counted]. apply exclusion_count; [exact N2|apply NoDup_unique|].
        intros c Hc. apply (proj1 (In_unique _ _)) in Hc. apply in_map_iff in Hc.
        destruct Hc as [[r x] [<- Hx]]. apply filter_In in Hx. destruct Hx as [Hx _].
        apply in_combine_l in Hx. cbn [fst]. now apply in_map.
      + intros r Hr. apply without_In in Hr. destruct Hr as [Hr N].
        split; [exact Hr|]. intros _.
        destruct (Forall2_combine _ _ _ _ A Hr) as [x [Hx Ax]].
        exists x. split; [exact Ax|].
        destruct (PrimFloat.ltb x 18 && PrimFloat.ltb 1 x) eqn:U; [|reflexivity].
        exfalso. apply N. apply In_unique.
        apply (in_map (fun ra : (string * registry_row) * float => case_admission_id (fst ra))
                      _ (r, x)).
        apply filter_In. split; [exact Hx|exact U].
    - split; [exact N2|]. split; [cbn [counted]; lia|].
      intros r Hr. split; [exact Hr|discriminate]. }
  destruct third as [[l3 n3]|e]; [|discriminate].
  destruct T as [N3 [C3 S3]].
  set (cids := PyStr.unique (map case_admission_id (filter _ l3))).
  intro H. injection H as <- <-.
  cbn [n_patient_refuses_research n_patients_not_ischemic_stroke n_patients_under_18
       n_patients_with_intra_hospital_stroke].
  fold n2.
  assert (Stem : forall r, In r l3 ->
                   In (snd r) registry
                   /\ Type_of_event (snd r) <> Str "duplicate"
                   /\ (exclude_non_ischemic_stroke = true ->
                       Type_of_event (snd r) = Str "Ischemic stroke")
                   /\ (exclude_patients_under_18 = true ->
                       exists x, age_of r = Some x
                                 /\ (PrimFloat.ltb x 18 && PrimFloat.ltb 1 x) = false)).
  { intros r Hr. destruct (S3 r Hr) as [H2 A]. destruct (S2 r H2) as [H1 I].
    destruct (S0 r (S1 r H1)) as [R D]. auto. }
  destruct exclude_intra_hospital_stroke.
  - split; [now apply NoDup_map_filter|]. split.
    + cbn [counted].
      assert (C4 : List.length (without cids l3) + List.length cids = List.length l3).
      { apply exclusion_count; [exact N3|apply NoDup_unique|].
        intros c Hc. apply (proj1 (In_unique _ _)) in Hc. apply in_map_iff in Hc.
        destruct Hc as [r [<- Hr]]. apply filter_In in Hr. apply in_map. tauto. }
      lia.
    + intros r Hr. apply without_In in Hr. destruct Hr as [Hr N].
      destruct (Stem r Hr) as [R [D [I A]]]. repeat split; auto.
      intros _ E. apply N. apply In_unique. apply in_map. apply filter_In.
      split; [exact Hr|]. rewrite E. reflexivity.
  - split; [exact N3|]. split; [cbn [counted]; lia|].
    intros r Hr. destruct (Stem r Hr) as [R [D [I A]]]. repeat split; auto. discriminate.
Qed.

End SelectionFacts.

Definition registered (id event : string) (refuses : cell) (age referral : string)
  : Selection.registry_row :=
  Selection.mk_registry_row (Registry.mk_registry "SSR-HUG-" (Some id) (Some "1"))
    (Str event) refuses (Str age) (Str referral).

(** Six events of five patients: one duplicate, and one patient for
    each of the four exclusions. *)
Definition six_events : list Selection.registry_row :=
  [registered "100" "Ischemic stroke" NaN "71" "Emergency service";
   registered "100" "duplicate" NaN "71" "Emergency service";
   registered "200" "Ischemic stroke" NaN "12" "Emergency service";
   registered "300" "Intracerebral hemorrhage" NaN "64" "Emergency service";
   registered "400" "Ischemic stroke" (Str "yes") "80" "Emergency service";
   registered "500" "Ischemic stroke" NaN "55" "In-hospital event"].

Lemma selection_accounts_for_every_record_witness :
  5 = List.length (screened six_events).
Proof.
  refine (proj1 (proj2 (selection_accounts_for_every_record Literal.parse_decimal
                          six_events [Selection.mk_eds_row "400" "1" NaN] true true true
                          [("100_0001",
                            registered "100" "Ischemic stroke" NaN "71" "Emergency service")]
                          (Selection.mk_excluded 3 1 (Some 1) (Some 1) (Some 1)) _))).
  vm_compute. reflexivity.
Defined.
